(** * PBSM: a shallow embedding of the coherence policy, the communication
      handler and the start-up code, with the properties checked on them.

    Source files embedded here:
    - [include/messages.hpp]               (message types and header)
    - [include/abstract_shared.hpp], [include/shared.hpp] (value accessors,
      identifier hash)
    - [include/communication_handler.hpp], [src/communication_handler.cpp]
    - [include/policy.hpp], [src/policy.cpp]
    - [include/pbsm.hpp]
    The operators of [shared<>] are not embedded; no property below
    depends on them.

    Modelling conventions.
    - C integers are [Z]; conversions to [unsigned long] are written out
      with [to_ulong] (64-bit, LP64), decrements of [std::atomic_ulong]
      wrap around, and the [int] that [pbsm_tid] receives from [atoi] is
      written out with [to_int].
    - A [std::map<uint32_t, T*>] is a [gmap Z (option T)]: a key bound to
      [None] is a key bound to [nullptr].  [operator[]] on a missing key
      inserts a null entry; this is kept ([map_index]).
    - Every function returns the events it produced: [send()] calls,
      [notify_all()] calls, ERROR and WARNING log lines.  DEBUG lines are
      left out.  The functions that open the sockets return one trace of
      their system calls and ERROR lines; [pbsm_init] reports the latter
      as events.
    - A call that reaches [condition_variable::wait] returns [Blocked c k]:
      [c] is the condition it sleeps on and [k] names the code that runs
      after the wake-up ([resume]).
    - Mutexes are not modelled: a handler iteration and each half of a hook
      are atomic steps, which is what the per-variable lock provides.  The
      one place where a thread locks a mutex it already holds is kept as an
      explicit outcome ([SelfDeadlock]). *)

From Stdlib Require Import ZArith Strings.Byte Ascii String.
From stdpp Require Import gmap strings list.

Local Open Scope Z_scope.

(** ** Machine integers *)

Definition ULONG_MODULUS : Z := 2 ^ 64.

(** Conversion of a signed value to [unsigned long]. *)
Definition to_ulong (z : Z) : Z := z mod ULONG_MODULUS.

(** [std::map::operator[]]: returns the mapped pointer and inserts a null
    pointer under a key that was missing. *)
Definition map_index {V : Type} (k : Z) (m : gmap Z (option V))
  : option V * gmap Z (option V) :=
  match m !! k with
  | Some ptr => (ptr, m)
  | None => (None, <[k := None]> m)
  end.

(** The half-open range [lo, lo + n) in increasing order, as a [for] loop
    visits it. *)
Definition range (n : Z) : list Z := seqZ 0 n.

(** ** messages.hpp *)

Inductive msg_type_t :=
| MSG_REQUEST_OWNERSHIP
| MSG_GRANT_OWNERSHIP
| MSG_SET_NEW_OWNER
| MSG_ASK_CURRENT_VALUE
| MSG_SET_NEW_VALUE
| MSG_BARRIER_BLOCK
| MSG_BARRIER_UNBLOCK
| MSG_INVALIDATE_COPY
| MSG_INVALIDATE_COPY_ACK.

(** The enumerators' values. *)
Definition msg_type_code (t : msg_type_t) : Z :=
  match t with
  | MSG_REQUEST_OWNERSHIP => 1
  | MSG_GRANT_OWNERSHIP => 2
  | MSG_SET_NEW_OWNER => 3
  | MSG_ASK_CURRENT_VALUE => 4
  | MSG_SET_NEW_VALUE => 5
  | MSG_BARRIER_BLOCK => 6
  | MSG_BARRIER_UNBLOCK => 7
  | MSG_INVALIDATE_COPY => 8
  | MSG_INVALIDATE_COPY_ACK => 9
  end.

(** What the [switch (msg.type)] of the receiver sees: one of the nine
    enumerators, or [None] for the [default] label. *)
Definition msg_type_of_code (c : Z) : option msg_type_t :=
  if c =? 1 then Some MSG_REQUEST_OWNERSHIP
  else if c =? 2 then Some MSG_GRANT_OWNERSHIP
  else if c =? 3 then Some MSG_SET_NEW_OWNER
  else if c =? 4 then Some MSG_ASK_CURRENT_VALUE
  else if c =? 5 then Some MSG_SET_NEW_VALUE
  else if c =? 6 then Some MSG_BARRIER_BLOCK
  else if c =? 7 then Some MSG_BARRIER_UNBLOCK
  else if c =? 8 then Some MSG_INVALIDATE_COPY
  else if c =? 9 then Some MSG_INVALIDATE_COPY_ACK
  else None.

(** [struct msg_t].  The fields are [type], [id] and the union [data]
    ([data.node] and [data.var_size] share the same eight bytes); they are
    prefixed here because [id] and [type] are taken in Rocq. *)
Record msg_t := Msg {
  msg_type : Z;      (* the raw enumerator value, as it travels *)
  msg_id : Z;        (* variable or barrier id, uint32_t *)
  msg_data : Z       (* data.node / data.var_size, unsigned long *)
}.

Definition mk_msg (t : msg_type_t) (i d : Z) : msg_t :=
  Msg (msg_type_code t) i d.

#[global] Instance msg_type_t_eq_dec : EqDecision msg_type_t.
Proof. solve_decision. Defined.

#[global] Instance msg_t_eq_dec : EqDecision msg_t.
Proof. solve_decision. Defined.

(** ** abstract_shared.hpp, shared.hpp: the value accessors *)

(** A [shared<T>] seen through [AbstractShared]: its id and the object
    representation of the [T] it holds ([get_size] is [sizeof(T)]). *)
Record AbstractShared := Shared {
  id_ : Z;
  data_ : list byte
}.

Definition get_id (a : AbstractShared) : Z := id_ a.

Definition get_size (a : AbstractShared) : Z := Z.of_nat (length (data_ a)).

(** [get_value]: copies the [sizeof(T)] bytes of the value out. *)
Definition get_value (a : AbstractShared) : list byte := data_ a.

(** [set_value]: [data_ = *((T* ) new_value_buffer)] reads [sizeof(T)] bytes
    from the buffer.  A buffer shorter than that is read past its end; the
    model returns [None] there. *)
Definition set_value (buf : list byte) (a : AbstractShared)
  : option AbstractShared :=
  if decide (length (data_ a) ≤ length buf)%nat
  then Some (Shared (id_ a) (take (length (data_ a)) buf))
  else None.

(** ** Events *)

Inductive cond :=
| wait_value_updated_ (var_id : Z)
| waiting_ownership_grant_ (var_id : Z)
| waiting_invalidate_copies_wait_condition_ (var_id : Z)
| barrier_wait_condition_ (s : Z)
| slave_wait_barrier_.

#[global] Instance cond_eq_dec : EqDecision cond.
Proof. solve_decision. Defined.

Inductive wire :=
| Header (m : msg_t)
| Raw (bytes : list byte).

Inductive event :=
| EvSend (dest : Z) (w : wire)     (* one [send()] on the channel to [dest] *)
| EvNotify (c : cond)              (* [notify_all()] *)
| EvError (what : string)
| EvWarning (what : string).

(** The headers handed to [send()], with their destinations, in order. *)
Fixpoint sent (evs : list event) : list (Z * msg_t) :=
  match evs with
  | [] => []
  | EvSend d (Header m) :: evs' => (d, m) :: sent evs'
  | _ :: evs' => sent evs'
  end.

(** Every [send()] call, header or raw buffer. *)
Fixpoint transmissions (evs : list event) : list (Z * wire) :=
  match evs with
  | [] => []
  | EvSend d w :: evs' => (d, w) :: transmissions evs'
  | _ :: evs' => transmissions evs'
  end.

Fixpoint notified (evs : list event) : list cond :=
  match evs with
  | [] => []
  | EvNotify c :: evs' => c :: notified evs'
  | _ :: evs' => notified evs'
  end.

(** ** communication_handler.hpp *)

Definition MAX_NUMBER_OF_NODES : Z := 100.
Definition network_port_offset : Z := 2000.

(** [struct connection]; a descriptor is [None] until [socket()] assigned
    it.  The send channel lock is not modelled. *)
Record connection := Connection {
  ip : string;
  recv_port : Z;
  recv_fd : option Z;
  send_port : Z;
  send_fd : option Z
}.

(** [connections_] is a [std::array] of 100 default-constructed entries; a
    slot is present in the map once the constructor has written it. *)
Record CommunicationHandler := Comm {
  connections_ : gmap Z connection;
  number_of_nodes_ : Z
}.

(** What the policy code reads from its surroundings: the global
    [pbsm_tid], the communication handler singleton, and whether a
    [send()] on the channel to a node transmits the whole buffer. *)
Record runtime := Runtime {
  pbsm_tid : Z;
  comm : CommunicationHandler;
  send_ok : Z → bool
}.

Definition get_number_of_nodes (rt : runtime) : Z := number_of_nodes_ (comm rt).

(** One [send()] and the check of its return value. *)
Definition send_one (rt : runtime) (what : string) (w : wire) (dest : Z)
  : list event * bool :=
  if send_ok rt dest then ([EvSend dest w], true)
  else ([EvSend dest w; EvError what], false).

(** [send_to_all]: every index below [number_of_nodes_] except [pbsm_tid]. *)
Fixpoint send_to_all_loop (rt : runtime) (w : wire) (nodes : list Z)
  : list event * bool :=
  match nodes with
  | [] => ([], true)
  | i :: rest =>
      if decide (i ≠ pbsm_tid rt) then
        let '(evs, ok) := send_one rt "ERROR: Sending data" w i in
        let '(evs', ret) := send_to_all_loop rt w rest in
        (evs ++ evs', ok && ret)
      else send_to_all_loop rt w rest
  end.

Definition send_to_all (rt : runtime) (m : msg_t) : list event * bool :=
  send_to_all_loop rt (Header m) (range (get_number_of_nodes rt)).

Fixpoint send_two_messages_to_all_loop (rt : runtime) (w1 w2 : wire)
    (nodes : list Z) : list event * bool :=
  match nodes with
  | [] => ([], true)
  | i :: rest =>
      if decide (i ≠ pbsm_tid rt) then
        let '(evs1, ok1) := send_one rt "ERROR: Sending data" w1 i in
        let '(evs2, ok2) := send_one rt "ERROR: Sending data" w2 i in
        let '(evs', ret) := send_two_messages_to_all_loop rt w1 w2 rest in
        (evs1 ++ evs2 ++ evs', ok1 && ok2 && ret)
      else send_two_messages_to_all_loop rt w1 w2 rest
  end.

Definition send_two_messages_to_all (rt : runtime) (m : msg_t)
    (d : list byte) : list event * bool :=
  send_two_messages_to_all_loop rt (Header m) (Raw d)
    (range (get_number_of_nodes rt)).

(** [send_to]: [rem_node_id] is an [unsigned long], so the comparison with
    [pbsm_tid] converts the latter. *)
Definition send_to (rt : runtime) (m : msg_t) (rem_node_id : Z)
  : list event * bool :=
  if decide (rem_node_id = to_ulong (pbsm_tid rt)) then
    ([EvError "Trying to send data to myself"], false)
  else send_one rt "ERROR: Sending data" (Header m) rem_node_id.

Definition send_two_messages_to (rt : runtime) (m : msg_t) (d : list byte)
    (rem_node_id : Z) : list event * bool :=
  if decide (rem_node_id = to_ulong (pbsm_tid rt)) then
    ([EvError "Trying to send data to myself"], false)
  else
    let '(evs1, ok1) := send_one rt "ERROR: Sending msg1 data" (Header m) rem_node_id in
    let '(evs2, ok2) := send_one rt "ERROR: Sending msg2 data" (Raw d) rem_node_id in
    (evs1 ++ evs2, ok1 && ok2).

(** ** policy.hpp: data *)

(** [enum class state]. *)
Inductive state :=
| OWNER_NO_SHARED
| OWNER_SHARED
| REMOTE_OWNER_CACHED
| REMOTE_OWNER_NO_CACHED.

#[global] Instance state_eq_dec : EqDecision state.
Proof. solve_decision. Defined.

(** [struct semaphore]: the [std::atomic_ulong] counter.  Its condition
    variable is named by a [cond]. *)
Record semaphore := Semaphore { counter_ : Z }.

(** [counter_--] on an [unsigned long]. *)
Definition decrement (c : Z) : Z := (c - 1) mod ULONG_MODULUS.

(** The anonymous struct [policy_data_]. *)
Record policy_data := PolicyData {
  state_ : state;
  remote_owner_ : Z;
  waiting_invalidate_copies_ : semaphore
}.

Record var_data := VarData {
  variable_ : AbstractShared;
  policy_data_ : policy_data
}.

Record Policy := MkPolicy {
  dictionary_ : gmap Z (option var_data);
  master_waiting_barrier_grants_ : gmap Z (option semaphore)
}.

Definition set_state (s : state) (v : var_data) : var_data :=
  VarData (variable_ v)
    (PolicyData s (remote_owner_ (policy_data_ v))
       (waiting_invalidate_copies_ (policy_data_ v))).

Definition set_remote_owner (n : Z) (v : var_data) : var_data :=
  VarData (variable_ v)
    (PolicyData (state_ (policy_data_ v)) n
       (waiting_invalidate_copies_ (policy_data_ v))).

Definition set_counter (c : Z) (v : var_data) : var_data :=
  VarData (variable_ v)
    (PolicyData (state_ (policy_data_ v)) (remote_owner_ (policy_data_ v))
       (Semaphore c)).

Definition set_variable (a : AbstractShared) (v : var_data) : var_data :=
  VarData a (policy_data_ v).

Definition set_dictionary (d : gmap Z (option var_data)) (p : Policy) : Policy :=
  MkPolicy d (master_waiting_barrier_grants_ p).

Definition set_grants (g : gmap Z (option semaphore)) (p : Policy) : Policy :=
  MkPolicy (dictionary_ p) g.

(** A write through the pointer [v] that a function obtained from
    [dictionary_[var_id]]: the record under [var_id] is replaced. *)
Definition store_var (var_id : Z) (v : var_data) (p : Policy) : Policy :=
  set_dictionary (<[var_id := Some v]> (dictionary_ p)) p.

(** The record registered under an id, if there is one (no insertion). *)
Definition registered (p : Policy) (var_id : Z) : option var_data :=
  match dictionary_ p !! var_id with
  | Some ptr => ptr
  | None => None
  end.

(** ** Threads *)

(** The places where a thread sleeps, named by the code that follows the
    [wait]. *)
Inductive wake_point :=
| after_wait_value_updated (var_id : Z)              (* before_local_read *)
| after_wait_ownership_grant (var_id : Z) (ret : bool)   (* before_local_write *)
| after_wait_invalidate_copies (var_id : Z) (ret : bool) (* before_local_write *)
| after_wait_master_barrier (s : Z) (indet : Z)      (* thread_wait_master_barrier *)
| after_wait_slave_barrier.                          (* thread_wait_slave_barrier *)

Inductive retval :=
| RVoid
| RBool (b : bool).

Inductive thread_status :=
| Returned (r : retval)
| Blocked (c : cond) (k : wake_point).

(** ** policy.hpp: private helpers *)

Definition requestCurrentValue (rt : runtime) (v : var_data)
  : list event * bool :=
  let owner := remote_owner_ (policy_data_ v) in
  let msg := mk_msg MSG_ASK_CURRENT_VALUE (get_id (variable_ v))
               (to_ulong (pbsm_tid rt)) in
  let '(evs, ok) := send_to rt msg owner in
  if ok then (evs, true)
  else (evs ++ [EvError "ERROR in sending MSG_ASK_CURRENT_VALUE"], false).

Definition send_request_ownership (rt : runtime) (var : var_data)
  : list event * bool :=
  let msg := mk_msg MSG_REQUEST_OWNERSHIP (get_id (variable_ var))
               (to_ulong (pbsm_tid rt)) in
  let '(evs, ok) := send_to_all rt msg in
  if ok then (evs, true)
  else (evs ++ [EvError "ERROR in sending MSG_REQUEST_OWNERSHIP"], false).

(** [change_owner] takes the variable's mutex itself.  [held] says that
    the calling thread already holds it; [std::mutex] is not recursive, so
    the call never gets the lock then and the result is [None]. *)
Definition change_owner (held : bool) (var : var_data) (node : Z)
  : option (var_data * bool) :=
  if held then None
  else
    let ret :=
      match state_ (policy_data_ var) with
      | OWNER_NO_SHARED | OWNER_SHARED => true
      | _ => false
      end in
    Some (set_remote_owner node (set_state REMOTE_OWNER_NO_CACHED var), ret).

(** ** policy.hpp: hooks *)

Definition before_local_read (rt : runtime) (var_id : Z) (p : Policy)
  : Policy * list event * thread_status :=
  let '(v, d) := map_index var_id (dictionary_ p) in
  let p := set_dictionary d p in
  match v with
  | Some v =>
      match state_ (policy_data_ v) with
      | REMOTE_OWNER_NO_CACHED =>
          let '(evs, _) := requestCurrentValue rt v in
          (p, evs, Blocked (wait_value_updated_ var_id)
                           (after_wait_value_updated var_id))
      | _ => (p, [], Returned RVoid)
      end
  | None => (p, [], Returned RVoid)
  end.

Definition before_local_write (rt : runtime) (var_id : Z) (p : Policy)
  : Policy * list event * thread_status :=
  let ret := true in
  let '(v, d) := map_index var_id (dictionary_ p) in
  let p := set_dictionary d p in
  match v with
  | Some v =>
      match state_ (policy_data_ v) with
      | REMOTE_OWNER_NO_CACHED | REMOTE_OWNER_CACHED =>
          let '(evs, _) := send_request_ownership rt v in
          (p, evs, Blocked (waiting_ownership_grant_ var_id)
                           (after_wait_ownership_grant var_id ret))
      | OWNER_SHARED =>
          let ans := mk_msg MSG_INVALIDATE_COPY var_id (to_ulong (pbsm_tid rt)) in
          let '(evs, ok) := send_to_all rt ans in
          let evs := if ok then evs
                     else evs ++ [EvError "ERROR in sending MSG_INVALIDATE_COPY"] in
          let ret := if ok then ret else false in
          let v := set_counter (to_ulong (get_number_of_nodes rt - 1)) v in
          (store_var var_id v p, evs,
           Blocked (waiting_invalidate_copies_wait_condition_ var_id)
                   (after_wait_invalidate_copies var_id ret))
      | OWNER_NO_SHARED => (p, [], Returned (RBool ret))
      end
  | None => (p, [], Returned (RBool false))
  end.

Definition after_local_write (var_id : Z) (p : Policy) : Policy := p.

Definition after_remote_write (var_id : Z) (p : Policy)
  : Policy * list event :=
  let '(v, d) := map_index var_id (dictionary_ p) in
  let p := set_dictionary d p in
  match v with
  | Some _ => (p, [EvNotify (wait_value_updated_ var_id)])
  | None => (p, [EvWarning "Not unblocking wait_value_updated_"])
  end.

(** ** policy.cpp: barriers *)

Definition thread_wait_master_barrier (rt : runtime) (s : Z) (indet : Z)
    (p : Policy) : Policy * list event * thread_status :=
  let '(elem, g) := map_index s (master_waiting_barrier_grants_ p) in
  let elem :=
    match elem with
    | Some e => e
    | None => Semaphore (to_ulong (get_number_of_nodes rt))
    end in
  let elem := Semaphore (decrement (counter_ elem)) in
  let g := <[s := Some elem]> g in
  if 0 <? counter_ elem then
    (set_grants g p, [], Blocked (barrier_wait_condition_ s)
                                 (after_wait_master_barrier s indet))
  else
    let g := <[s := None]> g in
    let ans := mk_msg MSG_BARRIER_UNBLOCK s indet in
    let '(evs, ok) := send_to_all rt ans in
    let evs := if ok then evs
               else evs ++ [EvError "ERROR in sending MSG_BARRIER_UNBLOCK"] in
    (set_grants g p, evs, Returned RVoid).

Definition thread_wait_slave_barrier (rt : runtime) (s : Z) (indet : Z)
    (p : Policy) : Policy * list event * thread_status :=
  let ans := mk_msg MSG_BARRIER_BLOCK s indet in
  let '(evs, ok) := send_to rt ans 0 in
  let evs := if ok then evs
             else evs ++ [EvError "ERROR in sending MSG_BARRIER_BLOCK"] in
  (p, evs, Blocked slave_wait_barrier_ after_wait_slave_barrier).

Definition thread_wait_barrier (rt : runtime) (s : Z) (indet : Z) (p : Policy)
  : Policy * list event * thread_status :=
  if decide (pbsm_tid rt = 0) then thread_wait_master_barrier rt s indet p
  else thread_wait_slave_barrier rt s indet p.

(** The code after each [wait].  The hooks keep the pointer they read
    before sleeping, so the write goes to the record that is under the id;
    when that record was destroyed in the meantime the C++ write goes
    through a dangling pointer and the model leaves the policy as it is. *)
Definition resume (rt : runtime) (k : wake_point) (p : Policy)
  : Policy * list event * retval :=
  match k with
  | after_wait_value_updated var_id =>
      match registered p var_id with
      | Some v => (store_var var_id (set_state REMOTE_OWNER_CACHED v) p, [], RVoid)
      | None => (p, [], RVoid)
      end
  | after_wait_ownership_grant var_id ret =>
      match registered p var_id with
      | Some v => (store_var var_id (set_state OWNER_NO_SHARED v) p, [], RBool ret)
      | None => (p, [], RBool ret)
      end
  | after_wait_invalidate_copies var_id ret =>
      match registered p var_id with
      | Some v => (store_var var_id (set_state OWNER_NO_SHARED v) p, [], RBool ret)
      | None => (p, [], RBool ret)
      end
  | after_wait_master_barrier s indet =>
      let g := <[s := None]> (master_waiting_barrier_grants_ p) in
      let ans := mk_msg MSG_BARRIER_UNBLOCK s indet in
      let '(evs, ok) := send_to_all rt ans in
      let evs := if ok then evs
                 else evs ++ [EvError "ERROR in sending MSG_BARRIER_UNBLOCK"] in
      (set_grants g p, evs, RVoid)
  | after_wait_slave_barrier => (p, [], RVoid)
  end.

(** ** policy.cpp: the receiver *)

(** How one iteration of the receiver loop ends. *)
Inductive handler_status :=
| Completed          (* reached [break] and goes back to [recv_from] *)
| SelfDeadlock       (* stuck locking a mutex this thread already holds *)
| Undefined.         (* read past the end of the payload buffer *)

(** One iteration of the [for(;;)] loop of [receive_messages], run by the
    thread that listens to [rem_node]: [msg] is the header that
    [recv_from] left in the buffer and [d] is the content of the buffer of
    [msg.data.var_size] bytes that the [MSG_SET_NEW_VALUE] case fills with
    a second [recv_from] on the same channel.  A failed [recv_from] only
    logs an ERROR line and the iteration goes on with what the buffer
    holds; that line is left out. *)
Definition receive_messages_body (rt : runtime) (rem_node : Z) (msg : msg_t)
    (d : list byte) (p : Policy) : Policy * list event * handler_status :=
  match msg_type_of_code (msg_type msg) with
  | Some MSG_REQUEST_OWNERSHIP =>
      let '(v, dict) := map_index (msg_id msg) (dictionary_ p) in
      let p := set_dictionary dict p in
      match v with
      | Some v =>
          match state_ (policy_data_ v) with
          | OWNER_NO_SHARED | OWNER_SHARED =>
              let v := set_remote_owner (msg_data msg)
                         (set_state REMOTE_OWNER_NO_CACHED v) in
              let ans := mk_msg MSG_GRANT_OWNERSHIP (msg_id msg)
                           (to_ulong (pbsm_tid rt)) in
              let '(evs, ok) := send_to rt ans (msg_data msg) in
              let evs := if ok then evs
                         else evs ++ [EvError "ERROR in sending grant message"] in
              (store_var (msg_id msg) v p, evs, Completed)
          | _ =>
              let ans := mk_msg MSG_SET_NEW_OWNER (msg_id msg)
                           (remote_owner_ (policy_data_ v)) in
              let '(evs, ok) := send_to rt ans (msg_data msg) in
              let evs := if ok then evs
                         else evs ++ [EvError "ERROR in sending MSG_SET_NEW_OWNER message"] in
              (p, evs, Completed)
          end
      | None => (p, [], Completed)
      end
  | Some MSG_GRANT_OWNERSHIP =>
      let '(v, dict) := map_index (msg_id msg) (dictionary_ p) in
      let p := set_dictionary dict p in
      match v with
      | None =>
          (p, [EvError "Received MSG_GRANT_OWNERSHIP but no ownership was requested"],
           Completed)
      | Some _ =>
          (p, [EvNotify (waiting_ownership_grant_ (msg_id msg))], Completed)
      end
  | Some MSG_ASK_CURRENT_VALUE =>
      let '(v, dict) := map_index (msg_id msg) (dictionary_ p) in
      let p := set_dictionary dict p in
      match v with
      | Some v =>
          match state_ (policy_data_ v) with
          | REMOTE_OWNER_CACHED | REMOTE_OWNER_NO_CACHED =>
              let ans := mk_msg MSG_SET_NEW_OWNER (msg_id msg)
                           (remote_owner_ (policy_data_ v)) in
              let '(evs, ok) := send_to rt ans (msg_data msg) in
              let evs := if ok then evs
                         else evs ++ [EvError "ERROR in sending MSG_SET_NEW_OWNER message"] in
              (p, evs, Completed)
          | _ =>
              let v := set_state OWNER_SHARED v in
              let ans := mk_msg MSG_SET_NEW_VALUE (msg_id msg)
                           (get_size (variable_ v)) in
              let data := get_value (variable_ v) in
              let '(evs, _) := send_two_messages_to rt ans data (msg_data msg) in
              (store_var (msg_id msg) v p, evs, Completed)
          end
      | None => (p, [EvError "Variable not found"], Completed)
      end
  | Some MSG_SET_NEW_VALUE =>
      let '(v, dict) := map_index (msg_id msg) (dictionary_ p) in
      let p := set_dictionary dict p in
      match v with
      | None => (p, [EvError "Variable not found"], Completed)
      | Some v =>
          match set_value d (variable_ v) with
          | Some a =>
              let p := store_var (msg_id msg) (set_variable a v) p in
              let '(p, evs) := after_remote_write (msg_id msg) p in
              (p, evs, Completed)
          | None => (p, [], Undefined)
          end
      end
  | Some MSG_BARRIER_BLOCK =>
      let evs :=
        if decide (pbsm_tid rt ≠ 0)
        then [EvError "Received message MSG_BARRIER_BLOCK but I'm not the master"]
        else [] in
      let '(elem, g) := map_index (msg_id msg) (master_waiting_barrier_grants_ p) in
      let elem :=
        match elem with
        | Some e => e
        | None => Semaphore (to_ulong (get_number_of_nodes rt))
        end in
      let elem := Semaphore (decrement (counter_ elem)) in
      let g := <[msg_id msg := Some elem]> g in
      let evs :=
        if counter_ elem =? 0
        then evs ++ [EvNotify (barrier_wait_condition_ (msg_id msg))]
        else evs in
      (set_grants g p, evs, Completed)
  | Some MSG_BARRIER_UNBLOCK =>
      let evs :=
        if decide (pbsm_tid rt = 0)
        then [EvError "Received message MSG_BARRIER_UNBLOCK but I'm the master"]
        else [] in
      (p, evs ++ [EvNotify slave_wait_barrier_], Completed)
  | Some MSG_SET_NEW_OWNER =>
      let '(v, dict) := map_index (msg_id msg) (dictionary_ p) in
      let p := set_dictionary dict p in
      match v with
      | Some v =>
          (* the handler holds [v]'s mutex when it calls [change_owner] *)
          match change_owner true v (msg_data msg) with
          | Some (v, _) =>
              let '(evs, _) := send_request_ownership rt v in
              (store_var (msg_id msg) v p, evs, Completed)
          | None => (p, [], SelfDeadlock)
          end
      | None => (p, [], Completed)
      end
  | Some MSG_INVALIDATE_COPY =>
      let '(v, dict) := map_index (msg_id msg) (dictionary_ p) in
      let p := set_dictionary dict p in
      let p :=
        match v with
        | Some v => store_var (msg_id msg) (set_state REMOTE_OWNER_NO_CACHED v) p
        | None => p
        end in
      let ans := mk_msg MSG_INVALIDATE_COPY_ACK (msg_id msg)
                   (to_ulong (pbsm_tid rt)) in
      let '(evs, ok) := send_to rt ans (msg_data msg) in
      let evs := if ok then evs
                 else evs ++ [EvError "ERROR in sending MSG_INVALIDATE_COPY_ACK"] in
      (p, evs, Completed)
  | Some MSG_INVALIDATE_COPY_ACK =>
      let '(v, dict) := map_index (msg_id msg) (dictionary_ p) in
      let p := set_dictionary dict p in
      match v with
      | Some v =>
          let c := decrement (counter_ (waiting_invalidate_copies_ (policy_data_ v))) in
          let p := store_var (msg_id msg) (set_counter c v) p in
          if c =? 0
          then (p, [EvNotify (waiting_invalidate_copies_wait_condition_ (msg_id msg))],
                Completed)
          else (p, [], Completed)
      | None => (p, [], Completed)
      end
  | None => (p, [EvError "ERROR: Unrecognized message"], Completed)
  end.

(** ** A node: the policy and the application thread *)

(** The state of one node as the properties below need it: the policy
    singleton and what the application thread is doing. *)
Record node := Node {
  policy : Policy;
  app : thread_status
}.

(** A receiver thread handles one message; when the handler called
    [notify_all] on the condition the application thread sleeps on, that
    thread runs on from its wake point once the handler has released the
    lock.  (A [wait] returns only on a notification here.) *)
Definition deliver (rt : runtime) (rem_node : Z) (msg : msg_t) (d : list byte)
    (nd : node) : node * list event :=
  let '(p, evs, _) := receive_messages_body rt rem_node msg d (policy nd) in
  match app nd with
  | Blocked c k =>
      if decide (c ∈ notified evs) then
        let '(p', evs', r) := resume rt k p in
        (Node p' (Returned r), evs ++ evs')
      else (Node p (app nd), evs)
  | Returned _ => (Node p (app nd), evs)
  end.

(** A finite run of the receivers: the messages in the order in which
    their handlers take the locks, each with the channel it came from. *)
Fixpoint deliver_all (rt : runtime) (incoming : list (Z * msg_t * list byte))
    (nd : node) : node * list event :=
  match incoming with
  | [] => (nd, [])
  | (rem_node, msg, d) :: rest =>
      let '(nd', evs) := deliver rt rem_node msg d nd in
      let '(nd'', evs') := deliver_all rt rest nd' in
      (nd'', evs ++ evs')
  end.

(** The application thread calls a hook. *)
Definition call (hook : Policy → Policy * list event * thread_status)
    (nd : node) : node * list event :=
  let '(p, evs, st) := hook (policy nd) in (Node p st, evs).

(** ** Outcomes of the start-up code *)

Inductive outcome (A : Type) :=
| Normal (a : A)
| Thrown (what : string)      (* a [std::runtime_error] leaves the function *)
| Exited (code : Z)           (* [exit(code)] *)
| Unspecified.                (* null dereference or indeterminate read *)

Arguments Normal {A} a.
Arguments Thrown {A} what.
Arguments Exited {A} code.
Arguments Unspecified {A}.

(** The status a parent process sees after [exit(code)]. *)
Definition exit_status (code : Z) : Z := code mod 256.

(** ** communication_handler.cpp: the constructor *)

(** [isspace] in the C locale. *)
Definition isspace (c : ascii) : bool :=
  let n := nat_of_ascii c in
  ((n =? 32) || ((9 <=? n) && (n <=? 13)))%nat.

(** [std::istream >> std::string] on a stream in good state whose unread
    content is [s].  The result is the extracted word (if any), the unread
    rest and the value of [eof()] afterwards: leading white space is
    skipped, then characters are taken up to the next white space; hitting
    the end of the file in either phase sets [eofbit]. *)
Fixpoint skipws (s : string) : string :=
  match s with
  | EmptyString => EmptyString
  | String c s' => if isspace c then skipws s' else s
  end.

Fixpoint read_word (s : string) : string * string * bool :=
  match s with
  | EmptyString => (EmptyString, EmptyString, true)
  | String c s' =>
      if isspace c then (EmptyString, s, false)
      else let '(w, rest, eof) := read_word s' in (String c w, rest, eof)
  end.

Definition extract (s : string) : option string * string * bool :=
  match skipws s with
  | EmptyString => (None, EmptyString, true)
  | s' => let '(w, rest, eof) := read_word s' in (Some w, rest, eof)
  end.

(** The loop [for (int i = 0; ; ++i)] of the constructor.  [fuel] bounds
    the number of iterations of the model; [constructor_loop_total] below
    shows that [MAX_NUMBER_OF_NODES] iterations are always enough.  The slot
    whose [ip] the last, interrupted extraction assigned is not counted in
    [number_of_nodes_] and never read; it is left out of the map. *)
Fixpoint constructor_loop (fuel : nat) (tid : Z) (i : Z) (config_file : string)
    (c : CommunicationHandler) : option (CommunicationHandler * list event) :=
  match fuel with
  | O => None
  | S fuel' =>
      let '(w, rest, eof) := extract config_file in
      if eof then Some (c, [])
      else
        let entry := Connection (default EmptyString w)
                       (network_port_offset + i) None
                       (network_port_offset + tid) None in
        let c := Comm (<[i := entry]> (connections_ c)) (number_of_nodes_ c + 1) in
        if number_of_nodes_ c =? MAX_NUMBER_OF_NODES then
          Some (c, [EvWarning "Maximum number of nodes in config file reached"])
        else constructor_loop fuel' tid (i + 1) rest c
  end.

(** [CommunicationHandler::CommunicationHandler()], run with the value
    that [pbsm_tid] has at that moment.  [config_file] is the content of
    /etc/pbsm/hosts.conf, [None] when it cannot be opened. *)
Definition CommunicationHandler_ctor (tid : Z) (config_file : option string)
  : outcome (CommunicationHandler * list event) :=
  match config_file with
  | None => Thrown "Config file missing"
  | Some content =>
      match constructor_loop (Z.to_nat MAX_NUMBER_OF_NODES) tid 0 content
              (Comm ∅ 0) with
      | Some r => Normal r
      | None => Unspecified
      end
  end.

(** ** communication_handler.cpp: opening the sockets *)

(** What the functions that open the sockets do, in order: the system
    calls, and the ERROR line that precedes each [throw]. *)
Inductive syscall :=
| sys_socket (fd : Z)
| sys_bind (fd : Z) (sin_addr : Z) (sin_port : Z)
| sys_connect (fd : Z) (sin_addr : Z) (sin_port : Z)
| sys_close (fd : Z)
| log_error (what : string).

(** The answers of the operating system: the descriptor that [socket()]
    returns for the receive and for the send side of an entry, and the
    return values of [bind] and [connect] on a descriptor. *)
Record os := OS {
  recv_socket : Z → Z;
  send_socket : Z → Z;
  bind_result : Z → Z;
  connect_result : Z → Z
}.

Definition INADDR_ANY : Z := 0.

(** [htons] takes a [uint16_t]. *)
Definition htons_arg (port : Z) : Z := port mod 65536.

Definition start_recv_server (o : os) (entry : Z) (c : CommunicationHandler)
  : list syscall * outcome CommunicationHandler :=
  match connections_ c !! entry with
  | None => ([], Unspecified)
  | Some s =>
      let fd := recv_socket o entry in
      let s := Connection (ip s) (recv_port s) (Some fd) (send_port s) (send_fd s) in
      let c := Comm (<[entry := s]> (connections_ c)) (number_of_nodes_ c) in
      if fd <? 0 then
        ([sys_socket fd; log_error "Receive socket creation"],
         Thrown "Receive socket error")
      else if bind_result o fd <? 0 then
        ([sys_socket fd; sys_bind fd INADDR_ANY (htons_arg (recv_port s)); sys_close fd;
          log_error "Socket binding"],
         Thrown "Bind error")
      else
        ([sys_socket fd; sys_bind fd INADDR_ANY (htons_arg (recv_port s))], Normal c)
  end.

(** In [start_send_client] the address parsed by [inet_aton] goes to a local
    variable and the [memcpy] that follows copies from [serv_addr] into that
    variable, so [serv_addr.sin_addr] still holds the zero of the [memset]
    when [connect] is called. *)
Definition start_send_client (o : os) (entry : Z) (c : CommunicationHandler)
  : list syscall * outcome CommunicationHandler :=
  match connections_ c !! entry with
  | None => ([], Unspecified)
  | Some s =>
      let fd := send_socket o entry in
      let s := Connection (ip s) (recv_port s) (recv_fd s) (send_port s) (Some fd) in
      let c := Comm (<[entry := s]> (connections_ c)) (number_of_nodes_ c) in
      if fd <? 0 then
        ([sys_socket fd; log_error "Send socket creation"],
         Thrown "Send socket error")
      else if connect_result o fd <? 0 then
        ([sys_socket fd; sys_connect fd 0 (htons_arg (send_port s)); sys_close fd;
          log_error "connect()"],
         Thrown "Client socket error")
      else
        ([sys_socket fd; sys_connect fd 0 (htons_arg (send_port s))], Normal c)
  end.

(** A loop [for (i = 0; i < number_of_nodes_; ++i) if (i != pbsm_tid) start(i)]. *)
Fixpoint start_each
    (start : Z → CommunicationHandler → list syscall * outcome CommunicationHandler)
    (tid : Z) (entries : list Z) (c : CommunicationHandler)
  : list syscall * outcome CommunicationHandler :=
  match entries with
  | [] => ([], Normal c)
  | i :: rest =>
      if decide (i ≠ tid) then
        match start i c with
        | (calls, Normal c') =>
            let '(calls', r) := start_each start tid rest c' in
            (calls ++ calls', r)
        | (calls, r) => (calls, r)
        end
      else start_each start tid rest c
  end.

(** [create_connections]: the receive sockets first, then (after a sleep)
    the send sockets. *)
Definition create_connections (o : os) (tid : Z) (c : CommunicationHandler)
  : list syscall * outcome CommunicationHandler :=
  match start_each (start_recv_server o) tid (range (number_of_nodes_ c)) c with
  | (calls, Normal c') =>
      let '(calls', r) :=
        start_each (start_send_client o) tid (range (number_of_nodes_ c')) c' in
      (calls ++ calls', r)
  | (calls, r) => (calls, r)
  end.

(** ** policy.hpp: start-up *)

(** [slave_node_init] and [master_node_init] go through every entry of
    [dictionary_] and dereference its pointer. *)
Definition all_non_null (d : gmap Z (option var_data)) : bool :=
  bool_decide (map_Forall (λ _ ptr, is_Some ptr) d).

Definition slave_node_init (p : Policy) : option Policy :=
  if all_non_null (dictionary_ p) then
    Some (set_dictionary
            ((λ ptr : option var_data,
                (λ v, set_remote_owner 0 (set_state REMOTE_OWNER_CACHED v)) <$> ptr)
               <$> dictionary_ p) p)
  else None.

Definition master_node_init (p : Policy) : option Policy :=
  if all_non_null (dictionary_ p) then
    Some (set_dictionary
            ((λ ptr : option var_data, set_state OWNER_SHARED <$> ptr)
               <$> dictionary_ p) p)
  else None.

(** [start_receiving]: the remote nodes for which a receiver thread is
    started, in the order of [threads_]. *)
Definition start_receiving (rt : runtime) : list Z :=
  filter (λ i, i ≠ pbsm_tid rt) (range (get_number_of_nodes rt)).

(** ** pbsm.hpp *)

Definition digit_value (c : ascii) : option Z :=
  let n := Z.of_nat (nat_of_ascii c) in
  if (48 <=? n) && (n <=? 57) then Some (n - 48) else None.

Fixpoint strtol_digits (acc : Z) (s : string) : Z :=
  match s with
  | EmptyString => acc
  | String c s' =>
      match digit_value c with
      | Some d => strtol_digits (10 * acc + d) s'
      | None => acc
      end
  end.

(** [long] and [int] on LP64: 64 and 32 bits, two's complement. *)
Definition LONG_MAX : Z := 2 ^ 63 - 1.
Definition LONG_MIN : Z := - 2 ^ 63.
Definition INT_MODULUS : Z := 2 ^ 32.

(** The conversion of a [long] to [int] keeps the low 32 bits. *)
Definition to_int (z : Z) : Z := (z + 2 ^ 31) mod INT_MODULUS - 2 ^ 31.

(** [strtol(s, NULL, 10)]: white space, an optional sign, then decimal
    digits up to the first other character; 0 when there is no digit, and
    [LONG_MAX] or [LONG_MIN] when the number read is outside [long]. *)
Definition strtol (s : string) : Z :=
  let n :=
    match skipws s with
    | String "-"%char s' => - strtol_digits 0 s'
    | String "+"%char s' => strtol_digits 0 s'
    | s' => strtol_digits 0 s'
    end in
  Z.max LONG_MIN (Z.min LONG_MAX n).

(** The C library's [atoi].  The C standard leaves a number outside [int]
    undefined; the model follows the GNU C library, which defines
    [atoi(s)] as [(int) strtol(s, NULL, 10)]: the value that [pbsm_tid],
    an [int], receives is always an [int]. *)
Definition atoi (s : string) : Z := to_int (strtol s).

(** A process that came through [pbsm_init]. *)
Record started := Started {
  started_runtime : runtime;
  started_policy : Policy;
  started_calls : list syscall;
  threads_ : list Z
}.

(** The ERROR lines among what the socket functions did. *)
Fixpoint logged (calls : list syscall) : list event :=
  match calls with
  | [] => []
  | log_error what :: calls' => EvError what :: logged calls'
  | _ :: calls' => logged calls'
  end.

(** [pbsm_init(argc, argv)] with [argc = length argv].  [p] is the policy
    as the constructors of the variables with static storage left it; the
    communication handler singleton is created by the first
    [getInstance()], which is the one of [create_connections].  The loop
    of DEBUG lines and the [atexit] registration are left out.  For a node
    id above [INT_MAX - 2000] the constructor's sum
    [network_port_offset + pbsm_tid] overflows [int]; the model keeps the
    mathematical sum, whose low 16 bits (what [htons] takes) are those of
    the wrapped sum. *)
Definition pbsm_init (o : os) (config_file : option string) (net : Z → bool)
    (argv : list string) (p : Policy) : list event * outcome started :=
  if decide (length argv ≠ 2%nat) then
    ([EvError "Wrong number of arguments. Please specyfy node id."], Exited (-1))
  else
    let tid := atoi (default EmptyString (argv !! 1%nat)) in
    match (if decide (tid = 0) then master_node_init p else slave_node_init p) with
    | None => ([], Unspecified)
    | Some p =>
        match CommunicationHandler_ctor tid config_file with
        | Normal (c, evs) =>
            match create_connections o tid c with
            | (calls, Normal c) =>
                let rt := Runtime tid c net in
                (evs ++ logged calls, Normal (Started rt p calls (start_receiving rt)))
            | (calls, Thrown what) => (evs ++ logged calls, Thrown what)
            | (calls, Exited code) => (evs ++ logged calls, Exited code)
            | (calls, Unspecified) => (evs ++ logged calls, Unspecified)
            end
        | Thrown what =>
            ([EvError "Can't open config file /etc/pbsm/hosts.conf"], Thrown what)
        | Exited code => ([], Exited code)
        | Unspecified => ([], Unspecified)
        end
    end.

(** ** policy.hpp: registration and destruction of variables *)

(** [at_variable_creation]: [new var_data] leaves the members of
    [policy_data_] that the function does not assign with indeterminate
    contents; [indet] stands for them.  [dictionary_[id] = v] replaces
    whatever pointer the id was bound to. *)
Definition at_variable_creation (rt : runtime) (data : AbstractShared)
    (indet : policy_data) (p : Policy) : Policy :=
  let v := VarData data indet in
  let v :=
    if decide (pbsm_tid rt = 0) then set_state OWNER_SHARED v
    else set_remote_owner 0 (set_state REMOTE_OWNER_CACHED v) in
  store_var (get_id data) v p.

(** [at_variable_destruction(var_id, data, size)]: [data] is the buffer the
    destructor points to, of which [send()] transmits the first [size]
    bytes after the header.  The function deletes the record while it
    still holds the lock on the record's mutex; the release of that lock
    at the end of the scope is outside the model, like every mutex. *)
Definition at_variable_destruction (rt : runtime) (var_id : Z)
    (data : list byte) (size : Z) (p : Policy) : Policy * list event * bool :=
  let '(v, d) := map_index var_id (dictionary_ p) in
  let p := set_dictionary d p in
  match v with
  | None => (p, [EvError "Variable not found!"], false)
  | Some _ =>
      let ans := mk_msg MSG_SET_NEW_VALUE var_id (to_ulong size) in
      let '(evs, ret) :=
        send_two_messages_to_all rt ans (take (Z.to_nat size) data) in
      (set_dictionary (<[var_id := None]> (dictionary_ p)) p, evs, ret)
  end.

(** ** shared.hpp: the identifier hash *)

Definition UINT_MODULUS : Z := 2 ^ 32.

(** [sizeof(s)] of a string literal counts the terminating NUL. *)
Definition sizeof_literal (s : string) : Z := Z.of_nat (String.length s) + 1.

(** [(uint8_t)s[k]] for a string literal: the character at [k], the NUL
    at [k = length s]. *)
Definition literal_at (s : string) (k : Z) : Z :=
  match String.get (Z.to_nat k) s with
  | Some ch => Z.of_nat (nat_of_ascii ch)
  | None => 0
  end.

(** [H1(s,i,x)]: [(x*65599u+(uint8_t)s[(i)<sizeof(s)?sizeof(s)-1-(i):sizeof(s)-1])],
    in [unsigned int] arithmetic. *)
Definition H1 (s : string) (i x : Z) : Z :=
  (x * 65599
   + literal_at s (if i <? sizeof_literal s then sizeof_literal s - 1 - i
                   else sizeof_literal s - 1)) mod UINT_MODULUS.

Definition H4 (s : string) (i x : Z) : Z :=
  H1 s i (H1 s (i + 1) (H1 s (i + 2) (H1 s (i + 3) x))).

Definition H16 (s : string) (i x : Z) : Z :=
  H4 s i (H4 s (i + 4) (H4 s (i + 8) (H4 s (i + 12) x))).

Definition H64 (s : string) (i x : Z) : Z :=
  H16 s i (H16 s (i + 16) (H16 s (i + 32) (H16 s (i + 48) x))).

(** [HASH(s)]: [((uint32_t)(H64(s,0,0)^(H64(s,0,0)>>16)))]. *)
Definition HASH (s : string) : Z :=
  Z.lxor (H64 s 0 0) (Z.shiftr (H64 s 0 0) 16) mod UINT_MODULUS.

(** * Vocabulary of the statements *)

(** The statements spell out what the code produces: a header is written
    with its three fields, [Msg type id data], the type by its value on the
    wire (1 MSG_REQUEST_OWNERSHIP, 2 MSG_GRANT_OWNERSHIP, 3 MSG_SET_NEW_OWNER,
    4 MSG_ASK_CURRENT_VALUE, 5 MSG_SET_NEW_VALUE, 6 MSG_BARRIER_BLOCK,
    7 MSG_BARRIER_UNBLOCK, 8 MSG_INVALIDATE_COPY, 9 MSG_INVALIDATE_COPY_ACK);
    a record of the registry is written with its fields, [VarData value
    (PolicyData state owner semaphore)]; a conversion to [unsigned long] is
    written [mod 2 ^ 64]. *)

(** The nodes a broadcast reaches: every index below the number of nodes
    except this node's own. *)
Definition peers (rt : runtime) : list Z :=
  filter (λ i, i ≠ pbsm_tid rt) (range (get_number_of_nodes rt)).

(** An incoming MSG_INVALIDATE_COPY_ACK about [var_id], on any channel. *)
Definition is_ack (var_id : Z) (x : Z * msg_t * list byte) : Prop :=
  msg_type x.1.2 = 9 ∧ msg_id x.1.2 = var_id.

(** The counter of [waiting_invalidate_copies_]. *)
Definition pending (v : var_data) : Z :=
  counter_ (waiting_invalidate_copies_ (policy_data_ v)).

(** The message types whose [id] names a variable. *)
Definition about_a_variable (t : msg_type_t) : bool :=
  match t with
  | MSG_BARRIER_BLOCK | MSG_BARRIER_UNBLOCK => false
  | _ => true
  end.

(** The counter after one more arrival at barrier [s]: the entry's counter,
    or the number of nodes when there is no entry yet, minus one, as an
    [unsigned long]. *)
Definition after_arrival (rt : runtime) (s : Z) (p : Policy) : Z :=
  (match master_waiting_barrier_grants_ p !! s with
   | Some (Some elem) => counter_ elem
   | _ => get_number_of_nodes rt mod 2 ^ 64
   end - 1) mod 2 ^ 64.

(** The log line of the second [break]. *)
Definition max_nodes_warning : list event :=
  [EvWarning "Maximum number of nodes in config file reached"].

(** The slots below [number_of_nodes_] are filled in, slot [j] with the
    ports [network_port_offset + j] and [network_port_offset + tid], and
    there are at most [MAX_NUMBER_OF_NODES] of them. *)
Definition filled (tid : Z) (c : CommunicationHandler) : Prop :=
  0 ≤ number_of_nodes_ c ≤ MAX_NUMBER_OF_NODES
  ∧ ∀ j, 0 ≤ j < number_of_nodes_ c →
      ∃ w, connections_ c !! j
           = Some (Connection w (network_port_offset + j) None
                     (network_port_offset + tid) None).

Definition newline : ascii := "010"%char.

Fixpoint no_space (w : string) : bool :=
  match w with
  | EmptyString => true
  | String ch w' => negb (isspace ch) && no_space w'
  end.

(** An address as the loader sees it: a non-empty word. *)
Definition is_address (w : string) : bool :=
  match w with
  | EmptyString => false
  | _ => no_space w
  end.

(** The lines, each ended by a newline, followed by [rest]. *)
Fixpoint file_of_lines (lines : list string) (rest : string) : string :=
  match lines with
  | [] => rest
  | w :: lines' => w +:+ String newline (file_of_lines lines' rest)
  end.

(** The ports handed to [bind] and to [connect] in a list of calls. *)
Fixpoint bound_ports (calls : list syscall) : list Z :=
  match calls with
  | [] => []
  | sys_bind _ _ port :: calls' => port :: bound_ports calls'
  | _ :: calls' => bound_ports calls'
  end.

Fixpoint connected_ports (calls : list syscall) : list Z :=
  match calls with
  | [] => []
  | sys_connect _ _ port :: calls' => port :: connected_ports calls'
  | _ :: calls' => connected_ports calls'
  end.

(** An operating system where every call succeeds, and a file with two
    hosts. *)
Definition example_os : os :=
  OS (λ entry, 3 + entry) (λ entry, 200 + entry) (λ _, 0) (λ _, 0).

Definition two_hosts : string :=
  file_of_lines ["10.0.0.1"; "10.0.0.2"]%string EmptyString.

(** Every system call succeeds. *)
Definition os_succeeds (o : os) : Prop :=
  (∀ entry, 0 ≤ recv_socket o entry) ∧ (∀ entry, 0 ≤ send_socket o entry)
  ∧ (∀ fd, 0 ≤ bind_result o fd) ∧ (∀ fd, 0 ≤ connect_result o fd).

(** [c'] has the node count of [c] and every slot that [c] has. *)
Definition extends (c c' : CommunicationHandler) : Prop :=
  number_of_nodes_ c' = number_of_nodes_ c
  ∧ ∀ j, is_Some (connections_ c !! j) → is_Some (connections_ c' !! j).

(** Concrete data used to instantiate the statements: node [tid] of [n]
    nodes on a network where every [send()] succeeds, and a four-byte
    variable registered under id 7. *)
Definition example_runtime (tid n : Z) : runtime :=
  Runtime tid (Comm ∅ n) (λ _, true).

Definition example_var (s : state) (owner : Z) : var_data :=
  VarData (Shared 7 [x00; x00; x00; x00]) (PolicyData s owner (Semaphore 0)).

Definition example_policy (s : state) (owner : Z) : Policy :=
  MkPolicy {[7 := Some (example_var s owner)]} ∅.

(** A hundred lines with an address each. *)
Definition hundred_lines : list string := replicate 100 "10.0.0.1"%string.

(** What the records of two policies must share for the same variable to
    be meant: the variable's id and the size of its value. *)
Definition shape (v : var_data) : Z * nat :=
  (id_ (variable_ v), length (data_ (variable_ v))).

(** An incoming MSG_BARRIER_BLOCK about barrier [s], on any channel. *)
Definition is_block (s : Z) (x : Z * msg_t * list byte) : Prop :=
  msg_type x.1.2 = 6 ∧ msg_id x.1.2 = s.

(** The counter that the next arrival at barrier [s] decrements: the
    entry's counter, or the number of nodes when there is no entry. *)
Definition barrier_counter (rt : runtime) (s : Z) (p : Policy) : Z :=
  match master_waiting_barrier_grants_ p !! s with
  | Some (Some elem) => counter_ elem
  | _ => to_ulong (get_number_of_nodes rt)
  end.

(** The state that [master_node_init] (on node 0) or [slave_node_init] (on
    any other node) gives to a variable: owner of a shared variable on
    node 0, holder of a valid copy owned by node 0 elsewhere.  The value
    and the semaphore are as they were, and so is [remote_owner_] on
    node 0. *)
Definition initial_role (tid : Z) (v : var_data) : var_data :=
  VarData (variable_ v)
    (if decide (tid = 0)
     then PolicyData OWNER_SHARED (remote_owner_ (policy_data_ v))
            (waiting_invalidate_copies_ (policy_data_ v))
     else PolicyData REMOTE_OWNER_CACHED 0
            (waiting_invalidate_copies_ (policy_data_ v))).

(** The decimal numeral with the digits [ds], most significant first, and
    the number it denotes. *)
Fixpoint numeral (ds : list Z) : string :=
  match ds with
  | [] => EmptyString
  | d :: ds' => String (ascii_of_nat (Z.to_nat (48 + d))) (numeral ds')
  end.

Definition numeral_value (ds : list Z) : Z :=
  foldl (λ acc d, 10 * acc + d) 0 ds.

(** Slot [j] holds the ports that the constructor gave it (the
    descriptors may have been assigned since). *)
Definition slot_ports (tid : Z) (c : CommunicationHandler) (j : Z) : Prop :=
  ∃ w fr fs, connections_ c !! j
             = Some (Connection w (network_port_offset + j) fr
                       (network_port_offset + tid) fs).

(** * Properties *)

(** ** Events of the send functions *)

Section Events.

Lemma sent_app evs1 evs2 : sent (evs1 ++ evs2) = sent evs1 ++ sent evs2.
Proof.
  induction evs1 as [|[d [m|b]|c|w|w] evs1 IH]; simpl; rewrite ?IH; done.
Qed.

Lemma transmissions_app evs1 evs2 :
  transmissions (evs1 ++ evs2) = transmissions evs1 ++ transmissions evs2.
Proof.
  induction evs1 as [|[d w|c|w|w] evs1 IH]; simpl; rewrite ?IH; done.
Qed.

Lemma notified_app evs1 evs2 :
  notified (evs1 ++ evs2) = notified evs1 ++ notified evs2.
Proof.
  induction evs1 as [|[d w|c|w|w] evs1 IH]; simpl; rewrite ?IH; done.
Qed.

Variable rt : runtime.

Lemma send_one_events what w dest :
  transmissions (send_one rt what w dest).1 = [(dest, w)]
  ∧ notified (send_one rt what w dest).1 = [].
Proof. unfold send_one. by destruct (send_ok rt dest). Qed.

Lemma send_one_sent what m dest :
  sent (send_one rt what (Header m) dest).1 = [(dest, m)].
Proof. unfold send_one. by destruct (send_ok rt dest). Qed.

Lemma send_to_all_loop_sent m nodes :
  sent (send_to_all_loop rt (Header m) nodes).1
  = (λ i, (i, m)) <$> filter (λ i, i ≠ pbsm_tid rt) nodes.
Proof.
  induction nodes as [|i nodes IH]; [done|].
  simpl. rewrite filter_cons. destruct (decide (i ≠ pbsm_tid rt)) as [Hi|Hi].
  - pose proof (send_one_sent "ERROR: Sending data" m i) as H1.
    destruct (send_one rt "ERROR: Sending data" (Header m) i) as [evs ok].
    destruct (send_to_all_loop rt (Header m) nodes) as [evs' ret].
    simpl in *. by rewrite sent_app, H1, IH.
  - done.
Qed.

Lemma send_to_all_loop_notified w nodes :
  notified (send_to_all_loop rt w nodes).1 = [].
Proof.
  induction nodes as [|i nodes IH]; [done|].
  simpl. destruct (decide (i ≠ pbsm_tid rt)) as [Hi|Hi]; [|done].
  pose proof (send_one_events "ERROR: Sending data" w i) as [_ H1].
  destruct (send_one rt "ERROR: Sending data" w i) as [evs ok].
  destruct (send_to_all_loop rt w nodes) as [evs' ret].
  simpl in *. by rewrite notified_app, H1, IH.
Qed.

Lemma send_to_all_sent m :
  sent (send_to_all rt m).1 = (λ i, (i, m)) <$> peers rt.
Proof. apply send_to_all_loop_sent. Qed.

Lemma send_to_all_notified m : notified (send_to_all rt m).1 = [].
Proof. apply send_to_all_loop_notified. Qed.

Lemma send_to_sent m dest :
  dest ≠ to_ulong (pbsm_tid rt) → sent (send_to rt m dest).1 = [(dest, m)].
Proof.
  intros Hd. unfold send_to. rewrite decide_False by done.
  apply send_one_sent.
Qed.

Lemma send_to_self m dest :
  dest = to_ulong (pbsm_tid rt) → transmissions (send_to rt m dest).1 = [].
Proof. intros Hd. unfold send_to. by rewrite decide_True. Qed.

Lemma send_to_notified m dest : notified (send_to rt m dest).1 = [].
Proof.
  unfold send_to. destruct (decide _); [done|]. apply send_one_events.
Qed.

(** A log line after the sends changes neither what was sent nor who was
    notified. *)
Lemma sent_with_error (ok : bool) evs what :
  sent (if ok then evs else evs ++ [EvError what]) = sent evs.
Proof. destruct ok; [done|]. rewrite sent_app. simpl. by rewrite app_nil_r. Qed.

Lemma notified_with_error (ok : bool) evs what :
  notified (if ok then evs else evs ++ [EvError what]) = notified evs.
Proof. destruct ok; [done|]. rewrite notified_app. simpl. by rewrite app_nil_r. Qed.

Lemma filter_all {A} (P : A → Prop) `{!∀ x, Decision (P x)} (l : list A) :
  Forall P l → filter P l = l.
Proof.
  induction 1 as [|x l Hx _ IH]; [done|].
  by rewrite filter_cons_True, IH.
Qed.

(** With a valid node id, the peers are the other [N - 1] nodes. *)
Lemma peers_split :
  0 ≤ pbsm_tid rt < get_number_of_nodes rt →
  peers rt = seqZ 0 (pbsm_tid rt)
          ++ seqZ (pbsm_tid rt + 1) (get_number_of_nodes rt - pbsm_tid rt - 1).
Proof.
  intros Htid. unfold peers, range.
  set (N := get_number_of_nodes rt) in *. set (t := pbsm_tid rt) in *.
  assert (Hsplit : seqZ 0 N = seqZ 0 t ++ t :: seqZ (t + 1) (N - t - 1)).
  { replace N with (t + (1 + (N - t - 1))) at 1 by lia.
    rewrite seqZ_app by lia. f_equal.
    rewrite seqZ_cons by lia. f_equal. f_equal; lia. }
  rewrite Hsplit, filter_app, filter_cons_False by (intros H; by apply H).
  rewrite !filter_all; [done| |].
  - apply Forall_seqZ. intros; lia.
  - apply Forall_seqZ. intros; lia.
Qed.

Lemma peers_length :
  0 ≤ pbsm_tid rt < get_number_of_nodes rt →
  Z.of_nat (length (peers rt)) = get_number_of_nodes rt - 1.
Proof.
  intros Htid. rewrite peers_split by done.
  rewrite length_app, !length_seqZ. lia.
Qed.

(** On the master the peers are the slaves [1 .. N - 1]. *)
Lemma peers_master :
  pbsm_tid rt = 0 → 0 < get_number_of_nodes rt →
  peers rt = seqZ 1 (get_number_of_nodes rt - 1).
Proof.
  intros Htid HN. rewrite peers_split by lia. rewrite Htid. simpl.
  f_equal. lia.
Qed.

End Events.

(** ** The registry *)

Lemma registered_lookup p var_id v :
  registered p var_id = Some v ↔ dictionary_ p !! var_id = Some (Some v).
Proof.
  unfold registered. destruct (dictionary_ p !! var_id) as [[v'|]|]; naive_solver.
Qed.

Lemma set_dictionary_same p : set_dictionary (dictionary_ p) p = p.
Proof. by destruct p. Qed.

Lemma set_grants_same p : set_grants (master_waiting_barrier_grants_ p) p = p.
Proof. by destruct p. Qed.

(** Looking up a registered variable leaves the map as it is. *)
Lemma map_index_registered p var_id v :
  registered p var_id = Some v →
  map_index var_id (dictionary_ p) = (Some v, dictionary_ p).
Proof.
  intros H%registered_lookup. unfold map_index. by rewrite H.
Qed.

(** Looking up an id that is not registered returns the null pointer; the
    map may gain a null entry, which registers nothing. *)
Lemma map_index_unregistered p var_id :
  registered p var_id = None →
  ∃ d, map_index var_id (dictionary_ p) = (None, d)
       ∧ ∀ i, registered (set_dictionary d p) i = registered p i.
Proof.
  unfold registered, map_index. intros H.
  destruct (dictionary_ p !! var_id) as [[v'|]|] eqn:E; [done| |].
  - exists (dictionary_ p). split; [done|]. by rewrite set_dictionary_same.
  - exists (<[var_id := None]> (dictionary_ p)). split; [done|].
    intros i. simpl. destruct (decide (var_id = i)) as [->|Hne].
    + by rewrite lookup_insert_eq, E.
    + by rewrite lookup_insert_ne.
Qed.

Lemma registered_store_var_eq p var_id v :
  registered (store_var var_id v p) var_id = Some v.
Proof. unfold registered, store_var. simpl. by rewrite lookup_insert_eq. Qed.

Lemma registered_store_var_ne p var_id v i :
  i ≠ var_id → registered (store_var var_id v p) i = registered p i.
Proof.
  intros Hne. unfold registered, store_var. simpl.
  by rewrite lookup_insert_ne.
Qed.

Lemma grants_store_var p var_id v :
  master_waiting_barrier_grants_ (store_var var_id v p)
  = master_waiting_barrier_grants_ p.
Proof. done. Qed.

(** ** Local writes on a variable owned elsewhere *)

(** What [before_local_write] does in the two remote states, for any
    number of nodes: the request goes through [send_to_all]. *)
Lemma before_local_write_remote rt var_id p v :
  registered p var_id = Some v →
  state_ (policy_data_ v) = REMOTE_OWNER_CACHED
  ∨ state_ (policy_data_ v) = REMOTE_OWNER_NO_CACHED →
  ∃ evs,
    before_local_write rt var_id p
    = (p, evs, Blocked (waiting_ownership_grant_ var_id)
                       (after_wait_ownership_grant var_id true))
    ∧ sent evs
      = (λ i, (i, mk_msg MSG_REQUEST_OWNERSHIP (get_id (variable_ v))
                    (to_ulong (pbsm_tid rt)))) <$> peers rt
    ∧ registered (resume rt (after_wait_ownership_grant var_id true) p).1.1 var_id
      = Some (set_state OWNER_NO_SHARED v).
Proof.
  intros Hreg Hst. unfold before_local_write.
  rewrite (map_index_registered _ _ _ Hreg), set_dictionary_same.
  pose proof (send_to_all_sent rt
    (mk_msg MSG_REQUEST_OWNERSHIP (get_id (variable_ v)) (to_ulong (pbsm_tid rt))))
    as Hsent.
  unfold send_request_ownership.
  destruct (send_to_all rt _) as [evs ok]. simpl in Hsent.
  exists (if ok then evs else evs ++ [EvError "ERROR in sending MSG_REQUEST_OWNERSHIP"]).
  split; [|split].
  - destruct Hst as [-> | ->]; by destruct ok.
  - by rewrite sent_with_error.
  - simpl. rewrite Hreg. simpl. apply registered_store_var_eq.
Qed.

(** C1 (the code departs from the claim): on node 1 of three nodes, a
    variable in state REMOTE_OWNER_CACHED whose recorded owner is node 0 is
    written; [before_local_write] hands two MSG_REQUEST_OWNERSHIP headers to
    [send()], one for node 0 and one for node 2, which is not the recorded
    owner, and then sleeps on [waiting_ownership_grant_]. *)
Example before_local_write_request_reaches_non_owner :
  let rt := Runtime 1 (Comm ∅ 3) (λ _, true) in
  let v := VarData (Shared 7 [x00; x00; x00; x00])
             (PolicyData REMOTE_OWNER_CACHED 0 (Semaphore 0)) in
  let p := MkPolicy {[7 := Some v]} ∅ in
  sent (before_local_write rt 7 p).1.2
  = [(0, Msg 1 7 1); (2, Msg 1 7 1)]
  ∧ (before_local_write rt 7 p).2
    = Blocked (waiting_ownership_grant_ 7) (after_wait_ownership_grant 7 true)
  ∧ remote_owner_ (policy_data_ v) = 0.
Proof. vm_compute. done. Qed.

(** ** MSG_REQUEST_OWNERSHIP *)

(** C2: a MSG_REQUEST_OWNERSHIP about a registered variable, sent by a
    remote node [R] (the id it put in [data.node]).  When the state is
    OWNER_NO_SHARED or OWNER_SHARED the state becomes
    REMOTE_OWNER_NO_CACHED, [remote_owner_] becomes [R] and the one message
    sent is MSG_GRANT_OWNERSHIP to [R]; in the other two states the one
    message sent is MSG_SET_NEW_OWNER to [R] carrying [remote_owner_], and
    the policy is unchanged. *)
Theorem request_ownership_grant_or_redirect rt rem_node msg d p v R :
  msg_type msg = 1 →
  msg_data msg = R →
  R ≠ (pbsm_tid rt mod 2 ^ 64) →
  registered p (msg_id msg) = Some v →
  ∃ p' evs,
    receive_messages_body rt rem_node msg d p = (p', evs, Completed)
    ∧ notified evs = []
    ∧ (state_ (policy_data_ v) = OWNER_NO_SHARED
       ∨ state_ (policy_data_ v) = OWNER_SHARED →
       registered p' (msg_id msg)
       = Some (VarData (variable_ v)
                 (PolicyData REMOTE_OWNER_NO_CACHED R
                    (waiting_invalidate_copies_ (policy_data_ v))))
       ∧ (state_ <$> (policy_data_ <$> registered p' (msg_id msg)))
         = Some REMOTE_OWNER_NO_CACHED
       ∧ (remote_owner_ <$> (policy_data_ <$> registered p' (msg_id msg))) = Some R
       ∧ (∀ i, i ≠ msg_id msg → registered p' i = registered p i)
       ∧ master_waiting_barrier_grants_ p' = master_waiting_barrier_grants_ p
       ∧ sent evs
         = [(R, Msg 2 (msg_id msg) (pbsm_tid rt mod 2 ^ 64))])
    ∧ (state_ (policy_data_ v) = REMOTE_OWNER_CACHED
       ∨ state_ (policy_data_ v) = REMOTE_OWNER_NO_CACHED →
       p' = p
       ∧ sent evs
         = [(R, Msg 3 (msg_id msg) (remote_owner_ (policy_data_ v)))]).
Proof.
  intros Hty HR Hne Hreg. unfold receive_messages_body.
  rewrite Hty. simpl msg_type_of_code. cbv iota.
  rewrite (map_index_registered _ _ _ Hreg), set_dictionary_same, HR.
  destruct (state_ (policy_data_ v)) eqn:Hst.
  1,2: pose proof (send_to_sent rt
         (mk_msg MSG_GRANT_OWNERSHIP (msg_id msg) (to_ulong (pbsm_tid rt))) R Hne) as Hs;
       pose proof (send_to_notified rt
         (mk_msg MSG_GRANT_OWNERSHIP (msg_id msg) (to_ulong (pbsm_tid rt))) R) as Hn;
       destruct (send_to rt _ R) as [evs ok]; simpl in Hs, Hn;
       eexists _, _; split; [reflexivity|];
       rewrite notified_with_error, sent_with_error;
       split; [done|]; split; [|intros [?|?]; congruence];
       intros _; rewrite registered_store_var_eq;
       split; [reflexivity|]; split; [reflexivity|]; split; [reflexivity|];
       split; [|done];
       intros i Hi; by apply registered_store_var_ne.
  1,2: pose proof (send_to_sent rt
         (mk_msg MSG_SET_NEW_OWNER (msg_id msg) (remote_owner_ (policy_data_ v))) R Hne) as Hs;
       pose proof (send_to_notified rt
         (mk_msg MSG_SET_NEW_OWNER (msg_id msg) (remote_owner_ (policy_data_ v))) R) as Hn;
       destruct (send_to rt _ R) as [evs ok]; simpl in Hs, Hn;
       eexists _, _; split; [reflexivity|];
       rewrite notified_with_error, sent_with_error;
       split; [done|]; split; [intros [?|?]; congruence|];
       intros _; done.
Qed.

Lemma request_ownership_grant_or_redirect_witness :
  ∃ p' evs,
    receive_messages_body (example_runtime 0 3) 2
      (Msg 1 7 2) [] (example_policy OWNER_SHARED 0)
    = (p', evs, Completed)
    ∧ sent evs = [(2, Msg 2 7 0)].
Proof.
  destruct (request_ownership_grant_or_redirect (example_runtime 0 3) 2
              (mk_msg MSG_REQUEST_OWNERSHIP 7 2) [] (example_policy OWNER_SHARED 0)
              (example_var OWNER_SHARED 0) 2)
    as (p' & evs & Hrun & _ & Hown & _).
  - reflexivity.
  - reflexivity.
  - vm_compute. discriminate.
  - reflexivity.
  - exists p', evs. split; [exact Hrun|].
    destruct Hown as (_ & _ & _ & _ & _ & Hsent); [right; reflexivity|].
    exact Hsent.
Defined.

(** ** Local reads *)

(** After the wake-up of a read that had to fetch the value the variable
    is in state REMOTE_OWNER_CACHED, and the next read sends nothing. *)
Lemma before_local_read_after_fetch rt var_id p v :
  registered p var_id = Some v →
  let p1 := (resume rt (after_wait_value_updated var_id) p).1.1 in
  registered p1 var_id = Some (set_state REMOTE_OWNER_CACHED v)
  ∧ before_local_read rt var_id p1 = (p1, [], Returned RVoid).
Proof.
  intros Hreg. simpl. rewrite Hreg. simpl.
  pose proof (registered_store_var_eq p var_id (set_state REMOTE_OWNER_CACHED v)) as H1.
  split; [exact H1|].
  unfold before_local_read.
  by rewrite (map_index_registered _ _ _ H1), set_dictionary_same.
Qed.

(** C7: for a registered variable whose state is not
    REMOTE_OWNER_NO_CACHED, [before_local_read] returns at once, produces
    no event (so no message) and leaves the policy as it was; hence two
    reads in a row send nothing and change nothing either. *)
Theorem before_local_read_cached_is_silent rt var_id p v :
  registered p var_id = Some v →
  state_ (policy_data_ v) ≠ REMOTE_OWNER_NO_CACHED →
  before_local_read rt var_id p = (p, [], Returned RVoid)
  ∧ (let '(p1, evs1, _) := before_local_read rt var_id p in
     let '(p2, evs2, st2) := before_local_read rt var_id p1 in
     p2 = p ∧ transmissions (evs1 ++ evs2) = [] ∧ st2 = Returned RVoid).
Proof.
  intros Hreg Hst.
  assert (H1 : before_local_read rt var_id p = (p, [], Returned RVoid)).
  { unfold before_local_read.
    rewrite (map_index_registered _ _ _ Hreg), set_dictionary_same.
    by destruct (state_ (policy_data_ v)). }
  split; [exact H1|]. rewrite H1, H1. done.
Qed.

Lemma before_local_read_cached_is_silent_witness :
  before_local_read (example_runtime 1 3) 7 (example_policy REMOTE_OWNER_CACHED 0)
  = (example_policy REMOTE_OWNER_CACHED 0, [], Returned RVoid).
Proof.
  apply (before_local_read_cached_is_silent (example_runtime 1 3) 7
           (example_policy REMOTE_OWNER_CACHED 0) (example_var REMOTE_OWNER_CACHED 0)).
  - reflexivity.
  - discriminate.
Defined.

(** ** MSG_SET_NEW_VALUE *)

(** C4, as stated, fails: a variable in state REMOTE_OWNER_NO_CACHED on
    which no reader waits receives MSG_SET_NEW_VALUE with a four-byte
    payload; the value is replaced but the state is still
    REMOTE_OWNER_NO_CACHED after the handler. *)
Lemma set_new_value_state_counterexample :
  let rt := example_runtime 1 3 in
  let p := example_policy REMOTE_OWNER_NO_CACHED 0 in
  let p' := (receive_messages_body rt 0 (Msg 5 7 4)
               [x2a; x00; x00; x00] p).1.1 in
  (data_ ∘ variable_) <$> registered p' 7 = Some [x2a; x00; x00; x00]
  ∧ (state_ ∘ policy_data_) <$> registered p' 7 ≠ Some REMOTE_OWNER_CACHED.
Proof. vm_compute. split; [done|discriminate]. Qed.

(** C4, amended: for MSG_SET_NEW_VALUE about a registered variable, with a
    payload of the size of the variable, the handler writes the payload
    into the value slot and notifies [wait_value_updated_]; it sends
    nothing and leaves the state, the recorded owner and every other
    variable as they were.  The state becomes REMOTE_OWNER_CACHED when a
    reader that sleeps in [before_local_read] is woken by that
    notification. *)
Theorem set_new_value_writes_and_notifies rt rem_node msg d p v :
  msg_type msg = 5 →
  registered p (msg_id msg) = Some v →
  length d = length (data_ (variable_ v)) →
  ∃ p',
    receive_messages_body rt rem_node msg d p
    = (p', [EvNotify (wait_value_updated_ (msg_id msg))], Completed)
    ∧ registered p' (msg_id msg)
      = Some (VarData (Shared (id_ (variable_ v)) d) (policy_data_ v))
    ∧ (∀ i, i ≠ msg_id msg → registered p' i = registered p i)
    ∧ (deliver rt rem_node msg d
         (Node p (Blocked (wait_value_updated_ (msg_id msg))
                          (after_wait_value_updated (msg_id msg))))).1
      = Node (MkPolicy
                (<[msg_id msg :=
                     Some (VarData (Shared (id_ (variable_ v)) d)
                             (PolicyData REMOTE_OWNER_CACHED
                                (remote_owner_ (policy_data_ v))
                                (waiting_invalidate_copies_ (policy_data_ v))))]>
                   (dictionary_ p'))
                (master_waiting_barrier_grants_ p'))
             (Returned RVoid).
Proof.
  intros Hty Hreg Hlen.
  set (v' := VarData (Shared (id_ (variable_ v)) d) (policy_data_ v)).
  assert (Hbody : receive_messages_body rt rem_node msg d p
                  = (store_var (msg_id msg) v' p,
                     [EvNotify (wait_value_updated_ (msg_id msg))], Completed)).
  { unfold receive_messages_body. rewrite Hty. simpl msg_type_of_code. cbv iota.
    rewrite (map_index_registered _ _ _ Hreg), set_dictionary_same.
    unfold set_value. rewrite decide_True by lia.
    rewrite <- Hlen, firstn_all. fold v'. unfold set_variable. fold v'.
    unfold after_remote_write.
    rewrite (map_index_registered _ _ v' (registered_store_var_eq p (msg_id msg) v')).
    by rewrite set_dictionary_same. }
  exists (store_var (msg_id msg) v' p).
  split; [exact Hbody|]. split; [apply registered_store_var_eq|].
  split; [intros i Hi; by apply registered_store_var_ne|].
  unfold deliver. cbn [policy app]. rewrite Hbody. cbn [notified].
  rewrite decide_True by (apply list_elem_of_singleton; done). simpl.
  by rewrite registered_store_var_eq.
Qed.

Lemma set_new_value_writes_and_notifies_witness :
  ∃ p',
    receive_messages_body (example_runtime 1 3) 0 (Msg 5 7 4)
      [x2a; x00; x00; x00] (example_policy REMOTE_OWNER_NO_CACHED 0)
    = (p', [EvNotify (wait_value_updated_ 7)], Completed).
Proof.
  destruct (set_new_value_writes_and_notifies (example_runtime 1 3) 0
              (mk_msg MSG_SET_NEW_VALUE 7 4) [x2a; x00; x00; x00]
              (example_policy REMOTE_OWNER_NO_CACHED 0)
              (example_var REMOTE_OWNER_NO_CACHED 0))
    as (p' & Hrun & _).
  - reflexivity.
  - reflexivity.
  - reflexivity.
  - exists p'. exact Hrun.
Defined.

(** ** Messages about an id that is not registered *)

Lemma send_to_transmissions rt m dest :
  transmissions (send_to rt m dest).1
  = if decide (dest = to_ulong (pbsm_tid rt)) then [] else [(dest, Header m)].
Proof.
  unfold send_to. destruct (decide _); [done|]. apply send_one_events.
Qed.

Lemma transmissions_with_error (ok : bool) evs what :
  transmissions (if ok then evs else evs ++ [EvError what]) = transmissions evs.
Proof.
  destruct ok; [done|]. rewrite transmissions_app. simpl. by rewrite app_nil_r.
Qed.

(** C6, as stated, fails: node 1 has no variable at all and receives
    MSG_INVALIDATE_COPY for id 7 from node 0; the handler answers with
    MSG_INVALIDATE_COPY_ACK to node 0. *)
Lemma unregistered_invalidate_copy_counterexample :
  let rt := example_runtime 1 3 in
  let p := MkPolicy ∅ ∅ in
  registered p 7 = None
  ∧ sent (receive_messages_body rt 0 (Msg 8 7 0) [] p).1.2
    = [(0, Msg 9 7 1)].
Proof. vm_compute. done. Qed.

(** C6, amended: a message of one of the seven variable types whose id is
    not registered changes no variable's record and no barrier entry and
    notifies no condition; nothing is sent, except that MSG_INVALIDATE_COPY
    is still answered with MSG_INVALIDATE_COPY_ACK to the node named in the
    message (when that node is not this one). *)
Theorem unregistered_id_dropped_except_invalidate rt rem_node msg d p t :
  msg_type_of_code (msg_type msg) = Some t →
  about_a_variable t = true →
  registered p (msg_id msg) = None →
  ∃ p' evs,
    receive_messages_body rt rem_node msg d p = (p', evs, Completed)
    ∧ (∀ i, registered p' i = registered p i)
    ∧ master_waiting_barrier_grants_ p' = master_waiting_barrier_grants_ p
    ∧ notified evs = []
    ∧ transmissions evs
      = if decide (t = MSG_INVALIDATE_COPY ∧ msg_data msg ≠ (pbsm_tid rt mod 2 ^ 64))
        then [(msg_data msg,
               Header (Msg 9 (msg_id msg)
                         (pbsm_tid rt mod 2 ^ 64)))]
        else [].
Proof.
  intros Hty Hvar Hreg. unfold receive_messages_body. rewrite Hty.
  destruct (map_index_unregistered p (msg_id msg) Hreg) as (d' & Hmi & Hsame).
  destruct t; try discriminate Hvar; rewrite Hmi.
  - (* MSG_REQUEST_OWNERSHIP *)
    eexists _, _. split; [reflexivity|].
    by rewrite decide_False by (intros [? _]; discriminate).
  - (* MSG_GRANT_OWNERSHIP *)
    eexists _, _. split; [reflexivity|].
    by rewrite decide_False by (intros [? _]; discriminate).
  - (* MSG_SET_NEW_OWNER *)
    eexists _, _. split; [reflexivity|].
    by rewrite decide_False by (intros [? _]; discriminate).
  - (* MSG_ASK_CURRENT_VALUE *)
    eexists _, _. split; [reflexivity|].
    by rewrite decide_False by (intros [? _]; discriminate).
  - (* MSG_SET_NEW_VALUE *)
    eexists _, _. split; [reflexivity|].
    by rewrite decide_False by (intros [? _]; discriminate).
  - (* MSG_INVALIDATE_COPY *)
    pose proof (send_to_transmissions rt
      (mk_msg MSG_INVALIDATE_COPY_ACK (msg_id msg) (to_ulong (pbsm_tid rt)))
      (msg_data msg)) as Ht.
    pose proof (send_to_notified rt
      (mk_msg MSG_INVALIDATE_COPY_ACK (msg_id msg) (to_ulong (pbsm_tid rt)))
      (msg_data msg)) as Hn.
    destruct (send_to rt _ (msg_data msg)) as [evs ok]. simpl in Ht, Hn.
    eexists _, _. split; [reflexivity|].
    rewrite notified_with_error, transmissions_with_error, Ht.
    split; [done|]. split; [done|]. split; [done|].
    destruct (decide (msg_data msg = _)).
    + by rewrite decide_False by (intros [_ ?]; done).
    + by rewrite decide_True.
  - (* MSG_INVALIDATE_COPY_ACK *)
    eexists _, _. split; [reflexivity|].
    by rewrite decide_False by (intros [? _]; discriminate).
Qed.

Lemma unregistered_id_dropped_except_invalidate_witness :
  ∃ p' evs,
    receive_messages_body (example_runtime 1 3) 0 (Msg 1 9 0) []
      (example_policy OWNER_SHARED 0)
    = (p', evs, Completed)
    ∧ transmissions evs = [].
Proof.
  destruct (unregistered_id_dropped_except_invalidate (example_runtime 1 3) 0
              (mk_msg MSG_REQUEST_OWNERSHIP 9 0) [] (example_policy OWNER_SHARED 0)
              MSG_REQUEST_OWNERSHIP)
    as (p' & evs & Hrun & _ & _ & _ & Htr).
  - reflexivity.
  - reflexivity.
  - reflexivity.
  - exists p', evs. split; [exact Hrun|exact Htr].
Defined.

(** ** Local writes on a shared variable this node owns *)

Section Invalidation.

Variable rt : runtime.
Variable var_id : Z.

Local Abbreviation acks_cond := (waiting_invalidate_copies_wait_condition_ var_id).

Lemma set_counter_set_counter a b v :
  set_counter a (set_counter b v) = set_counter a v.
Proof. done. Qed.

(** One acknowledgement: the counter is decremented and the condition is
    notified exactly when the new value is zero. *)
Lemma invalidate_copy_ack_step rem_node msg d p v :
  is_ack var_id (rem_node, msg, d) →
  registered p var_id = Some v →
  receive_messages_body rt rem_node msg d p
  = (store_var var_id (set_counter (decrement (pending v)) v) p,
     if decrement (pending v) =? 0 then [EvNotify acks_cond] else [],
     Completed).
Proof.
  intros [Hty Hid] Hreg. simpl in Hty, Hid.
  unfold receive_messages_body. rewrite Hty. simpl msg_type_of_code. cbv iota.
  rewrite Hid, (map_index_registered _ _ _ Hreg), set_dictionary_same.
  fold (pending v). by destruct (decrement (pending v) =? 0).
Qed.

Lemma decrement_positive c :
  0 < c < ULONG_MODULUS → decrement c = c - 1.
Proof. intros Hc. unfold decrement. apply Z.mod_small. lia. Qed.

(** While fewer acknowledgements have arrived than the counter asks for,
    the writer sleeps on and nothing is notified. *)
Lemma acks_pending acks : ∀ nd v k,
  Forall (is_ack var_id) acks →
  registered (policy nd) var_id = Some v →
  app nd = Blocked acks_cond k →
  pending v < ULONG_MODULUS →
  Z.of_nat (length acks) < pending v →
  ∃ nd',
    deliver_all rt acks nd = (nd', [])
    ∧ app nd' = Blocked acks_cond k
    ∧ registered (policy nd') var_id
      = Some (set_counter (pending v - Z.of_nat (length acks)) v).
Proof.
  induction acks as [|[[rem_node msg] d] acks IH]; intros nd v k Hall Hreg Happ Hmax Hlen.
  - exists nd. split; [done|]. split; [done|]. rewrite Hreg. simpl.
    rewrite Z.sub_0_r. by destruct v as [a [s o [c]]].
  - apply Forall_cons in Hall as [Hack Hall]. simpl in Hlen.
    pose proof (invalidate_copy_ack_step rem_node msg d (policy nd) v Hack Hreg) as Hstep.
    rewrite decrement_positive in Hstep by lia.
    assert ((pending v - 1 =? 0) = false) as Hnz by (apply Z.eqb_neq; lia).
    rewrite Hnz in Hstep.
    set (nd1 := Node (store_var var_id (set_counter (pending v - 1) v) (policy nd))
                     (Blocked acks_cond k)).
    assert (Hd : deliver rt rem_node msg d nd = (nd1, [])).
    { unfold deliver. rewrite Hstep, Happ. cbn [notified].
      by rewrite decide_False by (apply not_elem_of_nil). }
    destruct (IH nd1 (set_counter (pending v - 1) v) k Hall) as (nd' & Hrun & Happ' & Hreg').
    + apply registered_store_var_eq.
    + done.
    + unfold pending in *. simpl. lia.
    + unfold pending in *. simpl. lia.
    + exists nd'. simpl deliver_all. rewrite Hd, Hrun.
      split; [done|]. split; [done|].
      rewrite Hreg', set_counter_set_counter.
      do 2 f_equal. unfold pending. simpl. lia.
Qed.

(** The acknowledgement that brings the counter to zero wakes the writer,
    which makes the state OWNER_NO_SHARED. *)
Lemma last_ack_wakes rem_node msg d nd v ret :
  is_ack var_id (rem_node, msg, d) →
  registered (policy nd) var_id = Some v →
  app nd = Blocked acks_cond (after_wait_invalidate_copies var_id ret) →
  pending v = 1 →
  ∃ nd',
    deliver rt rem_node msg d nd = (nd', [EvNotify acks_cond])
    ∧ app nd' = Returned (RBool ret)
    ∧ registered (policy nd') var_id
      = Some (set_state OWNER_NO_SHARED (set_counter 0 v)).
Proof.
  intros Hack Hreg Happ Hone.
  pose proof (invalidate_copy_ack_step rem_node msg d (policy nd) v Hack Hreg) as Hstep.
  rewrite Hone in Hstep. change (decrement 1) with 0 in Hstep. simpl in Hstep.
  unfold deliver. rewrite Hstep, Happ. cbn [notified].
  rewrite decide_True by (apply list_elem_of_singleton; done).
  simpl. rewrite registered_store_var_eq.
  eexists. split; [reflexivity|]. split; [done|]. simpl.
  apply registered_store_var_eq.
Qed.

Lemma deliver_all_app xs ys nd :
  deliver_all rt (xs ++ ys) nd
  = let '(nd1, evs1) := deliver_all rt xs nd in
    let '(nd2, evs2) := deliver_all rt ys nd1 in
    (nd2, evs1 ++ evs2).
Proof.
  revert nd. induction xs as [|[[r m] d] xs IH]; intros nd; simpl.
  - by destruct (deliver_all rt ys nd).
  - destruct (deliver rt r m d nd) as [nd' evs]. rewrite IH.
    destruct (deliver_all rt xs nd') as [nd1 evs1].
    destruct (deliver_all rt ys nd1) as [nd2 evs2].
    by rewrite app_assoc.
Qed.

End Invalidation.

(** X20, the part of C3 that the code fulfils: a node with a valid id and
    at least one peer writes a variable it holds in state OWNER_SHARED.
    [before_local_write] sends MSG_INVALIDATE_COPY (type 8, with the
    variable's id and this node's id) to each of the [N - 1] peers, sets
    the counter of [waiting_invalidate_copies_] to [N - 1] and sleeps on
    its condition.  Each MSG_INVALIDATE_COPY_ACK decrements the counter by
    one, as an [unsigned long], and the handler notifies the condition
    exactly when the new value is zero: while fewer than [N - 1]
    acknowledgements have been handled the writer sleeps on, and the
    [N - 1]-th one wakes it, after which the state is OWNER_NO_SHARED. *)
Theorem owner_shared_write_collects_acks rt var_id p v :
  0 ≤ pbsm_tid rt < get_number_of_nodes rt →
  2 ≤ get_number_of_nodes rt ≤ 100 →
  registered p var_id = Some v →
  state_ (policy_data_ v) = OWNER_SHARED →
  let N := get_number_of_nodes rt in
  let sleeping := waiting_invalidate_copies_wait_condition_ var_id in
  let record := λ (st : state) (counter : Z),
    VarData (variable_ v)
      (PolicyData st (remote_owner_ (policy_data_ v)) (Semaphore counter)) in
  ∃ nd evs ret,
    call (before_local_write rt var_id) (Node p (Returned RVoid)) = (nd, evs)
    ∧ sent evs = (λ i, (i, Msg 8 var_id (pbsm_tid rt))) <$> peers rt
    ∧ Z.of_nat (length (peers rt)) = N - 1
    ∧ registered (policy nd) var_id = Some (record OWNER_SHARED (N - 1))
    ∧ app nd = Blocked sleeping (after_wait_invalidate_copies var_id ret)
    ∧ (∀ rem_node msg d q w,
         is_ack var_id (rem_node, msg, d) →
         registered q var_id = Some w →
         ∃ q' evs',
           receive_messages_body rt rem_node msg d q = (q', evs', Completed)
           ∧ registered q' var_id
             = Some (VarData (variable_ w)
                       (PolicyData (state_ (policy_data_ w))
                          (remote_owner_ (policy_data_ w))
                          (Semaphore ((pending w - 1) mod 2 ^ 64))))
           ∧ notified evs'
             = (if (pending w - 1) mod 2 ^ 64 =? 0 then [sleeping] else []))
    ∧ (∀ acks,
         Forall (is_ack var_id) acks →
         ∃ nd' evs',
           deliver_all rt acks nd = (nd', evs')
           ∧ (Z.of_nat (length acks) < N - 1 →
              app nd' = app nd
              ∧ notified evs' = []
              ∧ registered (policy nd') var_id
                = Some (record OWNER_SHARED (N - 1 - Z.of_nat (length acks))))
           ∧ (Z.of_nat (length acks) = N - 1 →
              app nd' = Returned (RBool ret)
              ∧ notified evs' = [sleeping]
              ∧ registered (policy nd') var_id = Some (record OWNER_NO_SHARED 0))).
Proof.
  intros Htid [HN2 Hmax] Hreg Hst N sleeping record.
  fold N in Htid, HN2, Hmax.
  assert (Hconv : to_ulong (N - 1) = N - 1).
  { unfold to_ulong, ULONG_MODULUS. apply Z.mod_small. lia. }
  assert (Hself : to_ulong (pbsm_tid rt) = pbsm_tid rt).
  { unfold to_ulong, ULONG_MODULUS. apply Z.mod_small. lia. }
  assert (Hrecord : ∀ c, set_counter c v = record OWNER_SHARED c).
  { intros c. unfold set_counter, record. by rewrite Hst. }
  pose proof (send_to_all_sent rt
    (mk_msg MSG_INVALIDATE_COPY var_id (to_ulong (pbsm_tid rt)))) as Hsent.
  destruct (send_to_all rt (mk_msg MSG_INVALIDATE_COPY var_id (to_ulong (pbsm_tid rt))))
    as [evs ok] eqn:Hsend. simpl in Hsent. rewrite Hself in Hsent.
  set (nd := Node (store_var var_id (set_counter (N - 1) v) p)
               (Blocked sleeping (after_wait_invalidate_copies var_id (if ok then true else false)))).
  assert (Hcall : call (before_local_write rt var_id) (Node p (Returned RVoid))
                  = (nd, if ok then evs
                         else evs ++ [EvError "ERROR in sending MSG_INVALIDATE_COPY"])).
  { unfold call, before_local_write. cbn [policy].
    rewrite (map_index_registered _ _ _ Hreg), set_dictionary_same, Hst, Hsend.
    fold N. by rewrite Hconv. }
  exists nd, (if ok then evs else evs ++ [EvError "ERROR in sending MSG_INVALIDATE_COPY"]),
         (if ok then true else false).
  split; [exact Hcall|]. split; [rewrite sent_with_error; exact Hsent|].
  split; [apply peers_length; lia|].
  split; [rewrite <- Hrecord; apply registered_store_var_eq|]. split; [done|]. split.
  - intros rem_node msg d q w Hack Hq.
    rewrite (invalidate_copy_ack_step rt var_id rem_node msg d q w Hack Hq).
    change ((pending w - 1) mod 2 ^ 64) with (decrement (pending w)).
    eexists _, _. split; [reflexivity|].
    split; [rewrite registered_store_var_eq; reflexivity|].
    by destruct (decrement (pending w) =? 0).
  - intros acks Hacks.
    assert (Hnd : registered (policy nd) var_id = Some (set_counter (N - 1) v))
      by apply registered_store_var_eq.
    assert (Hpend : pending (set_counter (N - 1) v) = N - 1) by done.
    assert (Hlt : N - 1 < ULONG_MODULUS) by (unfold ULONG_MODULUS; lia).
    destruct (deliver_all rt acks nd) as [nd' evs'] eqn:Hrun.
    exists nd', evs'. split; [done|]. split.
    + intros Hlen.
      destruct (acks_pending rt var_id acks nd (set_counter (N - 1) v)
                  (after_wait_invalidate_copies var_id (if ok then true else false))
                  Hacks Hnd eq_refl) as (nd1 & Hrun1 & Happ1 & Hreg1).
      * by rewrite Hpend.
      * by rewrite Hpend.
      * rewrite Hrun in Hrun1. injection Hrun1 as -> ->.
        split; [done|]. split; [done|].
        by rewrite Hreg1, Hpend, set_counter_set_counter, Hrecord.
    + intros Hlen.
      destruct acks as [|x acks _] using rev_ind; [simpl in Hlen; lia|].
      rewrite length_app in Hlen. simpl in Hlen.
      apply Forall_app in Hacks as [Hfront Hlast].
      rewrite Forall_singleton in Hlast. destruct x as [[rem_node msg] d].
      destruct (acks_pending rt var_id acks nd (set_counter (N - 1) v)
                  (after_wait_invalidate_copies var_id (if ok then true else false))
                  Hfront Hnd eq_refl) as (nd1 & Hrun1 & Happ1 & Hreg1).
      * by rewrite Hpend.
      * rewrite Hpend. lia.
      * rewrite Hpend, set_counter_set_counter in Hreg1.
        destruct (last_ack_wakes rt var_id rem_node msg d nd1
                    (set_counter (N - 1 - Z.of_nat (length acks)) v)
                    (if ok then true else false) Hlast Hreg1 Happ1)
          as (nd2 & Hd2 & Happ2 & Hreg2).
        { unfold pending. simpl. lia. }
        rewrite deliver_all_app, Hrun1 in Hrun. simpl in Hrun.
        rewrite Hd2 in Hrun. injection Hrun as <- <-; simpl.
        split; [done|]. split; [done|].
        by rewrite Hreg2.
Qed.

(** Three nodes: the writer on node 0 sends to the nodes 1 and 2 and is
    woken by the second acknowledgement. *)
Lemma owner_shared_write_collects_acks_witness :
  ∃ nd evs ret nd' evs',
    call (before_local_write (example_runtime 0 3) 7)
      (Node (example_policy OWNER_SHARED 0) (Returned RVoid)) = (nd, evs)
    ∧ sent evs = [(1, Msg 8 7 0); (2, Msg 8 7 0)]
    ∧ deliver_all (example_runtime 0 3) [(1, Msg 9 7 1, []); (2, Msg 9 7 2, [])] nd
      = (nd', evs')
    ∧ app nd' = Returned (RBool ret)
    ∧ registered (policy nd') 7
      = Some (VarData (Shared 7 [x00; x00; x00; x00])
                (PolicyData OWNER_NO_SHARED 0 (Semaphore 0))).
Proof.
  destruct (owner_shared_write_collects_acks (example_runtime 0 3) 7
              (example_policy OWNER_SHARED 0) (example_var OWNER_SHARED 0))
    as (nd & evs & ret & Hcall & Hsent & _ & _ & _ & _ & Hacks).
  - vm_compute. split; [discriminate|reflexivity].
  - vm_compute. split; discriminate.
  - reflexivity.
  - reflexivity.
  - destruct (Hacks [(1, Msg 9 7 1, []); (2, Msg 9 7 2, [])])
      as (nd' & evs' & Hrun & _ & Hwoken).
    { by repeat constructor. }
    destruct Hwoken as (Happ & _ & Hreg); [reflexivity|].
    exists nd, evs, ret, nd', evs'.
    split; [exact Hcall|]. split; [exact Hsent|]. split; [exact Hrun|].
    split; [exact Happ|exact Hreg].
Defined.

(** C3 fails on a system of one node: a write by node 0, alone in the
    configuration file, to a variable in state OWNER_SHARED (the state
    that [master_node_init] gives every variable).  There is no peer, so
    nothing is sent and the counter (5 before the call, say) is set
    to 0; no acknowledgement is outstanding, yet the thread waits on the
    condition, the state is still OWNER_SHARED, and no receiver thread
    exists that could ever notify it. *)
Example owner_shared_write_alone_never_wakes :
  let rt := example_runtime 0 1 in
  let v := VarData (Shared 7 [x00; x00; x00; x00])
             (PolicyData OWNER_SHARED 0 (Semaphore 5)) in
  let run := call (before_local_write rt 7)
               (Node (MkPolicy {[7 := Some v]} ∅) (Returned RVoid)) in
  get_number_of_nodes rt = 1
  ∧ peers rt = []
  ∧ start_receiving rt = []
  ∧ run.2 = []
  ∧ registered (policy run.1) 7
    = Some (VarData (Shared 7 [x00; x00; x00; x00])
              (PolicyData OWNER_SHARED 0 (Semaphore 0)))
  ∧ app run.1 = Blocked (waiting_invalidate_copies_wait_condition_ 7)
                  (after_wait_invalidate_copies 7 true).
Proof. vm_compute. repeat split. Qed.

(** ** Barriers *)

Lemma after_arrival_map_index rt s p :
  match (map_index s (master_waiting_barrier_grants_ p)).1 with
  | Some e => decrement (counter_ e)
  | None => decrement (to_ulong (get_number_of_nodes rt))
  end = after_arrival rt s p
  ∧ ∀ (x : option semaphore) s',
      <[s := x]> (map_index s (master_waiting_barrier_grants_ p)).2 !! s'
      = if decide (s' = s) then Some x else master_waiting_barrier_grants_ p !! s'.
Proof.
  unfold after_arrival, map_index.
  destruct (master_waiting_barrier_grants_ p !! s) as [[e|]|] eqn:E; simpl.
  all: split; [done|]; intros x s'; destruct (decide (s' = s)) as [->|Hne].
  all: rewrite ?lookup_insert_eq; try done.
  all: by rewrite !lookup_insert_ne by done.
Qed.

Lemma decrement_range c : 0 ≤ decrement c < ULONG_MODULUS.
Proof. unfold decrement. apply Z.mod_pos_bound. done. Qed.

(** C5: the master (node 0) enters barrier [s].  With [c] the counter
    after this arrival (the entry's counter, or [N] for a new entry, minus
    one): if [c] is positive the entry holds [c], nothing is sent and the
    thread sleeps on the entry's condition, and the code after the wake-up
    removes the entry and sends MSG_BARRIER_UNBLOCK(s) to every slave; if
    [c] is zero the entry is removed and the same broadcast is made at
    once.  The handler of an incoming MSG_BARRIER_BLOCK(s) leaves the same
    counter [c] in the entry, notifies the entry's condition exactly when
    [c] is zero, sends nothing and completes without waiting.  On the wire
    MSG_BARRIER_BLOCK is type 6 and MSG_BARRIER_UNBLOCK is type 7; the
    [data] field of the broadcast header is never assigned ([indet]). *)
Theorem master_barrier_counts_and_releases rt s indet p :
  pbsm_tid rt = 0 →
  0 < get_number_of_nodes rt →
  let c := after_arrival rt s p in
  let unblock := (λ i, (i, Msg 7 s indet))
                 <$> seqZ 1 (get_number_of_nodes rt - 1) in
  0 ≤ c
  ∧ (∃ p' evs st,
     thread_wait_master_barrier rt s indet p = (p', evs, st)
     ∧ dictionary_ p' = dictionary_ p
     ∧ (∀ s', s' ≠ s → master_waiting_barrier_grants_ p' !! s'
                       = master_waiting_barrier_grants_ p !! s')
     ∧ (0 < c →
        master_waiting_barrier_grants_ p' !! s = Some (Some (Semaphore c))
        ∧ evs = []
        ∧ ∃ k, st = Blocked (barrier_wait_condition_ s) k
          ∧ ∀ q, ∃ q' evs',
              resume rt k q = (q', evs', RVoid)
              ∧ master_waiting_barrier_grants_ q' !! s = Some None
              ∧ sent evs' = unblock)
     ∧ (c = 0 →
        master_waiting_barrier_grants_ p' !! s = Some None
        ∧ sent evs = unblock
        ∧ st = Returned RVoid))
  ∧ (∀ rem_node msg d,
       msg_type msg = 6 →
       msg_id msg = s →
       ∃ p' evs,
         receive_messages_body rt rem_node msg d p = (p', evs, Completed)
         ∧ dictionary_ p' = dictionary_ p
         ∧ master_waiting_barrier_grants_ p' !! s = Some (Some (Semaphore c))
         ∧ (∀ s', s' ≠ s → master_waiting_barrier_grants_ p' !! s'
                           = master_waiting_barrier_grants_ p !! s')
         ∧ transmissions evs = []
         ∧ notified evs = (if c =? 0 then [barrier_wait_condition_ s] else [])).
Proof.
  intros Htid HN c unblock.
  pose proof (after_arrival_map_index rt s p) as [Hc Hg]. fold c in Hc.
  pose proof (decrement_range
    match master_waiting_barrier_grants_ p !! s with
    | Some (Some elem) => counter_ elem
    | _ => to_ulong (get_number_of_nodes rt)
    end) as Hrange.
  change (decrement _) with c in Hrange.
  pose proof (send_to_all_sent rt (mk_msg MSG_BARRIER_UNBLOCK s indet)) as Hsent.
  rewrite (peers_master rt Htid HN) in Hsent.
  change (_ <$> seqZ 1 _) with unblock in Hsent.
  destruct (send_to_all rt (mk_msg MSG_BARRIER_UNBLOCK s indet)) as [bevs ok] eqn:Hsend.
  simpl in Hsent.
  split; [lia|]. split.
  - unfold thread_wait_master_barrier.
    destruct (map_index s (master_waiting_barrier_grants_ p)) as [elem g] eqn:Hmi.
    simpl in Hc, Hg.
    assert (Hcnt : counter_ (Semaphore (decrement (counter_
                     match elem with
                     | Some e => e
                     | None => Semaphore (to_ulong (get_number_of_nodes rt))
                     end))) = c) by (by destruct elem).
    rewrite Hcnt. destruct (0 <? c) eqn:Hpos.
    + apply Z.ltb_lt in Hpos. eexists _, _, _. split; [reflexivity|].
      split; [done|]. split; [|split].
      * intros s' Hs'. simpl. rewrite Hg. by rewrite decide_False.
      * intros _. split.
        { simpl. rewrite Hg, decide_True by done. do 2 f_equal.
          destruct elem; simpl in *; by rewrite Hc. }
        split; [done|]. eexists. split; [reflexivity|].
        intros q. simpl. rewrite Hsend. eexists _, _. split; [reflexivity|].
        split; [simpl; by rewrite lookup_insert_eq|].
        by rewrite sent_with_error.
      * intros Hz. lia.
    + apply Z.ltb_ge in Hpos. rewrite Hsend. eexists _, _, _. split; [reflexivity|].
      split; [done|]. split; [|split].
      * intros s' Hs'. simpl. rewrite lookup_insert_ne by done.
        rewrite Hg. by rewrite decide_False.
      * intros Hz. lia.
      * intros _. split; [simpl; by rewrite lookup_insert_eq|].
        split; [by rewrite sent_with_error|done].
  - intros rem_node msg d Hty Hid. unfold receive_messages_body.
    rewrite Hty. simpl msg_type_of_code. cbv iota. rewrite Hid.
    rewrite decide_False by (intros H; by apply H).
    destruct (map_index s (master_waiting_barrier_grants_ p)) as [elem g] eqn:Hmi.
    simpl in Hc, Hg.
    assert (Hcnt : counter_ (Semaphore (decrement (counter_
                     match elem with
                     | Some e => e
                     | None => Semaphore (to_ulong (get_number_of_nodes rt))
                     end))) = c) by (by destruct elem).
    rewrite Hcnt. eexists _, _. split; [reflexivity|]. split; [done|].
    split; [|split; [|split]].
    + simpl. rewrite Hg, decide_True by done. do 2 f_equal.
      destruct elem; simpl in *; by rewrite Hc.
    + intros s' Hs'. simpl. rewrite Hg. by rewrite decide_False.
    + by destruct (c =? 0).
    + by destruct (c =? 0).
Qed.

Lemma master_barrier_counts_and_releases_witness :
  ∃ p' evs,
    thread_wait_master_barrier (example_runtime 0 3) 5 0
      (MkPolicy ∅ {[5 := Some (Semaphore 1)]})
    = (p', evs, Returned RVoid)
    ∧ sent evs = [(1, Msg 7 5 0); (2, Msg 7 5 0)]
    ∧ master_waiting_barrier_grants_ p' !! 5 = Some None.
Proof.
  destruct (master_barrier_counts_and_releases (example_runtime 0 3) 5 0
              (MkPolicy ∅ {[5 := Some (Semaphore 1)]}))
    as (_ & (p' & evs & st & Hrun & _ & _ & _ & Hzero) & _).
  - reflexivity.
  - reflexivity.
  - destruct Hzero as (Hentry & Hsent & ->); [reflexivity|].
    exists p', evs. split; [exact Hrun|]. split; [exact Hsent|exact Hentry].
Defined.

(** ** The membership loader *)

Section Loader.

Variable tid : Z.

Lemma filled_empty : filled tid (Comm ∅ 0).
Proof. split; [done|]. intros j Hj. simpl in Hj. lia. Qed.

(** The loop always leaves through one of its two [break]s within
    [MAX_NUMBER_OF_NODES - number_of_nodes_] iterations. *)
Lemma constructor_loop_total fuel : ∀ s c,
  filled tid c →
  number_of_nodes_ c < MAX_NUMBER_OF_NODES →
  (Z.to_nat (MAX_NUMBER_OF_NODES - number_of_nodes_ c) ≤ fuel)%nat →
  ∃ c' evs,
    constructor_loop fuel tid (number_of_nodes_ c) s c = Some (c', evs)
    ∧ filled tid c'
    ∧ (evs = [] ∨ evs = max_nodes_warning ∧ number_of_nodes_ c' = MAX_NUMBER_OF_NODES).
Proof.
  induction fuel as [|fuel IH]; intros s c Hc Hlt Hfuel; [lia|].
  simpl. destruct (extract s) as [[w rest] eof]. destruct eof.
  { exists c, []. split; [done|]. split; [done|]. by left. }
  set (entry := Connection (default EmptyString w)
                  (network_port_offset + number_of_nodes_ c) None
                  (network_port_offset + tid) None).
  set (c1 := Comm (<[number_of_nodes_ c := entry]> (connections_ c))
               (number_of_nodes_ c + 1)).
  assert (Hc1 : filled tid c1).
  { destruct Hc as [Hn Hslots]. split; [simpl; lia|].
    intros j Hj. simpl in Hj. simpl.
    destruct (decide (j = number_of_nodes_ c)) as [->|Hne].
    - rewrite lookup_insert_eq. by eexists.
    - rewrite lookup_insert_ne by done. apply Hslots. lia. }
  simpl. destruct (number_of_nodes_ c + 1 =? MAX_NUMBER_OF_NODES) eqn:Hmax.
  { apply Z.eqb_eq in Hmax. exists c1, max_nodes_warning.
    split; [done|]. split; [done|]. by right. }
  apply Z.eqb_neq in Hmax.
  apply (IH rest c1 Hc1); simpl; lia.
Qed.

(** *** A file with one address per line *)

Lemma read_word_line w s :
  no_space w = true →
  read_word (w +:+ String newline s) = (w, String newline s, false).
Proof.
  induction w as [|ch w IH]; intros Hw; [done|].
  simpl in Hw. apply andb_true_iff in Hw as [Hch Hw].
  apply negb_true_iff in Hch. simpl. by rewrite Hch, (IH Hw).
Qed.

Lemma extract_line w s :
  is_address w = true →
  extract (w +:+ String newline s) = (Some w, String newline s, false).
Proof.
  intros Hw. destruct w as [|ch w]; [done|].
  pose proof (read_word_line (String ch w) s Hw) as Hread.
  simpl in Hw. apply andb_true_iff in Hw as [Hch Hw].
  apply negb_true_iff in Hch. unfold extract.
  assert (Hskip : skipws (String ch w +:+ String newline s)
                  = String ch w +:+ String newline s) by (simpl; by rewrite Hch).
  rewrite Hskip. simpl. simpl in Hread. by rewrite Hread.
Qed.

Lemma extract_skipws s s' : skipws s = skipws s' → extract s = extract s'.
Proof. unfold extract. by intros ->. Qed.

(** Reading [lines] when exactly that many slots are still free: every
    line becomes a node and the loop stops at the limit with the
    warning, whatever follows in the file. *)
Lemma constructor_loop_lines rest lines : ∀ fuel i c s,
  Forall (λ w, is_address w = true) lines →
  lines ≠ [] →
  number_of_nodes_ c + Z.of_nat (length lines) = MAX_NUMBER_OF_NODES →
  (length lines ≤ fuel)%nat →
  skipws s = skipws (file_of_lines lines rest) →
  ∃ c',
    constructor_loop fuel tid i s c = Some (c', max_nodes_warning)
    ∧ number_of_nodes_ c' = MAX_NUMBER_OF_NODES
    ∧ (∀ (k : nat) w, lines !! k = Some w →
         connections_ c' !! (i + Z.of_nat k)
         = Some (Connection w (network_port_offset + (i + Z.of_nat k)) None
                   (network_port_offset + tid) None))
    ∧ (∀ j, j < i ∨ i + Z.of_nat (length lines) ≤ j →
         connections_ c' !! j = connections_ c !! j).
Proof.
  induction lines as [|w lines IH]; intros fuel i c s Hall Hne Hcount Hfuel Hs; [done|].
  apply Forall_cons in Hall as [Hw Hall].
  destruct fuel as [|fuel]; [simpl in Hfuel; lia|].
  simpl constructor_loop.
  rewrite (extract_skipws _ _ Hs). simpl file_of_lines. rewrite (extract_line _ _ Hw).
  simpl default.
  set (entry := Connection w (network_port_offset + i) None
                  (network_port_offset + tid) None).
  set (c1 := Comm (<[i := entry]> (connections_ c)) (number_of_nodes_ c + 1)).
  cbn [number_of_nodes_]. fold c1.
  destruct lines as [|w' lines'].
  - simpl in Hcount. rewrite (proj2 (Z.eqb_eq _ _)) by lia.
    exists c1. split; [done|]. split; [simpl; lia|]. split.
    + intros [|k] w0 Hk; [|done]. injection Hk as <-. simpl.
      rewrite Z.add_0_r. by rewrite lookup_insert_eq.
    + intros j Hj. simpl in Hj. simpl. by rewrite lookup_insert_ne by lia.
  - simpl length in Hcount, Hfuel.
    rewrite (proj2 (Z.eqb_neq _ _)) by lia.
    destruct (IH fuel (i + 1) c1 (String newline (file_of_lines (w' :: lines') rest)))
      as (c' & Hrun & Hn & Hlines & Hold); [done|done|simpl; lia|simpl; lia|done|].
    exists c'. split; [done|]. split; [done|]. split.
    + intros [|k] w0 Hk.
      * injection Hk as <-. rewrite Z.add_0_r, Hold by lia.
        simpl. by rewrite lookup_insert_eq.
      * replace (i + Z.of_nat (S k)) with (i + 1 + Z.of_nat k) by lia.
        by apply Hlines.
    + intros j Hj. simpl length in Hj, Hold.
      rewrite Hold by lia. simpl. by rewrite lookup_insert_ne by lia.
Qed.

End Loader.

(** C10: the loader never counts more than [MAX_NUMBER_OF_NODES] (100)
    nodes, whatever the file holds; and for a file whose first 100 lines
    each hold an address, whatever follows them, exactly these 100 become
    the nodes 0..99, no further slot is written, and the constructor ends
    with the warning that the maximum was reached. *)
Theorem loader_reads_at_most_max_nodes tid lines rest :
  length lines = Z.to_nat MAX_NUMBER_OF_NODES →
  Forall (λ w, is_address w = true) lines →
  (∀ config, ∃ c evs,
     CommunicationHandler_ctor tid (Some config) = Normal (c, evs)
     ∧ 0 ≤ number_of_nodes_ c ≤ MAX_NUMBER_OF_NODES)
  ∧ ∃ c,
      CommunicationHandler_ctor tid (Some (file_of_lines lines rest))
      = Normal (c, max_nodes_warning)
      ∧ number_of_nodes_ c = MAX_NUMBER_OF_NODES
      ∧ (∀ (k : nat) w, lines !! k = Some w →
           connections_ c !! Z.of_nat k
           = Some (Connection w (network_port_offset + Z.of_nat k) None
                     (network_port_offset + tid) None))
      ∧ (∀ j, MAX_NUMBER_OF_NODES ≤ j → connections_ c !! j = None).
Proof.
  intros Hlen Hall. split.
  - intros config. unfold CommunicationHandler_ctor.
    destruct (constructor_loop_total tid (Z.to_nat MAX_NUMBER_OF_NODES) config (Comm ∅ 0))
      as (c & evs & Hrun & [Hn _] & _).
    + apply filled_empty.
    + reflexivity.
    + cbn [number_of_nodes_]. rewrite Z.sub_0_r. apply Nat.le_refl.
    + cbn [number_of_nodes_] in Hrun. rewrite Hrun. exists c, evs. by split.
  - unfold CommunicationHandler_ctor.
    destruct (constructor_loop_lines tid rest lines (Z.to_nat MAX_NUMBER_OF_NODES) 0
                (Comm ∅ 0) (file_of_lines lines rest))
      as (c & Hrun & Hn & Hlines & Hold).
    + exact Hall.
    + intros ->. discriminate Hlen.
    + cbn [number_of_nodes_]. rewrite Hlen. reflexivity.
    + rewrite Hlen. apply Nat.le_refl.
    + reflexivity.
    + rewrite Hrun. exists c. split; [reflexivity|]. split; [exact Hn|]. split.
      * intros k w Hk. specialize (Hlines k w Hk). by rewrite Z.add_0_l in Hlines.
      * intros j Hj. rewrite Hold.
        { apply lookup_empty. }
        right. rewrite Hlen. exact Hj.
Qed.

Lemma loader_reads_at_most_max_nodes_witness :
  ∃ c,
    CommunicationHandler_ctor 0 (Some (file_of_lines hundred_lines "10.0.0.2"))
    = Normal (c, max_nodes_warning)
    ∧ number_of_nodes_ c = 100.
Proof.
  destruct (loader_reads_at_most_max_nodes 0 hundred_lines "10.0.0.2")
    as (_ & c & Hrun & Hn & _).
  - reflexivity.
  - apply Forall_forall. intros w Hw.
    apply elem_of_replicate in Hw as [-> _]. reflexivity.
  - exists c. split; [exact Hrun|exact Hn].
Defined.

(** ** Ports *)

Lemma constructor_filled tid config c evs :
  CommunicationHandler_ctor tid (Some config) = Normal (c, evs) → filled tid c.
Proof.
  unfold CommunicationHandler_ctor.
  destruct (constructor_loop_total tid (Z.to_nat MAX_NUMBER_OF_NODES) config (Comm ∅ 0))
    as (c' & evs' & Hrun & Hc & _).
  - apply filled_empty.
  - reflexivity.
  - cbn [number_of_nodes_]. rewrite Z.sub_0_r. apply Nat.le_refl.
  - cbn [number_of_nodes_] in Hrun. rewrite Hrun. by intros [= <- <-].
Qed.

(** C8, as stated, fails: on node 0 of two nodes, the receive socket for
    node 1 is bound to port 2001, which is not 2000 + 0, and the send socket
    for node 1 is connected to port 2000, which is not 2000 + 1. *)
Lemma ports_counterexample :
  match CommunicationHandler_ctor 0 (Some two_hosts) with
  | Normal (c, _) =>
      bound_ports (start_recv_server example_os 1 c).1 = [2001]
      ∧ 2001 ≠ network_port_offset + 0
      ∧ connected_ports (start_send_client example_os 1 c).1 = [2000]
      ∧ 2000 ≠ network_port_offset + 1
  | _ => False
  end.
Proof. vm_compute. repeat split; discriminate. Qed.

(** C8, amended: on node [i] (with the communication handler built from
    any file that gives [N] nodes, [i] below [N]), for every other node [j]
    below [N] whose sockets the system creates, the receive socket for [j]
    is bound to port [2000 + j] and the send socket for [j] is connected to
    port [2000 + i]. *)
Theorem ports_of_connections o i j config c evs :
  CommunicationHandler_ctor i (Some config) = Normal (c, evs) →
  0 ≤ i < number_of_nodes_ c →
  0 ≤ j < number_of_nodes_ c →
  i ≠ j →
  0 ≤ recv_socket o j →
  0 ≤ send_socket o j →
  network_port_offset = 2000
  ∧ recv_port <$> connections_ c !! j = Some (network_port_offset + j)
  ∧ send_port <$> connections_ c !! j = Some (network_port_offset + i)
  ∧ bound_ports (start_recv_server o j c).1 = [network_port_offset + j]
  ∧ connected_ports (start_send_client o j c).1 = [network_port_offset + i].
Proof.
  intros Hctor Hi Hj Hij Hrecv Hsend.
  destruct (constructor_filled _ _ _ _ Hctor) as [HN Hslots].
  destruct (Hslots j Hj) as [w Hslot].
  unfold MAX_NUMBER_OF_NODES in HN.
  assert (Hpj : htons_arg (network_port_offset + j) = network_port_offset + j).
  { unfold htons_arg, network_port_offset. apply Z.mod_small. lia. }
  assert (Hpi : htons_arg (network_port_offset + i) = network_port_offset + i).
  { unfold htons_arg, network_port_offset. apply Z.mod_small. lia. }
  split; [done|]. rewrite Hslot. split; [done|]. split; [done|].
  unfold start_recv_server, start_send_client. rewrite Hslot. cbn [recv_port send_port].
  rewrite Hpj, Hpi.
  rewrite (proj2 (Z.ltb_ge _ _) Hrecv), (proj2 (Z.ltb_ge _ _) Hsend).
  split.
  - by destruct (bind_result o (recv_socket o j) <? 0).
  - by destruct (connect_result o (send_socket o j) <? 0).
Qed.

Lemma ports_of_connections_witness :
  ∃ c evs,
    CommunicationHandler_ctor 0 (Some two_hosts) = Normal (c, evs)
    ∧ bound_ports (start_recv_server example_os 1 c).1 = [network_port_offset + 1]
    ∧ connected_ports (start_send_client example_os 1 c).1 = [network_port_offset + 0].
Proof.
  destruct (CommunicationHandler_ctor 0 (Some two_hosts)) as [[c evs]| | |] eqn:Hctor;
    try (vm_compute in Hctor; discriminate Hctor).
  assert (Hn : number_of_nodes_ c = 2).
  { vm_compute in Hctor. injection Hctor as <- _. reflexivity. }
  destruct (ports_of_connections example_os 0 1 two_hosts c evs Hctor)
    as (_ & _ & _ & Hb & Hc).
  - rewrite Hn. lia.
  - rewrite Hn. lia.
  - discriminate.
  - vm_compute. discriminate.
  - vm_compute. discriminate.
  - exists c, evs. split; [reflexivity|]. split; [exact Hb|exact Hc].
Defined.

(** ** Start-up *)

Lemma start_recv_server_ok o j c :
  os_succeeds o → is_Some (connections_ c !! j) →
  ∃ calls c', start_recv_server o j c = (calls, Normal c') ∧ extends c c'.
Proof.
  intros (Hrecv & _ & Hbind & _) [s Hs]. unfold start_recv_server. rewrite Hs.
  rewrite (proj2 (Z.ltb_ge _ _) (Hrecv j)), (proj2 (Z.ltb_ge _ _) (Hbind _)).
  eexists _, _. split; [reflexivity|]. split; [done|].
  intros j' Hj'. simpl. destruct (decide (j = j')) as [->|Hne].
  - rewrite lookup_insert_eq. by eexists.
  - by rewrite lookup_insert_ne.
Qed.

Lemma start_send_client_ok o j c :
  os_succeeds o → is_Some (connections_ c !! j) →
  ∃ calls c', start_send_client o j c = (calls, Normal c') ∧ extends c c'.
Proof.
  intros (_ & Hsend & _ & Hconn) [s Hs]. unfold start_send_client. rewrite Hs.
  rewrite (proj2 (Z.ltb_ge _ _) (Hsend j)), (proj2 (Z.ltb_ge _ _) (Hconn _)).
  eexists _, _. split; [reflexivity|]. split; [done|].
  intros j' Hj'. simpl. destruct (decide (j = j')) as [->|Hne].
  - rewrite lookup_insert_eq. by eexists.
  - by rewrite lookup_insert_ne.
Qed.

Lemma start_each_ok start tid entries :
  (∀ j c, is_Some (connections_ c !! j) →
          ∃ calls c', start j c = (calls, Normal c') ∧ extends c c') →
  ∀ c, Forall (λ j, is_Some (connections_ c !! j)) entries →
       ∃ calls c', start_each start tid entries c = (calls, Normal c') ∧ extends c c'.
Proof.
  intros Hstart. induction entries as [|j entries IH]; intros c Hall.
  - exists [], c. split; [done|]. by split.
  - apply Forall_cons in Hall as [Hj Hall]. simpl.
    destruct (decide (j ≠ tid)); [|by apply IH].
    destruct (Hstart j c Hj) as (calls & c1 & -> & Hn1 & Hdom1).
    destruct (IH c1) as (calls' & c' & -> & Hn' & Hdom').
    { eapply Forall_impl; [exact Hall|]. intros j' Hj'. by apply Hdom1. }
    eexists _, _. split; [reflexivity|]. split; [congruence|].
    intros j' Hj'. by apply Hdom', Hdom1.
Qed.

Lemma create_connections_ok o tid c :
  os_succeeds o → filled tid c →
  ∃ calls c', create_connections o tid c = (calls, Normal c') ∧ extends c c'.
Proof.
  intros Hos [_ Hslots]. unfold create_connections.
  assert (Hall : ∀ c', extends c c' →
            Forall (λ j, is_Some (connections_ c' !! j)) (range (number_of_nodes_ c'))).
  { intros c' [Hn Hdom]. apply Forall_seqZ. intros j Hj. apply Hdom.
    destruct (Hslots j) as [w ->]; [lia|]. by eexists. }
  destruct (start_each_ok (start_recv_server o) tid (range (number_of_nodes_ c))
              (λ j c, start_recv_server_ok o j c Hos) c)
    as (calls & c1 & -> & Hext1).
  { apply Hall. by split. }
  destruct (start_each_ok (start_send_client o) tid (range (number_of_nodes_ c1))
              (λ j c, start_send_client_ok o j c Hos) c1 (Hall c1 Hext1))
    as (calls' & c2 & -> & Hn2 & Hdom2).
  eexists _, _. split; [reflexivity|]. destruct Hext1 as [Hn1 Hdom1].
  split; [congruence|]. intros j Hj. by apply Hdom2, Hdom1.
Qed.

(** None of the functions that open the sockets calls [exit]. *)
Lemma start_each_no_exit start tid entries :
  (∀ j c code, (start j c).2 ≠ Exited code) →
  ∀ c code, (start_each start tid entries c).2 ≠ Exited code.
Proof.
  intros Hstart. induction entries as [|j entries IH]; intros c code; [done|].
  simpl. destruct (decide (j ≠ tid)); [|apply IH].
  pose proof (Hstart j c code) as Hj.
  destruct (start j c) as [calls [c1|what|code'|]]; simpl in *; try done.
  pose proof (IH c1 code) as H1.
  by destruct (start_each start tid entries c1).
Qed.

Lemma create_connections_no_exit o tid c code :
  (create_connections o tid c).2 ≠ Exited code.
Proof.
  assert (Hr : ∀ j c code, (start_recv_server o j c).2 ≠ Exited code).
  { intros j c0 code0. unfold start_recv_server.
    destruct (connections_ c0 !! j); [|done].
    destruct (recv_socket o j <? 0); [done|].
    by destruct (bind_result o (recv_socket o j) <? 0). }
  assert (Hs : ∀ j c code, (start_send_client o j c).2 ≠ Exited code).
  { intros j c0 code0. unfold start_send_client.
    destruct (connections_ c0 !! j); [|done].
    destruct (send_socket o j <? 0); [done|].
    by destruct (connect_result o (send_socket o j) <? 0). }
  unfold create_connections.
  pose proof (start_each_no_exit _ tid (range (number_of_nodes_ c)) Hr c code) as H1.
  destruct (start_each (start_recv_server o) tid (range (number_of_nodes_ c)) c)
    as [calls [c1|what|code'|]]; simpl in *; try done.
  pose proof (start_each_no_exit _ tid (range (number_of_nodes_ c1)) Hs c1 code) as H2.
  by destruct (start_each (start_send_client o) tid (range (number_of_nodes_ c1)) c1).
Qed.

(** ** The node id *)

Lemma to_int_range z : - 2 ^ 31 ≤ to_int z < 2 ^ 31.
Proof.
  unfold to_int, INT_MODULUS.
  pose proof (Z.mod_pos_bound (z + 2 ^ 31) (2 ^ 32)). lia.
Qed.

Lemma to_int_small z : - 2 ^ 31 ≤ z < 2 ^ 31 → to_int z = z.
Proof.
  intros Hz. unfold to_int, INT_MODULUS. rewrite Z.mod_small by lia. lia.
Qed.

Lemma digit_cases d : 0 ≤ d ≤ 9 →
  d = 0 ∨ d = 1 ∨ d = 2 ∨ d = 3 ∨ d = 4 ∨ d = 5 ∨ d = 6 ∨ d = 7 ∨ d = 8 ∨ d = 9.
Proof. lia. Qed.

Lemma strtol_digits_numeral ds : ∀ acc,
  Forall (λ d, 0 ≤ d ≤ 9) ds →
  strtol_digits acc (numeral ds) = foldl (λ acc d, 10 * acc + d) acc ds.
Proof.
  induction ds as [|d ds IH]; intros acc Hds; [done|].
  apply Forall_cons in Hds as [Hd Hds]. simpl foldl. rewrite <- IH by done.
  destruct (digit_cases d Hd) as [->|[->|[->|[->|[->|[->|[->|[->|[->| ->]]]]]]]]];
    reflexivity.
Qed.

Lemma numeral_value_nonneg ds : ∀ acc,
  Forall (λ d, 0 ≤ d ≤ 9) ds → 0 ≤ acc →
  0 ≤ foldl (λ acc d, 10 * acc + d) acc ds.
Proof.
  induction ds as [|d ds IH]; intros acc Hds Hacc; [done|].
  apply Forall_cons in Hds as [Hd Hds]. simpl. apply IH; [done|lia].
Qed.

(** The number that [atoi] returns for a decimal numeral. *)
Lemma atoi_numeral ds :
  Forall (λ d, 0 ≤ d ≤ 9) ds →
  atoi (numeral ds) = to_int (Z.min LONG_MAX (numeral_value ds)).
Proof.
  intros Hds. unfold atoi, strtol. f_equal.
  pose proof (numeral_value_nonneg ds 0 Hds (Z.le_refl 0)) as Hpos.
  fold (numeral_value ds) in Hpos.
  assert (Hread : match skipws (numeral ds) with
                  | String "-"%char s' => - strtol_digits 0 s'
                  | String "+"%char s' => strtol_digits 0 s'
                  | s' => strtol_digits 0 s'
                  end = numeral_value ds).
  { unfold numeral_value. rewrite <- (strtol_digits_numeral ds 0 Hds).
    destruct ds as [|d ds]; [done|].
    apply Forall_cons in Hds as [Hd Hds].
    destruct (digit_cases d Hd) as [->|[->|[->|[->|[->|[->|[->|[->|[->| ->]]]]]]]]];
      reflexivity. }
  rewrite Hread. unfold LONG_MIN, LONG_MAX. lia.
Qed.

(** C9, as stated, fails: with two hosts in the file, the program started
    with the single argument 7 (not a node id in [0, 1]) does not exit:
    [pbsm_init] goes through with [pbsm_tid = 7], opens the sockets and
    starts the receivers for the nodes 0 and 1. *)
Lemma pbsm_init_invalid_id_counterexample :
  match (pbsm_init example_os (Some two_hosts) (λ _, true)
           ["program"; "7"]%string (example_policy OWNER_SHARED 0)).2 with
  | Normal s =>
      pbsm_tid (started_runtime s) = 7
      ∧ get_number_of_nodes (started_runtime s) = 2
      ∧ ¬ (0 ≤ 7 ≤ 2 - 1)
      ∧ threads_ s = [0; 1]
  | _ => False
  end.
Proof. vm_compute. repeat split; try done. intros [_ H]. by apply H. Qed.

(** C9, amended: [pbsm_init] exits, with code -1 (status 255), exactly when
    the number of command-line arguments is not one.  A single argument is
    not validated: the node id is [atoi] of it, an [int] whatever the
    argument is (the number itself for a decimal numeral below 2^31, its
    low 32 bits beyond); no value of it makes [pbsm_init] exit, and when the
    configuration file can be read, the system calls succeed and no
    variable entry is null, start-up completes with that node id. *)
Theorem pbsm_init_checks_argument_count_only o config net argv p :
  match argv with
  | [prog; arg] =>
      - 2 ^ 31 ≤ atoi arg < 2 ^ 31
      ∧ (∀ ds, Forall (λ d, 0 ≤ d ≤ 9) ds → arg = numeral ds →
               numeral_value ds < 2 ^ 31 → atoi arg = numeral_value ds)
      ∧ (∀ code, (pbsm_init o config net argv p).2 ≠ Exited code)
      ∧ (∀ s, (pbsm_init o config net argv p).2 = Normal s →
              pbsm_tid (started_runtime s) = atoi arg)
      ∧ (os_succeeds o → is_Some config → all_non_null (dictionary_ p) = true →
         ∃ s, (pbsm_init o config net argv p).2 = Normal s
              ∧ pbsm_tid (started_runtime s) = atoi arg)
  | _ =>
      (pbsm_init o config net argv p).2 = Exited (-1)
      ∧ exit_status (-1) = 255
  end.
Proof.
  destruct argv as [|prog [|arg [|extra argv]]]; try (split; reflexivity).
  split; [apply to_int_range|]. split.
  { intros ds Hds -> Hsmall. rewrite (atoi_numeral ds Hds).
    pose proof (numeral_value_nonneg ds 0 Hds (Z.le_refl 0)) as Hpos.
    fold (numeral_value ds) in Hpos.
    rewrite Z.min_r by (unfold LONG_MAX; lia). apply to_int_small. lia. }
  unfold pbsm_init. rewrite decide_False by (intros H; by apply H).
  change (default EmptyString ([prog; arg] !! 1%nat)) with arg.
  set (init := if decide (atoi arg = 0) then master_node_init p else slave_node_init p).
  split; [|split].
  - intros code. destruct init as [p1|]; [|done].
    destruct (CommunicationHandler_ctor (atoi arg) config) as [[c evs]|what|code'|] eqn:Hctor.
    + pose proof (create_connections_no_exit o (atoi arg) c code) as Hc.
      destruct (create_connections o (atoi arg) c) as [calls [c1|what|code''|]];
        simpl in *; try done.
      intros [= ->]. by apply Hc.
    + done.
    + unfold CommunicationHandler_ctor in Hctor. destruct config; [|done].
      by destruct (constructor_loop _ _ _ _ _).
    + done.
  - intros s. destruct init as [p1|]; [|done].
    destruct (CommunicationHandler_ctor (atoi arg) config) as [[c evs]|what|code'|];
      try done.
    destruct (create_connections o (atoi arg) c) as [calls [c1|what|code'|]]; try done.
    simpl. by intros [= <-].
  - intros Hos [content ->] Hnull.
    assert (Hinit : is_Some init).
    { unfold init, master_node_init, slave_node_init. rewrite Hnull.
      by destruct (decide (atoi arg = 0)). }
    destruct Hinit as [p1 ->].
    destruct (CommunicationHandler_ctor (atoi arg) (Some content))
      as [[c evs]|what|code'|] eqn:Hctor.
    + destruct (create_connections_ok o (atoi arg) c Hos (constructor_filled _ _ _ _ Hctor))
        as (calls & c1 & -> & _).
      eexists. split; reflexivity.
    + unfold CommunicationHandler_ctor in Hctor.
      by destruct (constructor_loop _ _ _ _ _).
    + unfold CommunicationHandler_ctor in Hctor.
      by destruct (constructor_loop _ _ _ _ _).
    + unfold CommunicationHandler_ctor in Hctor.
      destruct (constructor_loop_total (atoi arg) (Z.to_nat MAX_NUMBER_OF_NODES)
                  content (Comm ∅ 0)) as (c' & evs' & Hrun & _).
      * apply filled_empty.
      * reflexivity.
      * cbn [number_of_nodes_]. rewrite Z.sub_0_r. apply Nat.le_refl.
      * cbn [number_of_nodes_] in Hrun. by rewrite Hrun in Hctor.
Qed.

(** With the argument 2147483648, one more than the largest [int],
    start-up completes on node -2147483648. *)
Lemma pbsm_init_checks_argument_count_only_witness :
  ∃ s,
    (pbsm_init (OS (λ _, 3) (λ _, 4) (λ _, 0) (λ _, 0)) (Some two_hosts) (λ _, true)
       ["program"; "2147483648"]%string (example_policy OWNER_SHARED 0)).2 = Normal s
    ∧ pbsm_tid (started_runtime s) = -2147483648.
Proof.
  pose proof (pbsm_init_checks_argument_count_only
                (OS (λ _, 3) (λ _, 4) (λ _, 0) (λ _, 0)) (Some two_hosts) (λ _, true)
                ["program"; "2147483648"]%string (example_policy OWNER_SHARED 0)) as H.
  cbv beta iota in H. destruct H as (_ & _ & _ & _ & Hok).
  destruct Hok as (s & Hrun & Htid).
  - repeat split; intros; simpl; lia.
  - by eexists.
  - reflexivity.
  - exists s. split; [exact Hrun|]. rewrite Htid. reflexivity.
Defined.

(** A socket that cannot be bound: the ERROR line is logged and the
    exception of [start_recv_server] ends the start-up. *)
Example pbsm_init_bind_failure :
  pbsm_init (OS (λ _, 3) (λ _, 4) (λ _, -1) (λ _, 0)) (Some two_hosts) (λ _, true)
    ["program"; "0"]%string (example_policy OWNER_SHARED 0)
  = ([EvError "Socket binding"], Thrown "Bind error").
Proof. reflexivity. Qed.

(** * Further properties of the policy *)

(** ** Hooks *)

Lemma send_two_messages_to_transmissions rt m d dest :
  transmissions (send_two_messages_to rt m d dest).1
  = (if decide (dest = to_ulong (pbsm_tid rt)) then []
     else [(dest, Header m); (dest, Raw d)])
  ∧ notified (send_two_messages_to rt m d dest).1 = [].
Proof.
  unfold send_two_messages_to. destruct (decide _); [done|].
  pose proof (send_one_events rt "ERROR: Sending msg1 data" (Header m) dest) as [H1 N1].
  pose proof (send_one_events rt "ERROR: Sending msg2 data" (Raw d) dest) as [H2 N2].
  destruct (send_one rt "ERROR: Sending msg1 data" (Header m) dest) as [evs1 ok1].
  destruct (send_one rt "ERROR: Sending msg2 data" (Raw d) dest) as [evs2 ok2].
  simpl in *. by rewrite transmissions_app, notified_app, H1, H2, N1, N2.
Qed.

(** X1: a read of a registered variable in state REMOTE_OWNER_NO_CACHED
    leaves the policy as it is, hands exactly one header to [send()], a
    MSG_ASK_CURRENT_VALUE carrying the variable's id and this node's id,
    addressed to [remote_owner_] (nothing at all when [remote_owner_] is
    this node itself), and sleeps on [wait_value_updated_]; the code after
    the wake-up sets the state to REMOTE_OWNER_CACHED and touches nothing
    else. *)
Theorem before_local_read_stale_asks_owner rt var_id p v :
  registered p var_id = Some v →
  state_ (policy_data_ v) = REMOTE_OWNER_NO_CACHED →
  ∃ evs,
    before_local_read rt var_id p
    = (p, evs, Blocked (wait_value_updated_ var_id) (after_wait_value_updated var_id))
    ∧ transmissions evs
      = (if decide (remote_owner_ (policy_data_ v) = (pbsm_tid rt mod 2 ^ 64)) then []
         else [(remote_owner_ (policy_data_ v),
                Header (Msg 4 (id_ (variable_ v))
                          (pbsm_tid rt mod 2 ^ 64)))])
    ∧ notified evs = []
    ∧ resume rt (after_wait_value_updated var_id) p
      = (MkPolicy
           (<[var_id :=
                Some (VarData (variable_ v)
                        (PolicyData REMOTE_OWNER_CACHED
                           (remote_owner_ (policy_data_ v))
                           (waiting_invalidate_copies_ (policy_data_ v))))]>
              (dictionary_ p))
           (master_waiting_barrier_grants_ p), [], RVoid).
Proof.
  intros Hreg Hst. unfold before_local_read.
  rewrite (map_index_registered _ _ _ Hreg), set_dictionary_same, Hst.
  unfold requestCurrentValue.
  pose proof (send_to_transmissions rt
    (mk_msg MSG_ASK_CURRENT_VALUE (get_id (variable_ v)) (to_ulong (pbsm_tid rt)))
    (remote_owner_ (policy_data_ v))) as Ht.
  pose proof (send_to_notified rt
    (mk_msg MSG_ASK_CURRENT_VALUE (get_id (variable_ v)) (to_ulong (pbsm_tid rt)))
    (remote_owner_ (policy_data_ v))) as Hn.
  destruct (send_to rt _ (remote_owner_ (policy_data_ v))) as [evs ok].
  simpl in Ht, Hn.
  exists (if ok then evs else evs ++ [EvError "ERROR in sending MSG_ASK_CURRENT_VALUE"]).
  split; [by destruct ok|].
  rewrite transmissions_with_error, notified_with_error.
  split; [done|]. split; [done|]. simpl. by rewrite Hreg.
Qed.

Lemma before_local_read_stale_asks_owner_witness :
  ∃ evs,
    before_local_read (example_runtime 1 3) 7 (example_policy REMOTE_OWNER_NO_CACHED 0)
    = (example_policy REMOTE_OWNER_NO_CACHED 0, evs,
       Blocked (wait_value_updated_ 7) (after_wait_value_updated 7))
    ∧ notified evs = [].
Proof.
  destruct (before_local_read_stale_asks_owner (example_runtime 1 3) 7
              (example_policy REMOTE_OWNER_NO_CACHED 0)
              (example_var REMOTE_OWNER_NO_CACHED 0))
    as (evs & Hrun & _ & Hn & _).
  - reflexivity.
  - reflexivity.
  - exists evs. split; [exact Hrun|exact Hn].
Defined.

(** X2: [before_local_write] on a variable held in state OWNER_NO_SHARED
    returns [true] at once, with no event and the policy unchanged; on an
    id that is not registered it returns [false] at once, with no event,
    and no variable's record and no barrier entry changes. *)
Theorem before_local_write_exclusive_or_unknown rt var_id p :
  (∀ v, registered p var_id = Some v →
        state_ (policy_data_ v) = OWNER_NO_SHARED →
        before_local_write rt var_id p = (p, [], Returned (RBool true)))
  ∧ (registered p var_id = None →
     ∃ p', before_local_write rt var_id p = (p', [], Returned (RBool false))
           ∧ (∀ i, registered p' i = registered p i)
           ∧ master_waiting_barrier_grants_ p' = master_waiting_barrier_grants_ p).
Proof.
  split.
  - intros v Hreg Hst. unfold before_local_write.
    by rewrite (map_index_registered _ _ _ Hreg), set_dictionary_same, Hst.
  - intros Hreg. unfold before_local_write.
    destruct (map_index_unregistered p var_id Hreg) as (d & -> & Hsame).
    eexists. split; [reflexivity|]. by split.
Qed.

Lemma before_local_write_exclusive_or_unknown_witness :
  before_local_write (example_runtime 1 3) 7 (example_policy OWNER_NO_SHARED 0)
  = (example_policy OWNER_NO_SHARED 0, [], Returned (RBool true)).
Proof.
  apply (proj1 (before_local_write_exclusive_or_unknown (example_runtime 1 3) 7
                  (example_policy OWNER_NO_SHARED 0))
           (example_var OWNER_NO_SHARED 0)).
  - reflexivity.
  - reflexivity.
Defined.

(** ** Handlers *)

(** X3: MSG_ASK_CURRENT_VALUE about a registered variable, with
    [data.node = R].  In the states OWNER_NO_SHARED and OWNER_SHARED the
    state becomes OWNER_SHARED and, unless [R] is this node, exactly two
    buffers go to [R]: the header MSG_SET_NEW_VALUE with the size of the
    value, then the bytes of the value.  In the two remote states the
    policy is unchanged and the one header sent to [R] is MSG_SET_NEW_OWNER
    carrying [remote_owner_]. *)
Theorem ask_current_value_value_or_redirect rt rem_node msg d p v :
  msg_type msg = 4 →
  registered p (msg_id msg) = Some v →
  let R := msg_data msg in
  ∃ p' evs,
    receive_messages_body rt rem_node msg d p = (p', evs, Completed)
    ∧ notified evs = []
    ∧ (state_ (policy_data_ v) = OWNER_NO_SHARED
       ∨ state_ (policy_data_ v) = OWNER_SHARED →
       p' = MkPolicy
              (<[msg_id msg :=
                   Some (VarData (variable_ v)
                           (PolicyData OWNER_SHARED
                              (remote_owner_ (policy_data_ v))
                              (waiting_invalidate_copies_ (policy_data_ v))))]>
                 (dictionary_ p))
              (master_waiting_barrier_grants_ p)
       ∧ transmissions evs
         = if decide (R = (pbsm_tid rt mod 2 ^ 64)) then []
           else [(R, Header (Msg 5 (msg_id msg)
                               (Z.of_nat (length (data_ (variable_ v))))));
                 (R, Raw (data_ (variable_ v)))])
    ∧ (state_ (policy_data_ v) = REMOTE_OWNER_CACHED
       ∨ state_ (policy_data_ v) = REMOTE_OWNER_NO_CACHED →
       p' = p
       ∧ transmissions evs
         = if decide (R = (pbsm_tid rt mod 2 ^ 64)) then []
           else [(R, Header (Msg 3 (msg_id msg)
                               (remote_owner_ (policy_data_ v))))]).
Proof.
  intros Hty Hreg R. unfold receive_messages_body.
  rewrite Hty. simpl msg_type_of_code. cbv iota.
  rewrite (map_index_registered _ _ _ Hreg), set_dictionary_same. fold R.
  destruct (state_ (policy_data_ v)) eqn:Hst.
  1,2: pose proof (send_two_messages_to_transmissions rt
         (mk_msg MSG_SET_NEW_VALUE (msg_id msg) (get_size (variable_ v)))
         (data_ (variable_ v)) R) as [Ht Hn];
       simpl variable_; unfold get_value;
       destruct (send_two_messages_to rt _ (data_ (variable_ v)) R) as [evs ok];
       simpl in Ht, Hn;
       eexists _, _; split; [reflexivity|]; split; [done|];
       split; [intros _; by split|intros [?|?]; congruence].
  1,2: pose proof (send_to_transmissions rt
         (mk_msg MSG_SET_NEW_OWNER (msg_id msg) (remote_owner_ (policy_data_ v))) R) as Ht;
       pose proof (send_to_notified rt
         (mk_msg MSG_SET_NEW_OWNER (msg_id msg) (remote_owner_ (policy_data_ v))) R) as Hn;
       destruct (send_to rt _ R) as [evs ok]; simpl in Ht, Hn;
       eexists _, _; split; [reflexivity|];
       rewrite notified_with_error, transmissions_with_error;
       split; [done|]; split; [intros [?|?]; congruence|intros _; by split].
Qed.

Lemma ask_current_value_value_or_redirect_witness :
  ∃ p' evs,
    receive_messages_body (example_runtime 0 3) 1 (Msg 4 7 1) []
      (example_policy OWNER_NO_SHARED 0) = (p', evs, Completed)
    ∧ notified evs = [].
Proof.
  destruct (ask_current_value_value_or_redirect (example_runtime 0 3) 1
              (mk_msg MSG_ASK_CURRENT_VALUE 7 1) [] (example_policy OWNER_NO_SHARED 0)
              (example_var OWNER_NO_SHARED 0))
    as (p' & evs & Hrun & Hn & _).
  - reflexivity.
  - reflexivity.
  - exists p', evs. split; [exact Hrun|exact Hn].
Defined.

(** ** A remote read, end to end *)

Lemma set_new_value_body rt rem_node msg d p v :
  msg_type msg = msg_type_code MSG_SET_NEW_VALUE →
  registered p (msg_id msg) = Some v →
  (length (data_ (variable_ v)) ≤ length d)%nat →
  receive_messages_body rt rem_node msg d p
  = (store_var (msg_id msg)
       (VarData (Shared (id_ (variable_ v)) (take (length (data_ (variable_ v))) d))
          (policy_data_ v)) p,
     [EvNotify (wait_value_updated_ (msg_id msg))], Completed).
Proof.
  intros Hty Hreg Hlen.
  unfold receive_messages_body. rewrite Hty. simpl msg_type_of_code. cbv iota.
  rewrite (map_index_registered _ _ _ Hreg), set_dictionary_same.
  unfold set_value. rewrite decide_True by done. unfold set_variable.
  unfold after_remote_write.
  rewrite (map_index_registered _ _ _ (registered_store_var_eq p (msg_id msg) _)).
  by rewrite set_dictionary_same.
Qed.

(** X4: node [b] reads a variable it holds in state
    REMOTE_OWNER_NO_CACHED with recorded owner [a], and [a] holds the
    variable (same id, same size) in an owner state.  The read sends one
    MSG_ASK_CURRENT_VALUE to [a]; [a]'s handler answers with the header
    MSG_SET_NEW_VALUE and the bytes of its value and goes to OWNER_SHARED;
    [b]'s handler for that answer stores the bytes and wakes the reader.
    At the end the read has returned, [b]'s copy holds exactly [a]'s bytes
    and [b] is in state REMOTE_OWNER_CACHED. *)
Theorem remote_read_fetches_owner_value rt_a rt_b var_id pa pb va vb :
  (pbsm_tid rt_a mod 2 ^ 64) ≠ (pbsm_tid rt_b mod 2 ^ 64) →
  registered pa var_id = Some va →
  registered pb var_id = Some vb →
  id_ (variable_ vb) = var_id →
  length (data_ (variable_ va)) = length (data_ (variable_ vb)) →
  state_ (policy_data_ va) = OWNER_NO_SHARED ∨ state_ (policy_data_ va) = OWNER_SHARED →
  state_ (policy_data_ vb) = REMOTE_OWNER_NO_CACHED →
  remote_owner_ (policy_data_ vb) = (pbsm_tid rt_a mod 2 ^ 64) →
  let a := (pbsm_tid rt_a mod 2 ^ 64) in
  let b := (pbsm_tid rt_b mod 2 ^ 64) in
  ∃ nd_b evs_b ask pa' evs_a reply nd_b' evs_b',
    call (before_local_read rt_b var_id) (Node pb (Returned RVoid)) = (nd_b, evs_b)
    ∧ transmissions evs_b = [(a, Header ask)]
    ∧ receive_messages_body rt_a (pbsm_tid rt_b) ask [] pa = (pa', evs_a, Completed)
    ∧ transmissions evs_a = [(b, Header reply); (b, Raw (data_ (variable_ va)))]
    ∧ registered pa' var_id
      = Some (VarData (variable_ va)
                (PolicyData OWNER_SHARED (remote_owner_ (policy_data_ va))
                   (waiting_invalidate_copies_ (policy_data_ va))))
    ∧ deliver rt_b (pbsm_tid rt_a) reply (data_ (variable_ va)) nd_b = (nd_b', evs_b')
    ∧ transmissions evs_b' = []
    ∧ app nd_b' = Returned RVoid
    ∧ registered (policy nd_b') var_id
      = Some (VarData (Shared var_id (data_ (variable_ va)))
                (PolicyData REMOTE_OWNER_CACHED a
                   (waiting_invalidate_copies_ (policy_data_ vb))))
    ∧ ask = Msg 4 var_id b
    ∧ reply = Msg 5 var_id (Z.of_nat (length (data_ (variable_ va)))).
Proof.
  intros Hab Hra Hrb Hid Hlen Hsa Hsb Hob a b.
  set (ask := mk_msg MSG_ASK_CURRENT_VALUE var_id b).
  set (reply := mk_msg MSG_SET_NEW_VALUE var_id (get_size (variable_ va))).
  (* the reader *)
  pose proof (send_to_transmissions rt_b ask a) as Htb.
  rewrite decide_False in Htb by done.
  assert (Hcall : ∃ evs_b,
    call (before_local_read rt_b var_id) (Node pb (Returned RVoid))
    = (Node pb (Blocked (wait_value_updated_ var_id) (after_wait_value_updated var_id)),
       evs_b)
    ∧ transmissions evs_b = [(a, Header ask)]).
  { unfold call, before_local_read. cbn [policy].
    rewrite (map_index_registered _ _ _ Hrb), set_dictionary_same, Hsb.
    unfold requestCurrentValue, get_id. rewrite Hid, Hob.
    change (to_ulong (pbsm_tid rt_b)) with b. fold a ask.
    destruct (send_to rt_b ask a) as [evs ok]. simpl in Htb.
    exists (if ok then evs else evs ++ [EvError "ERROR in sending MSG_ASK_CURRENT_VALUE"]).
    split; [by destruct ok|]. by rewrite transmissions_with_error. }
  destruct Hcall as (evs_b & Hcall & Hevs_b).
  (* the owner *)
  pose proof (send_two_messages_to_transmissions rt_a reply (data_ (variable_ va)) b)
    as [Hta _].
  rewrite decide_False in Hta by (intros H; by apply Hab).
  assert (Howner : ∃ evs_a,
    receive_messages_body rt_a (pbsm_tid rt_b) ask [] pa
    = (store_var var_id (set_state OWNER_SHARED va) pa, evs_a, Completed)
    ∧ transmissions evs_a = [(b, Header reply); (b, Raw (data_ (variable_ va)))]).
  { unfold receive_messages_body. simpl msg_type_of_code. cbv iota.
    cbn [msg_id msg_data ask mk_msg].
    rewrite (map_index_registered _ _ _ Hra), set_dictionary_same.
    simpl variable_. unfold get_value. fold reply.
    destruct (send_two_messages_to rt_a reply (data_ (variable_ va)) b) as [evs ok].
    simpl in Hta. exists evs. by destruct Hsa as [-> | ->]. }
  destruct Howner as (evs_a & Howner & Hevs_a).
  (* the answer at the reader *)
  pose proof (set_new_value_body rt_b (pbsm_tid rt_a) reply (data_ (variable_ va)) pb vb
                eq_refl Hrb) as Hbody.
  rewrite <- Hlen, firstn_all, Hid in Hbody. specialize (Hbody (Nat.le_refl _)).
  cbn [msg_id reply mk_msg] in Hbody.
  eexists _, evs_b, ask, _, evs_a, reply, _, _.
  split; [exact Hcall|]. split; [exact Hevs_b|]. split; [exact Howner|].
  split; [exact Hevs_a|]. split; [apply registered_store_var_eq|].
  unfold deliver. cbn [policy app]. rewrite Hbody. cbn [notified].
  rewrite decide_True by (apply list_elem_of_singleton; done).
  simpl resume. rewrite registered_store_var_eq.
  split; [reflexivity|]. split; [done|]. split; [done|].
  split; [|by split]. cbn [policy]. rewrite registered_store_var_eq.
  unfold a. rewrite <- Hob. reflexivity.
Qed.

Lemma remote_read_fetches_owner_value_witness :
  ∃ nd_b evs_b ask,
    call (before_local_read (example_runtime 1 3) 7)
      (Node (example_policy REMOTE_OWNER_NO_CACHED 0) (Returned RVoid)) = (nd_b, evs_b)
    ∧ transmissions evs_b = [(0, Header ask)].
Proof.
  destruct (remote_read_fetches_owner_value (example_runtime 0 3) (example_runtime 1 3) 7
              (example_policy OWNER_SHARED 0) (example_policy REMOTE_OWNER_NO_CACHED 0)
              (example_var OWNER_SHARED 0) (example_var REMOTE_OWNER_NO_CACHED 0))
    as (nd_b & evs_b & ask & _ & _ & _ & _ & _ & Hcall & Ht & _).
  - vm_compute. discriminate.
  - reflexivity.
  - reflexivity.
  - reflexivity.
  - reflexivity.
  - right. reflexivity.
  - reflexivity.
  - reflexivity.
  - exists nd_b, evs_b, ask. split; [exact Hcall|exact Ht].
Defined.

(** ** A change of owner, end to end *)

(** X5: node [b] writes a variable it holds in a remote state while node
    [a], one of [b]'s peers, holds it in an owner state.  Among the
    requests that [before_local_write] sends there is one for [a]; [a]'s
    handler answers it with one MSG_GRANT_OWNERSHIP to [b] and records [b]
    as the owner, in state REMOTE_OWNER_NO_CACHED; [b]'s handler for the
    grant wakes the writer, which returns [true] with the variable in state
    OWNER_NO_SHARED. *)
Theorem ownership_moves_to_writer rt_a rt_b var_id pa pb va vb :
  (pbsm_tid rt_a mod 2 ^ 64) ≠ (pbsm_tid rt_b mod 2 ^ 64) →
  0 ≤ pbsm_tid rt_a < get_number_of_nodes rt_b →
  registered pa var_id = Some va →
  registered pb var_id = Some vb →
  id_ (variable_ vb) = var_id →
  state_ (policy_data_ va) = OWNER_NO_SHARED ∨ state_ (policy_data_ va) = OWNER_SHARED →
  state_ (policy_data_ vb) = REMOTE_OWNER_CACHED
  ∨ state_ (policy_data_ vb) = REMOTE_OWNER_NO_CACHED →
  let b := (pbsm_tid rt_b mod 2 ^ 64) in
  ∃ nd_b evs_b request pa' evs_a grant nd_b' evs_b',
    call (before_local_write rt_b var_id) (Node pb (Returned RVoid)) = (nd_b, evs_b)
    ∧ (pbsm_tid rt_a, request) ∈ sent evs_b
    ∧ receive_messages_body rt_a (pbsm_tid rt_b) request [] pa = (pa', evs_a, Completed)
    ∧ sent evs_a = [(b, grant)]
    ∧ registered pa' var_id
      = Some (VarData (variable_ va)
                (PolicyData REMOTE_OWNER_NO_CACHED b
                   (waiting_invalidate_copies_ (policy_data_ va))))
    ∧ deliver rt_b (pbsm_tid rt_a) grant [] nd_b = (nd_b', evs_b')
    ∧ transmissions evs_b' = []
    ∧ app nd_b' = Returned (RBool true)
    ∧ registered (policy nd_b') var_id
      = Some (VarData (variable_ vb)
                (PolicyData OWNER_NO_SHARED (remote_owner_ (policy_data_ vb))
                   (waiting_invalidate_copies_ (policy_data_ vb))))
    ∧ request = Msg 1 var_id b
    ∧ grant = Msg 2 var_id (pbsm_tid rt_a mod 2 ^ 64).
Proof.
  intros Hab Ha Hra Hrb Hid Hsa Hsb b.
  set (request := mk_msg MSG_REQUEST_OWNERSHIP var_id b).
  set (grant := mk_msg MSG_GRANT_OWNERSHIP var_id (to_ulong (pbsm_tid rt_a))).
  assert (Hne : pbsm_tid rt_a ≠ pbsm_tid rt_b) by congruence.
  (* the writer *)
  destruct (before_local_write_remote rt_b var_id pb vb Hrb Hsb)
    as (evs_b & Hblw & Hsent & _).
  unfold get_id in Hsent. rewrite Hid in Hsent.
  change (to_ulong (pbsm_tid rt_b)) with b in Hsent. fold request in Hsent.
  assert (Hin : (pbsm_tid rt_a, request) ∈ sent evs_b).
  { rewrite Hsent. apply (list_elem_of_fmap_2 (λ i, (i, request))).
    unfold peers, range. apply list_elem_of_filter. split; [done|].
    apply elem_of_seqZ. lia. }
  (* the owner *)
  pose proof (send_to_sent rt_a grant b (λ H, Hab (eq_sym H))) as Hsa'.
  assert (Howner : ∃ evs_a,
    receive_messages_body rt_a (pbsm_tid rt_b) request [] pa
    = (store_var var_id (set_remote_owner b (set_state REMOTE_OWNER_NO_CACHED va)) pa,
       evs_a, Completed)
    ∧ sent evs_a = [(b, grant)]).
  { unfold receive_messages_body. simpl msg_type_of_code. cbv iota.
    cbn [msg_id msg_data request mk_msg].
    rewrite (map_index_registered _ _ _ Hra), set_dictionary_same. fold grant.
    destruct (send_to rt_a grant b) as [evs ok]. simpl in Hsa'.
    exists (if ok then evs else evs ++ [EvError "ERROR in sending grant message"]).
    rewrite sent_with_error. by destruct Hsa as [-> | ->]. }
  destruct Howner as (evs_a & Howner & Hevs_a).
  (* the grant at the writer *)
  assert (Hgrant : receive_messages_body rt_b (pbsm_tid rt_a) grant [] pb
                   = (pb, [EvNotify (waiting_ownership_grant_ var_id)], Completed)).
  { unfold receive_messages_body. simpl msg_type_of_code. cbv iota.
    cbn [msg_id grant mk_msg].
    by rewrite (map_index_registered _ _ _ Hrb), set_dictionary_same. }
  eexists _, evs_b, request, _, evs_a, grant, _, _.
  split; [unfold call; cbn [policy]; rewrite Hblw; reflexivity|].
  split; [exact Hin|]. split; [exact Howner|]. split; [exact Hevs_a|].
  split; [apply registered_store_var_eq|].
  unfold deliver. cbn [policy app]. rewrite Hgrant. cbn [notified].
  rewrite decide_True by (apply list_elem_of_singleton; done).
  simpl resume. rewrite Hrb.
  split; [reflexivity|]. split; [done|]. split; [done|].
  split; [|by split]. cbn [policy]. by rewrite registered_store_var_eq.
Qed.

Lemma ownership_moves_to_writer_witness :
  ∃ nd_b evs_b request,
    call (before_local_write (example_runtime 1 3) 7)
      (Node (example_policy REMOTE_OWNER_CACHED 0) (Returned RVoid)) = (nd_b, evs_b)
    ∧ (0, request) ∈ sent evs_b.
Proof.
  destruct (ownership_moves_to_writer (example_runtime 0 3) (example_runtime 1 3) 7
              (example_policy OWNER_SHARED 0) (example_policy REMOTE_OWNER_CACHED 0)
              (example_var OWNER_SHARED 0) (example_var REMOTE_OWNER_CACHED 0))
    as (nd_b & evs_b & request & _ & _ & _ & _ & _ & Hcall & Hin & _).
  - vm_compute. discriminate.
  - vm_compute. split; [discriminate|reflexivity].
  - reflexivity.
  - reflexivity.
  - reflexivity.
  - right. reflexivity.
  - left. reflexivity.
  - exists nd_b, evs_b, request. split; [exact Hcall|exact Hin].
Defined.

(** ** MSG_INVALIDATE_COPY *)

Lemma store_var_store_var p var_id v v' :
  store_var var_id v' (store_var var_id v p) = store_var var_id v' p.
Proof.
  unfold store_var, set_dictionary. simpl. by rewrite insert_insert_eq.
Qed.

Lemma invalidate_copy_body rt rem_node msg d p v :
  msg_type msg = msg_type_code MSG_INVALIDATE_COPY →
  registered p (msg_id msg) = Some v →
  let ack := mk_msg MSG_INVALIDATE_COPY_ACK (msg_id msg) (to_ulong (pbsm_tid rt)) in
  receive_messages_body rt rem_node msg d p
  = (store_var (msg_id msg) (set_state REMOTE_OWNER_NO_CACHED v) p,
     (if (send_to rt ack (msg_data msg)).2 then (send_to rt ack (msg_data msg)).1
      else (send_to rt ack (msg_data msg)).1
           ++ [EvError "ERROR in sending MSG_INVALIDATE_COPY_ACK"]),
     Completed).
Proof.
  intros Hty Hreg ack.
  unfold receive_messages_body. rewrite Hty. simpl msg_type_of_code. cbv iota.
  rewrite (map_index_registered _ _ _ Hreg), set_dictionary_same. fold ack.
  by destruct (send_to rt ack (msg_data msg)) as [evs ok].
Qed.

(** X6: MSG_INVALIDATE_COPY about a registered variable puts it in state
    REMOTE_OWNER_NO_CACHED whatever its state was, an owner state
    included, and changes neither the value nor [remote_owner_]; the
    acknowledgement goes to the node named in the message (unless that is
    this node), nothing is notified, and handling the same message again
    leaves the policy as the first handling left it. *)
Theorem invalidate_copy_makes_stale rt rem_node msg d p v :
  msg_type msg = 8 →
  registered p (msg_id msg) = Some v →
  let p' :=
    MkPolicy
      (<[msg_id msg :=
           Some (VarData (variable_ v)
                   (PolicyData REMOTE_OWNER_NO_CACHED
                      (remote_owner_ (policy_data_ v))
                      (waiting_invalidate_copies_ (policy_data_ v))))]>
         (dictionary_ p))
      (master_waiting_barrier_grants_ p) in
  ∃ evs,
    receive_messages_body rt rem_node msg d p = (p', evs, Completed)
    ∧ receive_messages_body rt rem_node msg d p' = (p', evs, Completed)
    ∧ notified evs = []
    ∧ transmissions evs
      = if decide (msg_data msg = (pbsm_tid rt mod 2 ^ 64)) then []
        else [(msg_data msg,
               Header (Msg 9 (msg_id msg)
                         (pbsm_tid rt mod 2 ^ 64)))].
Proof.
  intros Hty Hreg p'.
  change (store_var (msg_id msg) (set_state REMOTE_OWNER_NO_CACHED v) p)
    in (value of p').
  assert (Hreg' : registered p' (msg_id msg) = Some (set_state REMOTE_OWNER_NO_CACHED v))
    by apply registered_store_var_eq.
  rewrite (invalidate_copy_body rt rem_node msg d p v Hty Hreg).
  rewrite (invalidate_copy_body rt rem_node msg d p' _ Hty Hreg').
  eexists. split; [reflexivity|]. split.
  - unfold p'. rewrite store_var_store_var. reflexivity.
  - rewrite notified_with_error, transmissions_with_error.
    split; [apply send_to_notified|apply send_to_transmissions].
Qed.

Lemma invalidate_copy_makes_stale_witness :
  ∃ evs,
    receive_messages_body (example_runtime 1 3) 0 (Msg 8 7 0) []
      (example_policy OWNER_NO_SHARED 0)
    = (MkPolicy
         {[7 := Some (VarData (Shared 7 [x00; x00; x00; x00])
                        (PolicyData REMOTE_OWNER_NO_CACHED 0 (Semaphore 0)))]} ∅,
       evs, Completed)
    ∧ notified evs = [].
Proof.
  destruct (invalidate_copy_makes_stale (example_runtime 1 3) 0
              (mk_msg MSG_INVALIDATE_COPY 7 0) [] (example_policy OWNER_NO_SHARED 0)
              (example_var OWNER_NO_SHARED 0))
    as (evs & Hrun & _ & Hn & _).
  - reflexivity.
  - reflexivity.
  - exists evs. split; [exact Hrun|exact Hn].
Defined.

(** ** What no handler does *)

Lemma registered_store_var_shape p var_id v v' i :
  registered p var_id = Some v →
  shape v' = shape v →
  shape <$> registered (store_var var_id v' p) i = shape <$> registered p i.
Proof.
  intros Hreg Hshape. destruct (decide (i = var_id)) as [->|Hne].
  - by rewrite registered_store_var_eq, Hreg; simpl; rewrite Hshape.
  - by rewrite registered_store_var_ne.
Qed.

Lemma registered_set_grants g p i :
  registered (set_grants g p) i = registered p i.
Proof. done. Qed.

Lemma set_value_shape d a a' :
  set_value d a = Some a' → id_ a' = id_ a ∧ length (data_ a') = length (data_ a).
Proof.
  unfold set_value. destruct (decide _) as [Hle|]; [|done].
  intros [= <-]. simpl. split; [done|]. rewrite length_take. lia.
Qed.

(** The result of a send function, whatever it is. *)
Ltac destruct_sends :=
  repeat match goal with
         | |- context [send_to ?rt ?m ?dest] =>
             destruct (send_to rt m dest) as [? ?]
         | |- context [send_two_messages_to ?rt ?m ?d ?dest] =>
             destruct (send_two_messages_to rt m d dest) as [? ?]
         end.

(** X7: one iteration of the receiver loop, for any header and any
    payload that is not shorter than the value it is copied into, neither
    registers nor unregisters a variable, and keeps the id and the size of
    every registered variable. *)
Theorem handlers_keep_registry_shape rt rem_node msg d p i :
  (receive_messages_body rt rem_node msg d p).2 ≠ Undefined →
  shape <$> registered (receive_messages_body rt rem_node msg d p).1.1 i
  = shape <$> registered p i.
Proof.
  intros _. unfold receive_messages_body.
  destruct (msg_type_of_code (msg_type msg)) as [[]|]; try done.
  all: try (destruct (registered p (msg_id msg)) as [v|] eqn:Hreg;
    [ rewrite (map_index_registered _ _ _ Hreg), set_dictionary_same
    | destruct (map_index_unregistered p (msg_id msg) Hreg) as (d' & -> & Hsame) ]).
  - (* MSG_REQUEST_OWNERSHIP, registered *)
    destruct (state_ (policy_data_ v)); destruct_sends; simpl; try done.
    all: by apply (registered_store_var_shape _ _ v).
  - simpl. by rewrite Hsame.
  - done.
  - simpl. by rewrite Hsame.
  - (* MSG_SET_NEW_OWNER, registered *) done.
  - simpl. by rewrite Hsame.
  - (* MSG_ASK_CURRENT_VALUE, registered *)
    destruct (state_ (policy_data_ v)); destruct_sends; simpl; try done.
    all: by apply (registered_store_var_shape _ _ v).
  - simpl. by rewrite Hsame.
  - (* MSG_SET_NEW_VALUE, registered *)
    destruct (set_value d (variable_ v)) as [a|] eqn:Hset; [|done].
    apply set_value_shape in Hset as [Hid Hlen].
    unfold after_remote_write.
    rewrite (map_index_registered _ _ _ (registered_store_var_eq p (msg_id msg) _)).
    rewrite set_dictionary_same. simpl.
    apply (registered_store_var_shape _ _ v); [done|].
    unfold shape, set_variable. simpl. by rewrite Hid, Hlen.
  - simpl. by rewrite Hsame.
  - (* MSG_BARRIER_BLOCK *)
    destruct (map_index (msg_id msg) (master_waiting_barrier_grants_ p)) as [elem g].
    simpl. done.
  - (* MSG_INVALIDATE_COPY, registered *)
    destruct_sends. simpl. by apply (registered_store_var_shape _ _ v).
  - destruct_sends. simpl. by rewrite Hsame.
  - (* MSG_INVALIDATE_COPY_ACK, registered *)
    destruct (decrement _ =? 0); simpl; by apply (registered_store_var_shape _ _ v).
  - simpl. by rewrite Hsame.
Qed.

Lemma send_to_not_self rt m dest :
  Forall (λ x, x.1 ≠ to_ulong (pbsm_tid rt)) (transmissions (send_to rt m dest).1).
Proof.
  rewrite send_to_transmissions. destruct (decide _); [done|].
  by apply Forall_singleton.
Qed.

Lemma send_two_messages_to_not_self rt m d dest :
  Forall (λ x, x.1 ≠ to_ulong (pbsm_tid rt))
    (transmissions (send_two_messages_to rt m d dest).1).
Proof.
  rewrite (proj1 (send_two_messages_to_transmissions rt m d dest)).
  destruct (decide _); [done|]. by repeat constructor.
Qed.

(** X8: no iteration of the receiver loop (with a payload that is not
    shorter than the value it is copied into) hands [send()] a buffer for
    this node itself, whatever id the incoming header names as its sender. *)
Theorem handlers_never_send_to_self rt rem_node msg d p :
  (receive_messages_body rt rem_node msg d p).2 ≠ Undefined →
  Forall (λ x, x.1 ≠ (pbsm_tid rt mod 2 ^ 64))
    (transmissions (receive_messages_body rt rem_node msg d p).1.2).
Proof.
  intros _. unfold receive_messages_body, after_remote_write.
  repeat case_match; simplify_eq; simpl.
  all: repeat match goal with
         | H : send_to ?rt ?m ?dest = (?evs, _) |- _ =>
             let Hs := fresh "Hs" in
             pose proof (send_to_not_self rt m dest) as Hs;
             rewrite H in Hs; simpl in Hs; clear H
         | H : send_two_messages_to ?rt ?m ?d ?dest = (?evs, _) |- _ =>
             let Hs := fresh "Hs" in
             pose proof (send_two_messages_to_not_self rt m d dest) as Hs;
             rewrite H in Hs; simpl in Hs; clear H
         end.
  all: rewrite ?transmissions_app; simpl; rewrite ?app_nil_r.
  all: first [assumption | constructor].
Qed.

(** ** A whole barrier on the master *)

Lemma barrier_counter_lookup rt s p c :
  master_waiting_barrier_grants_ p !! s = Some (Some (Semaphore c)) →
  barrier_counter rt s p = c.
Proof. unfold barrier_counter. by intros ->. Qed.

Lemma barrier_block_body rt rem_node msg d p s :
  pbsm_tid rt = 0 →
  is_block s (rem_node, msg, d) →
  let c := decrement (barrier_counter rt s p) in
  ∃ p',
    receive_messages_body rt rem_node msg d p
    = (p', if c =? 0 then [EvNotify (barrier_wait_condition_ s)] else [], Completed)
    ∧ dictionary_ p' = dictionary_ p
    ∧ master_waiting_barrier_grants_ p' !! s = Some (Some (Semaphore c)).
Proof.
  intros Htid [Hty Hid] c. simpl in Hty, Hid.
  pose proof (after_arrival_map_index rt s p) as [Hc Hg].
  change (after_arrival rt s p) with c in Hc.
  unfold receive_messages_body. rewrite Hty. simpl msg_type_of_code. cbv iota.
  rewrite Hid, decide_False by (intros H; by apply H).
  destruct (map_index s (master_waiting_barrier_grants_ p)) as [elem g].
  simpl in Hc, Hg.
  assert (Hcnt : counter_ (Semaphore (decrement (counter_
                   match elem with
                   | Some e => e
                   | None => Semaphore (to_ulong (get_number_of_nodes rt))
                   end))) = c) by (by destruct elem).
  rewrite Hcnt. eexists. split; [by destruct (c =? 0)|]. split; [done|].
  simpl. rewrite Hg, decide_True by done. do 2 f_equal.
  destruct elem; simpl in *; by rewrite Hc.
Qed.

(** Arrivals that leave the counter positive notify nobody, so whatever
    the application thread does, it goes on doing it. *)
Lemma blocks_pending rt s blocks : ∀ nd,
  pbsm_tid rt = 0 →
  Forall (is_block s) blocks →
  Z.of_nat (length blocks) < barrier_counter rt s (policy nd) < ULONG_MODULUS →
  ∃ nd',
    deliver_all rt blocks nd = (nd', [])
    ∧ app nd' = app nd
    ∧ dictionary_ (policy nd') = dictionary_ (policy nd)
    ∧ barrier_counter rt s (policy nd')
      = barrier_counter rt s (policy nd) - Z.of_nat (length blocks)
    ∧ (blocks = [] ∧ nd' = nd
       ∨ master_waiting_barrier_grants_ (policy nd') !! s
         = Some (Some (Semaphore (barrier_counter rt s (policy nd)
                                  - Z.of_nat (length blocks))))).
Proof.
  intros nd Htid. revert nd.
  induction blocks as [|[[rem_node msg] d] blocks IH]; intros nd Hall Hlen.
  - exists nd. simpl. rewrite Z.sub_0_r. repeat split; try done. by left.
  - apply Forall_cons in Hall as [Hb Hall]. simpl length in Hlen.
    destruct (barrier_block_body rt rem_node msg d (policy nd) s Htid Hb)
      as (p1 & Hbody & Hdict & Hentry).
    rewrite decrement_positive in Hbody, Hentry by lia.
    rewrite (proj2 (Z.eqb_neq _ _)) in Hbody by lia.
    assert (Hd : deliver rt rem_node msg d nd = (Node p1 (app nd), [])).
    { unfold deliver. rewrite Hbody. cbn [notified].
      destruct (app nd) as [r|c k]; [done|].
      by rewrite decide_False by (apply not_elem_of_nil). }
    pose proof (barrier_counter_lookup rt s p1 _ Hentry) as Hc1.
    destruct (IH (Node p1 (app nd)) Hall) as (nd' & Hrun & Happ & Hdict' & Hc' & Hent').
    { cbn [policy]. rewrite Hc1. lia. }
    cbn [policy app] in *.
    exists nd'. simpl deliver_all. rewrite Hd, Hrun.
    split; [done|]. split; [done|]. split; [congruence|].
    rewrite Hc', Hc1. simpl length. split; [lia|]. right.
    destruct Hent' as [[-> ->]|Hent'].
    + cbn [policy]. rewrite Hentry. do 3 f_equal; simpl; lia.
    + rewrite Hent', Hc1. do 3 f_equal; lia.
Qed.

Lemma master_enters rt s indet p :
  pbsm_tid rt = 0 →
  0 < get_number_of_nodes rt →
  let c := decrement (barrier_counter rt s p) in
  ∃ p' evs st,
    thread_wait_master_barrier rt s indet p = (p', evs, st)
    ∧ dictionary_ p' = dictionary_ p
    ∧ (0 < c →
       evs = []
       ∧ st = Blocked (barrier_wait_condition_ s) (after_wait_master_barrier s indet)
       ∧ master_waiting_barrier_grants_ p' !! s = Some (Some (Semaphore c)))
    ∧ (c = 0 →
       sent evs = (λ i, (i, mk_msg MSG_BARRIER_UNBLOCK s indet))
                  <$> seqZ 1 (get_number_of_nodes rt - 1)
       ∧ st = Returned RVoid
       ∧ master_waiting_barrier_grants_ p' !! s = Some None).
Proof.
  intros Htid HN c.
  pose proof (after_arrival_map_index rt s p) as [Hc Hg].
  change (after_arrival rt s p) with c in Hc.
  pose proof (send_to_all_sent rt (mk_msg MSG_BARRIER_UNBLOCK s indet)) as Hsent.
  rewrite (peers_master rt Htid HN) in Hsent.
  unfold thread_wait_master_barrier.
  destruct (send_to_all rt (mk_msg MSG_BARRIER_UNBLOCK s indet)) as [bevs ok].
  simpl in Hsent.
  destruct (map_index s (master_waiting_barrier_grants_ p)) as [elem g].
  simpl in Hc, Hg.
  assert (Hcnt : counter_ (Semaphore (decrement (counter_
                   match elem with
                   | Some e => e
                   | None => Semaphore (to_ulong (get_number_of_nodes rt))
                   end))) = c) by (by destruct elem).
  rewrite Hcnt. destruct (0 <? c) eqn:Hpos.
  - apply Z.ltb_lt in Hpos. eexists _, _, _. split; [reflexivity|]. split; [done|].
    split; [|intros Hz; lia]. intros _. split; [done|]. split; [done|].
    simpl. rewrite Hg, decide_True by done. do 2 f_equal.
    destruct elem; simpl in *; by rewrite Hc.
  - apply Z.ltb_ge in Hpos. eexists _, _, _. split; [reflexivity|]. split; [done|].
    split; [intros Hz; lia|]. intros _. split; [by rewrite sent_with_error|].
    split; [done|]. simpl. by rewrite lookup_insert_eq.
Qed.

Lemma last_block_wakes rt s indet rem_node msg d nd :
  pbsm_tid rt = 0 →
  0 < get_number_of_nodes rt →
  is_block s (rem_node, msg, d) →
  app nd = Blocked (barrier_wait_condition_ s) (after_wait_master_barrier s indet) →
  barrier_counter rt s (policy nd) = 1 →
  ∃ nd' evs,
    deliver rt rem_node msg d nd = (nd', evs)
    ∧ app nd' = Returned RVoid
    ∧ sent evs = (λ i, (i, mk_msg MSG_BARRIER_UNBLOCK s indet))
                 <$> seqZ 1 (get_number_of_nodes rt - 1)
    ∧ dictionary_ (policy nd') = dictionary_ (policy nd)
    ∧ master_waiting_barrier_grants_ (policy nd') !! s = Some None.
Proof.
  intros Htid HN Hb Happ Hone.
  destruct (barrier_block_body rt rem_node msg d (policy nd) s Htid Hb)
    as (p1 & Hbody & Hdict & Hentry).
  rewrite Hone in Hbody. change (decrement 1 =? 0) with true in Hbody.
  pose proof (send_to_all_sent rt (mk_msg MSG_BARRIER_UNBLOCK s indet)) as Hsent.
  rewrite (peers_master rt Htid HN) in Hsent.
  unfold deliver. rewrite Hbody, Happ. cbn [notified].
  rewrite decide_True by (apply list_elem_of_singleton; done).
  simpl resume.
  destruct (send_to_all rt (mk_msg MSG_BARRIER_UNBLOCK s indet)) as [bevs ok].
  simpl in Hsent. eexists _, _. split; [reflexivity|]. split; [done|].
  split; [simpl; by rewrite sent_with_error|]. split; [done|].
  simpl. by rewrite lookup_insert_eq.
Qed.

(** X9: on the master of [N] nodes, with no arrival pending at barrier
    [s], take any run in which some MSG_BARRIER_BLOCK(s) are handled, then
    the master itself enters the barrier, then further MSG_BARRIER_BLOCK(s)
    are handled, at most [N - 1] messages in all.  While fewer than [N - 1]
    have been handled the master sleeps, nothing has been sent and the
    entry counts the arrivals still missing.  When the run holds all
    [N - 1], the master has returned, MSG_BARRIER_UNBLOCK(s) has gone to
    each of the slaves exactly once, and the entry is null again.  The
    variables are untouched throughout.  (MSG_BARRIER_BLOCK is type 6 on the
    wire, MSG_BARRIER_UNBLOCK type 7.) *)
Theorem barrier_releases_after_last_arrival rt s indet p before after :
  pbsm_tid rt = 0 →
  0 < get_number_of_nodes rt ≤ MAX_NUMBER_OF_NODES →
  (∀ elem, master_waiting_barrier_grants_ p !! s ≠ Some (Some elem)) →
  Forall (is_block s) before →
  Forall (is_block s) after →
  Z.of_nat (length before + length after) ≤ get_number_of_nodes rt - 1 →
  let N := get_number_of_nodes rt in
  let missing := N - 1 - Z.of_nat (length before + length after) in
  ∃ nd1 nd2 evs2 nd3 evs3,
    deliver_all rt before (Node p (Returned RVoid)) = (nd1, [])
    ∧ call (thread_wait_barrier rt s indet) nd1 = (nd2, evs2)
    ∧ deliver_all rt after nd2 = (nd3, evs3)
    ∧ dictionary_ (policy nd3) = dictionary_ p
    ∧ (0 < missing →
       app nd3 = Blocked (barrier_wait_condition_ s) (after_wait_master_barrier s indet)
       ∧ sent (evs2 ++ evs3) = []
       ∧ master_waiting_barrier_grants_ (policy nd3) !! s
         = Some (Some (Semaphore missing)))
    ∧ (missing = 0 →
       app nd3 = Returned RVoid
       ∧ sent (evs2 ++ evs3) = (λ i, (i, Msg 7 s indet)) <$> seqZ 1 (N - 1)
       ∧ master_waiting_barrier_grants_ (policy nd3) !! s = Some None).
Proof.
  intros Htid [HN Hmax] Hfree Hbefore Hafter Htotal N missing.
  unfold MAX_NUMBER_OF_NODES in Hmax. fold N in HN, Hmax, Htotal.
  rewrite Nat2Z.inj_add in Htotal. unfold missing. rewrite Nat2Z.inj_add.
  assert (HNu : to_ulong N = N).
  { unfold to_ulong, ULONG_MODULUS. apply Z.mod_small. lia. }
  assert (Hc0 : barrier_counter rt s p = N).
  { unfold barrier_counter. fold N. rewrite HNu.
    destruct (master_waiting_barrier_grants_ p !! s) as [[elem|]|] eqn:E; try done.
    by destruct (Hfree elem). }
  assert (Hbig : N < ULONG_MODULUS) by (unfold ULONG_MODULUS; lia).
  (* the arrivals before the master *)
  destruct (blocks_pending rt s before (Node p (Returned RVoid)) Htid Hbefore)
    as (nd1 & Hrun1 & Happ1 & Hdict1 & Hc1 & _).
  { cbn [policy]. rewrite Hc0. lia. }
  cbn [policy app] in Happ1, Hdict1, Hc1. rewrite Hc0 in Hc1.
  (* the master *)
  destruct (master_enters rt s indet (policy nd1) Htid HN)
    as (p2 & evs2 & st2 & Henter & Hdict2 & Hwait & Hnow).
  rewrite Hc1, decrement_positive in Hwait, Hnow by lia.
  assert (Hcall : call (thread_wait_barrier rt s indet) nd1 = (Node p2 st2, evs2)).
  { unfold call, thread_wait_barrier. rewrite decide_True by done. by rewrite Henter. }
  exists nd1, (Node p2 st2), evs2.
  destruct (decide (N - Z.of_nat (length before) - 1 = 0)) as [Hz|Hnz].
  - (* the master arrives last *)
    destruct (Hnow Hz) as (Hsent2 & -> & Hentry2).
    assert (after = []) as -> by (apply length_zero_iff_nil; lia).
    exists (Node p2 (Returned RVoid)), []. simpl length. rewrite app_nil_r.
    split; [done|]. split; [done|]. split; [done|].
    split; [cbn [policy]; congruence|]. split; [intros Hm; lia|].
    intros _. by split.
  - destruct Hwait as (-> & -> & Hentry2); [lia|].
    pose proof (barrier_counter_lookup rt s p2 _ Hentry2) as Hc2.
    destruct (decide (Z.of_nat (length after) < N - Z.of_nat (length before) - 1))
      as [Hlt|Hge].
    + (* arrivals are still missing *)
      destruct (blocks_pending rt s after
                  (Node p2 (Blocked (barrier_wait_condition_ s)
                                    (after_wait_master_barrier s indet))) Htid Hafter)
        as (nd3 & Hrun3 & Happ3 & Hdict3 & Hc3 & Hent3).
      { cbn [policy]. rewrite Hc2. lia. }
      cbn [policy app] in Happ3, Hdict3, Hc3, Hent3. rewrite Hc2 in Hc3, Hent3.
      exists nd3, []. split; [done|]. split; [done|]. split; [done|].
      split; [congruence|]. split; [|intros Hm; lia].
      intros _. split; [done|]. split; [done|].
      destruct Hent3 as [[-> ->]|Hent3].
      * cbn [policy]. rewrite Hentry2. do 3 f_equal; simpl; lia.
      * rewrite Hent3. do 3 f_equal; lia.
    + (* the last arrival comes in *)
      destruct after as [|x after _] using rev_ind; [simpl in *; lia|].
      rewrite length_app in Htotal, Hge |- *. simpl length in Htotal, Hge |- *.
      apply Forall_app in Hafter as [Hfront Hlast].
      rewrite Forall_singleton in Hlast. destruct x as [[rem_node msg] d].
      destruct (blocks_pending rt s after
                  (Node p2 (Blocked (barrier_wait_condition_ s)
                                    (after_wait_master_barrier s indet))) Htid Hfront)
        as (nd3 & Hrun3 & Happ3 & Hdict3 & Hc3 & _).
      { cbn [policy]. rewrite Hc2. lia. }
      cbn [policy app] in Happ3, Hdict3, Hc3. rewrite Hc2 in Hc3.
      destruct (last_block_wakes rt s indet rem_node msg d nd3 Htid HN Hlast Happ3)
        as (nd4 & evs4 & Hd4 & Happ4 & Hsent4 & Hdict4 & Hentry4).
      { rewrite Hc3. lia. }
      exists nd4, evs4. split; [done|]. split; [done|].
      split.
      { rewrite deliver_all_app, Hrun3. simpl. rewrite Hd4.
        by rewrite app_nil_r. }
      split; [congruence|]. split; [intros Hm; lia|].
      intros _. by split.
Qed.

(** Three nodes: node 1 arrives, then the master, then node 2, whose
    arrival releases the barrier. *)
Lemma barrier_releases_after_last_arrival_witness :
  ∃ nd1 nd2 nd3 evs3,
    deliver_all (example_runtime 0 3) [(1, Msg 6 5 0, [])]
      (Node (MkPolicy ∅ ∅) (Returned RVoid)) = (nd1, [])
    ∧ call (thread_wait_barrier (example_runtime 0 3) 5 0) nd1 = (nd2, [])
    ∧ app nd2 = Blocked (barrier_wait_condition_ 5) (after_wait_master_barrier 5 0)
    ∧ deliver_all (example_runtime 0 3) [(2, Msg 6 5 0, [])] nd2 = (nd3, evs3)
    ∧ app nd3 = Returned RVoid
    ∧ sent evs3 = [(1, Msg 7 5 0); (2, Msg 7 5 0)]
    ∧ master_waiting_barrier_grants_ (policy nd3) !! 5 = Some None.
Proof.
  destruct (barrier_releases_after_last_arrival (example_runtime 0 3) 5 0
              (MkPolicy ∅ ∅) [(1, Msg 6 5 0, [])] [(2, Msg 6 5 0, [])])
    as (nd1 & nd2 & evs2 & nd3 & evs3 & Hrun1 & Hcall & Hrun3 & _ & _ & Hdone).
  - reflexivity.
  - vm_compute. split; [reflexivity|discriminate].
  - intros elem. cbn [master_waiting_barrier_grants_]. rewrite lookup_empty. discriminate.
  - by repeat constructor.
  - by repeat constructor.
  - vm_compute. discriminate.
  - destruct Hdone as (Happ & Hsent & Hentry); [reflexivity|].
    assert (Hnd1 : nd1 = Node (MkPolicy ∅ {[5 := Some (Semaphore 2)]}) (Returned RVoid)).
    { vm_compute in Hrun1. by injection Hrun1 as <-. }
    assert (Hnd2 : (nd2, evs2)
                   = (Node (MkPolicy ∅ {[5 := Some (Semaphore 1)]})
                        (Blocked (barrier_wait_condition_ 5)
                                 (after_wait_master_barrier 5 0)), [])).
    { rewrite <- Hcall, Hnd1. reflexivity. }
    injection Hnd2 as Hnd2 ->. simpl in Hsent.
    exists nd1, nd2, nd3, evs3.
    split; [exact Hrun1|]. split; [exact Hcall|]. split; [by rewrite Hnd2|].
    split; [exact Hrun3|]. split; [exact Happ|]. split; [exact Hsent|exact Hentry].
Defined.

(** ** A barrier on a slave *)

(** X10: a slave entering barrier [s] sends one MSG_BARRIER_BLOCK(s) to
    node 0, leaves the policy as it is and sleeps on [slave_wait_barrier_];
    a MSG_BARRIER_UNBLOCK wakes it whatever barrier id the message
    carries, also an id different from [s], and the handler changes
    nothing and sends nothing. *)
Theorem slave_barrier_woken_by_any_unblock rt s indet rem_node msg d p :
  (pbsm_tid rt mod 2 ^ 64) ≠ 0 →
  msg_type msg = 7 →
  ∃ evs,
    call (thread_wait_barrier rt s indet) (Node p (Returned RVoid))
    = (Node p (Blocked slave_wait_barrier_ after_wait_slave_barrier), evs)
    ∧ sent evs = [(0, Msg 6 s indet)]
    ∧ deliver rt rem_node msg d
        (Node p (Blocked slave_wait_barrier_ after_wait_slave_barrier))
      = (Node p (Returned RVoid), [EvNotify slave_wait_barrier_]).
Proof.
  intros Hslave Hty.
  assert (Hne : pbsm_tid rt ≠ 0) by (intros H; apply Hslave; by rewrite H).
  pose proof (send_to_sent rt (mk_msg MSG_BARRIER_BLOCK s indet) 0
                (λ H, Hslave (eq_sym H))) as Hsent.
  unfold call, thread_wait_barrier, thread_wait_slave_barrier. cbn [policy].
  rewrite decide_False by done.
  destruct (send_to rt (mk_msg MSG_BARRIER_BLOCK s indet) 0) as [evs ok].
  simpl in Hsent. eexists. split; [reflexivity|].
  split; [by rewrite sent_with_error|].
  assert (Hbody : receive_messages_body rt rem_node msg d p
                  = (p, [EvNotify slave_wait_barrier_], Completed)).
  { unfold receive_messages_body. rewrite Hty.
    change (msg_type_of_code 7) with (Some MSG_BARRIER_UNBLOCK). cbv iota.
    by rewrite decide_False. }
  unfold deliver. cbn [policy app]. rewrite Hbody. cbn [notified].
  by rewrite decide_True by (apply list_elem_of_singleton; done).
Qed.

Lemma slave_barrier_woken_by_any_unblock_witness :
  ∃ evs,
    call (thread_wait_barrier (example_runtime 1 3) 5 0)
      (Node (MkPolicy ∅ ∅) (Returned RVoid))
    = (Node (MkPolicy ∅ ∅) (Blocked slave_wait_barrier_ after_wait_slave_barrier), evs)
    ∧ sent evs = [(0, Msg 6 5 0)].
Proof.
  destruct (slave_barrier_woken_by_any_unblock (example_runtime 1 3) 5 0 0
              (mk_msg MSG_BARRIER_UNBLOCK 6 0) [] (MkPolicy ∅ ∅))
    as (evs & Hcall & Hsent & _).
  - vm_compute. discriminate.
  - reflexivity.
  - exists evs. split; [exact Hcall|exact Hsent].
Defined.

(** ** Broadcasts *)

Lemma send_to_all_loop_transmissions rt w nodes :
  transmissions (send_to_all_loop rt w nodes).1
  = (λ i, (i, w)) <$> filter (λ i, i ≠ pbsm_tid rt) nodes.
Proof.
  induction nodes as [|i nodes IH]; [done|].
  simpl. rewrite filter_cons. destruct (decide (i ≠ pbsm_tid rt)) as [Hi|Hi]; [|done].
  pose proof (send_one_events rt "ERROR: Sending data" w i) as [H1 _].
  destruct (send_one rt "ERROR: Sending data" w i) as [evs ok].
  destruct (send_to_all_loop rt w nodes) as [evs' ret].
  simpl in *. by rewrite transmissions_app, H1, IH.
Qed.

Lemma send_one_result rt what w dest :
  (send_one rt what w dest).2 = send_ok rt dest.
Proof. unfold send_one. by destruct (send_ok rt dest). Qed.

Lemma send_to_all_loop_result rt w nodes :
  (send_to_all_loop rt w nodes).2 = true
  ↔ ∀ i, i ∈ filter (λ i, i ≠ pbsm_tid rt) nodes → send_ok rt i = true.
Proof.
  induction nodes as [|i nodes IH].
  - simpl. split; [|done]. intros _ i Hi. by apply elem_of_nil in Hi.
  - simpl. rewrite filter_cons. destruct (decide (i ≠ pbsm_tid rt)) as [Hi|Hi]; [|done].
    pose proof (send_one_result rt "ERROR: Sending data" w i) as H1.
    destruct (send_one rt "ERROR: Sending data" w i) as [evs ok].
    destruct (send_to_all_loop rt w nodes) as [evs' ret].
    simpl in *. rewrite andb_true_iff, IH, H1. split.
    + intros [Hok Hrest] j Hj. apply elem_of_cons in Hj as [->|Hj]; [done|].
      by apply Hrest.
    + intros Hall. split; [apply Hall; by left|].
      intros j Hj. apply Hall. by right.
Qed.

(** X11: [send_to_all] hands the header to [send()] once for each node
    index below the number of nodes other than [pbsm_tid], in increasing
    order, and never for [pbsm_tid]; it returns [true] exactly when every
    one of these sends transmitted the whole header. *)
Theorem send_to_all_reaches_each_peer_once rt m :
  transmissions (send_to_all rt m).1 = (λ i, (i, Header m)) <$> peers rt
  ∧ NoDup (peers rt)
  ∧ (∀ i, i ∈ peers rt ↔ 0 ≤ i < get_number_of_nodes rt ∧ i ≠ pbsm_tid rt)
  ∧ ((send_to_all rt m).2 = true ↔ ∀ i, i ∈ peers rt → send_ok rt i = true).
Proof.
  split; [apply send_to_all_loop_transmissions|].
  split; [apply NoDup_filter, NoDup_seqZ|].
  split; [|apply send_to_all_loop_result].
  intros i. unfold peers, range. rewrite list_elem_of_filter, elem_of_seqZ.
  split; intros [H1 H2]; (split; [done || lia|done || lia]).
Qed.

(** ** Registration and destruction *)

Lemma send_two_messages_to_all_loop_events rt w1 w2 nodes :
  transmissions (send_two_messages_to_all_loop rt w1 w2 nodes).1
  = filter (λ i, i ≠ pbsm_tid rt) nodes ≫= (λ i, [(i, w1); (i, w2)])
  ∧ notified (send_two_messages_to_all_loop rt w1 w2 nodes).1 = [].
Proof.
  induction nodes as [|i nodes [IH1 IH2]]; [done|].
  simpl. rewrite filter_cons. destruct (decide (i ≠ pbsm_tid rt)) as [Hi|Hi]; [|done].
  pose proof (send_one_events rt "ERROR: Sending data" w1 i) as [H1 N1].
  pose proof (send_one_events rt "ERROR: Sending data" w2 i) as [H2 N2].
  destruct (send_one rt "ERROR: Sending data" w1 i) as [evs1 ok1].
  destruct (send_one rt "ERROR: Sending data" w2 i) as [evs2 ok2].
  destruct (send_two_messages_to_all_loop rt w1 w2 nodes) as [evs' ret].
  simpl in *. rewrite !transmissions_app, !notified_app, H1, H2, N1, N2, IH1, IH2.
  done.
Qed.

(** X12: [at_variable_creation] registers the variable under its own id,
    on node 0 in state OWNER_SHARED and on any other node (also before
    [pbsm_init] has set [pbsm_tid], which is -1 then) in state
    REMOTE_OWNER_CACHED with owner 0; every other id and the barrier table
    are untouched.  A read of the new variable returns at once on every
    node and sends nothing, and a record already registered under the id
    is replaced: after a second creation with the same id the policy is
    the one that the second creation alone gives. *)
Theorem variable_creation_registers rt data indet p :
  let p' := at_variable_creation rt data indet p in
  registered p' (id_ data) = Some (initial_role (pbsm_tid rt) (VarData data indet))
  ∧ (∀ i, i ≠ id_ data → registered p' i = registered p i)
  ∧ master_waiting_barrier_grants_ p' = master_waiting_barrier_grants_ p
  ∧ before_local_read rt (id_ data) p' = (p', [], Returned RVoid)
  ∧ (∀ data2 indet2,
       id_ data2 = id_ data →
       at_variable_creation rt data2 indet2 p' = at_variable_creation rt data2 indet2 p).
Proof.
  intros p'.
  assert (Hreg : registered p' (id_ data)
                 = Some (initial_role (pbsm_tid rt) (VarData data indet))).
  { unfold p', at_variable_creation, initial_role, get_id.
    destruct (decide (pbsm_tid rt = 0)); apply registered_store_var_eq. }
  split; [exact Hreg|]. split; [|split; [|split]].
  - intros i Hi. unfold p', at_variable_creation, get_id.
    by apply registered_store_var_ne.
  - done.
  - unfold before_local_read.
    rewrite (map_index_registered _ _ _ Hreg), set_dictionary_same.
    unfold initial_role. by destruct (decide (pbsm_tid rt = 0)).
  - intros data2 indet2 Hid. unfold p', at_variable_creation, get_id.
    rewrite Hid. by rewrite store_var_store_var.
Qed.

(** X13: [at_variable_destruction] of a registered id sends, to each peer
    in turn, the header MSG_SET_NEW_VALUE (with the id and the size)
    followed by the first [size] bytes of the buffer, notifies nobody and
    leaves the id unregistered while every other variable stays as it was;
    a second destruction of the same id returns [false], sends nothing and
    changes nothing. *)
Theorem variable_destruction_broadcasts rt var_id data size p v :
  registered p var_id = Some v →
  ∃ p' evs ret,
    at_variable_destruction rt var_id data size p = (p', evs, ret)
    ∧ transmissions evs
      = peers rt ≫= (λ i, [(i, Header (Msg 5 var_id (size mod 2 ^ 64)));
                           (i, Raw (take (Z.to_nat size) data))])
    ∧ notified evs = []
    ∧ registered p' var_id = None
    ∧ (∀ i, i ≠ var_id → registered p' i = registered p i)
    ∧ at_variable_destruction rt var_id data size p'
      = (p', [EvError "Variable not found!"], false).
Proof.
  intros Hreg.
  pose proof (send_two_messages_to_all_loop_events rt
    (Header (mk_msg MSG_SET_NEW_VALUE var_id (to_ulong size)))
    (Raw (take (Z.to_nat size) data)) (range (get_number_of_nodes rt))) as [Ht Hn].
  unfold at_variable_destruction at 1.
  rewrite (map_index_registered _ _ _ Hreg), set_dictionary_same.
  unfold send_two_messages_to_all.
  destruct (send_two_messages_to_all_loop rt _ _ _) as [evs ret].
  simpl in Ht, Hn.
  set (p' := set_dictionary (<[var_id := None]> (dictionary_ p)) p).
  assert (Hnull : dictionary_ p' !! var_id = Some None)
    by (simpl; by rewrite lookup_insert_eq).
  exists p', evs, ret. split; [done|]. split; [done|]. split; [done|].
  split; [unfold registered; by rewrite Hnull|]. split.
  - intros i Hi. unfold registered, p'. simpl. by rewrite lookup_insert_ne.
  - unfold at_variable_destruction, map_index. rewrite Hnull.
    by rewrite set_dictionary_same.
Qed.

Lemma variable_destruction_broadcasts_witness :
  ∃ p' evs ret,
    at_variable_destruction (example_runtime 0 3) 7 [x2a; x00; x00; x00] 4
      (example_policy OWNER_SHARED 0) = (p', evs, ret)
    ∧ registered p' 7 = None.
Proof.
  destruct (variable_destruction_broadcasts (example_runtime 0 3) 7
              [x2a; x00; x00; x00] 4 (example_policy OWNER_SHARED 0)
              (example_var OWNER_SHARED 0))
    as (p' & evs & ret & Hrun & _ & _ & Hnone & _).
  - reflexivity.
  - exists p', evs, ret. split; [exact Hrun|exact Hnone].
Defined.

(** ** The roles after start-up *)

Lemma registered_fmap (f : var_data → var_data) p i :
  registered
    (set_dictionary ((λ ptr : option var_data, f <$> ptr) <$> dictionary_ p) p) i
  = f <$> registered p i.
Proof.
  unfold registered. simpl. rewrite lookup_fmap.
  by destruct (dictionary_ p !! i) as [[v|]|].
Qed.

Lemma start_each_nodes start tid entries :
  (∀ j c calls c', start j c = (calls, Normal c') →
                   number_of_nodes_ c' = number_of_nodes_ c) →
  ∀ c calls c', start_each start tid entries c = (calls, Normal c') →
                number_of_nodes_ c' = number_of_nodes_ c.
Proof.
  intros Hstart. induction entries as [|j entries IH]; intros c calls c' Hrun.
  - by injection Hrun as _ <-.
  - simpl in Hrun. destruct (decide (j ≠ tid)); [|by eapply IH].
    destruct (start j c) as [calls1 [c1| | |]] eqn:Hj; try done.
    destruct (start_each start tid entries c1) as [calls2 r] eqn:Hrest.
    injection Hrun as _ ->.
    rewrite (IH _ _ _ Hrest). by eapply Hstart.
Qed.

Lemma create_connections_nodes o tid c calls c' :
  create_connections o tid c = (calls, Normal c') →
  number_of_nodes_ c' = number_of_nodes_ c.
Proof.
  assert (Hr : ∀ j c calls c', start_recv_server o j c = (calls, Normal c') →
                               number_of_nodes_ c' = number_of_nodes_ c).
  { intros j c0 calls0 c0'. unfold start_recv_server.
    destruct (connections_ c0 !! j); [|done].
    destruct (recv_socket o j <? 0); [done|].
    destruct (bind_result o (recv_socket o j) <? 0); [done|].
    by intros [= _ <-]. }
  assert (Hs : ∀ j c calls c', start_send_client o j c = (calls, Normal c') →
                               number_of_nodes_ c' = number_of_nodes_ c).
  { intros j c0 calls0 c0'. unfold start_send_client.
    destruct (connections_ c0 !! j); [|done].
    destruct (send_socket o j <? 0); [done|].
    destruct (connect_result o (send_socket o j) <? 0); [done|].
    by intros [= _ <-]. }
  unfold create_connections.
  destruct (start_each (start_recv_server o) tid (range (number_of_nodes_ c)) c)
    as [calls1 [c1| | |]] eqn:H1; try done.
  destruct (start_each (start_send_client o) tid (range (number_of_nodes_ c1)) c1)
    as [calls2 r] eqn:H2.
  intros [= _ ->].
  rewrite (start_each_nodes _ _ _ Hs _ _ _ H2).
  by rewrite (start_each_nodes _ _ _ Hr _ _ _ H1).
Qed.

(** X14: whenever [pbsm_init] completes, the node id is [atoi] of the
    argument, an [int]; at most 100 nodes are known, one receiver thread
    has been started for every peer, and every variable that was
    registered before (in whatever state its constructor left it) is in
    state OWNER_SHARED on node 0 and in state REMOTE_OWNER_CACHED with
    owner 0 on any other node, with its value as it was; nothing is
    registered or unregistered and the barrier table is untouched. *)
Theorem pbsm_init_assigns_roles o config net prog arg p s :
  (pbsm_init o config net [prog; arg] p).2 = Normal s →
  let tid := pbsm_tid (started_runtime s) in
  tid = atoi arg
  ∧ - 2 ^ 31 ≤ tid < 2 ^ 31
  ∧ 0 ≤ get_number_of_nodes (started_runtime s) ≤ 100
  ∧ threads_ s = peers (started_runtime s)
  ∧ (∀ i, registered (started_policy s) i = initial_role tid <$> registered p i)
  ∧ master_waiting_barrier_grants_ (started_policy s)
    = master_waiting_barrier_grants_ p.
Proof.
  unfold pbsm_init. rewrite decide_False by (intros H; by apply H).
  change (default EmptyString ([prog; arg] !! 1%nat)) with arg.
  set (tid := atoi arg).
  assert (Hrole : ∀ p1,
    (if decide (tid = 0) then master_node_init p else slave_node_init p) = Some p1 →
    (∀ i, registered p1 i = initial_role tid <$> registered p i)
    ∧ master_waiting_barrier_grants_ p1 = master_waiting_barrier_grants_ p).
  { intros p1. unfold master_node_init, slave_node_init, initial_role.
    destruct (decide (tid = 0)); destruct (all_non_null (dictionary_ p)); try done.
    all: intros [= <-]; split; [|done]; intros i; apply registered_fmap. }
  destruct (if decide (tid = 0) then master_node_init p else slave_node_init p)
    as [p1|]; [|done].
  destruct (Hrole p1 eq_refl) as [Hreg Hgr].
  destruct (CommunicationHandler_ctor tid config) as [[c evs]|what|code|] eqn:Hctor;
    try done.
  destruct (create_connections o tid c) as [calls [c1|what|code|]] eqn:Hconn; try done.
  simpl. intros [= <-]. simpl.
  assert (Hn : number_of_nodes_ c1 = number_of_nodes_ c)
    by (by eapply create_connections_nodes).
  split; [done|]. split; [apply to_int_range|]. split; [|by split].
  unfold get_number_of_nodes. simpl. rewrite Hn.
  destruct config as [content|]; [|done].
  by destruct (constructor_filled _ _ _ _ Hctor).
Qed.

(** With the argument 4294967296, which is 0 in 32 bits, the node is the
    master and owns the variable; with the argument 1 it is a slave and
    holds a copy owned by node 0. *)
Lemma pbsm_init_assigns_roles_witness :
  (∃ s,
     (pbsm_init example_os (Some two_hosts) (λ _, true)
        ["program"; "4294967296"]%string (example_policy REMOTE_OWNER_CACHED 5)).2
     = Normal s
     ∧ pbsm_tid (started_runtime s) = 0
     ∧ threads_ s = [1]
     ∧ registered (started_policy s) 7
       = Some (VarData (Shared 7 [x00; x00; x00; x00])
                 (PolicyData OWNER_SHARED 5 (Semaphore 0))))
  ∧ (∃ s,
       (pbsm_init example_os (Some two_hosts) (λ _, true)
          ["program"; "1"]%string (example_policy OWNER_NO_SHARED 5)).2
       = Normal s
       ∧ pbsm_tid (started_runtime s) = 1
       ∧ threads_ s = [0]
       ∧ registered (started_policy s) 7
         = Some (VarData (Shared 7 [x00; x00; x00; x00])
                   (PolicyData REMOTE_OWNER_CACHED 0 (Semaphore 0)))).
Proof.
  split.
  - destruct (pbsm_init example_os (Some two_hosts) (λ _, true)
                ["program"; "4294967296"]%string
                (example_policy REMOTE_OWNER_CACHED 5)).2 as [s| | |] eqn:Hrun;
      try (vm_compute in Hrun; discriminate Hrun).
    destruct (pbsm_init_assigns_roles example_os (Some two_hosts) (λ _, true)
                "program" "4294967296" (example_policy REMOTE_OWNER_CACHED 5) s Hrun)
      as (Htid & _ & _ & Hthreads & Hreg & _).
    assert (Hzero : pbsm_tid (started_runtime s) = 0) by (rewrite Htid; reflexivity).
    exists s. split; [reflexivity|]. split; [exact Hzero|]. split.
    + rewrite Hthreads. vm_compute in Hrun. injection Hrun as <-. reflexivity.
    + rewrite Hreg, Hzero. reflexivity.
  - destruct (pbsm_init example_os (Some two_hosts) (λ _, true)
                ["program"; "1"]%string
                (example_policy OWNER_NO_SHARED 5)).2 as [s| | |] eqn:Hrun;
      try (vm_compute in Hrun; discriminate Hrun).
    destruct (pbsm_init_assigns_roles example_os (Some two_hosts) (λ _, true)
                "program" "1" (example_policy OWNER_NO_SHARED 5) s Hrun)
      as (Htid & _ & _ & Hthreads & Hreg & _).
    assert (Hone : pbsm_tid (started_runtime s) = 1) by (rewrite Htid; reflexivity).
    exists s. split; [reflexivity|]. split; [exact Hone|]. split.
    + rewrite Hthreads. vm_compute in Hrun. injection Hrun as <-. reflexivity.
    + rewrite Hreg, Hone. reflexivity.
Defined.

(** ** Opening the sockets *)

Lemma start_recv_server_trace o tid j c :
  slot_ports tid c j →
  (∀ j', slot_ports tid c j' →
         ∀ calls c', start_recv_server o j c = (calls, Normal c') → slot_ports tid c' j')
  ∧ connected_ports (start_recv_server o j c).1 = []
  ∧ ((start_recv_server o j c).2 = Thrown "Receive socket error"
     ∨ (start_recv_server o j c).2 = Thrown "Bind error"
     ∨ 0 ≤ recv_socket o j ∧ 0 ≤ bind_result o (recv_socket o j)
       ∧ (∃ c', (start_recv_server o j c).2 = Normal c'
                ∧ number_of_nodes_ c' = number_of_nodes_ c)
       ∧ bound_ports (start_recv_server o j c).1
         = [htons_arg (network_port_offset + j)]).
Proof.
  intros (w & fr & fs & Hslot). unfold start_recv_server. rewrite Hslot.
  cbn [ip recv_port send_port send_fd].
  destruct (recv_socket o j <? 0) eqn:Hs; [by repeat split; try left|].
  destruct (bind_result o (recv_socket o j) <? 0) eqn:Hb.
  { split; [done|]. split; [done|]. right. by left. }
  apply Z.ltb_ge in Hs, Hb. split; [|split; [done|]].
  - intros j' (w' & fr' & fs' & Hj') calls c' [= _ <-]. unfold slot_ports. simpl.
    destruct (decide (j = j')) as [->|Hne].
    + rewrite lookup_insert_eq. by eexists _, _, _.
    + rewrite lookup_insert_ne by done. by eexists _, _, _.
  - right. right. split; [done|]. split; [done|]. split; [|done].
    eexists. by split.
Qed.

Lemma start_send_client_trace o tid j c :
  slot_ports tid c j →
  (∀ j', slot_ports tid c j' →
         ∀ calls c', start_send_client o j c = (calls, Normal c') → slot_ports tid c' j')
  ∧ bound_ports (start_send_client o j c).1 = []
  ∧ (0 ≤ send_socket o j → 0 ≤ connect_result o (send_socket o j) →
     (∃ c', (start_send_client o j c).2 = Normal c'
            ∧ number_of_nodes_ c' = number_of_nodes_ c)
     ∧ connected_ports (start_send_client o j c).1
       = [htons_arg (network_port_offset + tid)]).
Proof.
  intros (w & fr & fs & Hslot). unfold start_send_client. rewrite Hslot.
  cbn [ip recv_port send_port recv_fd].
  destruct (send_socket o j <? 0) eqn:Hs.
  { apply Z.ltb_lt in Hs. split; [done|]. split; [done|]. intros; lia. }
  destruct (connect_result o (send_socket o j) <? 0) eqn:Hb.
  { apply Z.ltb_lt in Hb. split; [done|]. split; [done|]. intros; lia. }
  split; [|split; [done|]].
  - intros j' (w' & fr' & fs' & Hj') calls c' [= _ <-]. unfold slot_ports. simpl.
    destruct (decide (j = j')) as [->|Hne].
    + rewrite lookup_insert_eq. by eexists _, _, _.
    + rewrite lookup_insert_ne by done. by eexists _, _, _.
  - intros _ _. split; [|done]. eexists. by split.
Qed.

Lemma bound_ports_app xs ys : bound_ports (xs ++ ys) = bound_ports xs ++ bound_ports ys.
Proof. induction xs as [|[] xs IH]; simpl; by rewrite ?IH. Qed.

Lemma connected_ports_app xs ys :
  connected_ports (xs ++ ys) = connected_ports xs ++ connected_ports ys.
Proof. induction xs as [|[] xs IH]; simpl; by rewrite ?IH. Qed.

(** The receive phase when every call succeeds. *)
Lemma recv_phase_ok o tid entries : ∀ c,
  os_succeeds o →
  (∀ j, j ∈ entries → slot_ports tid c j) →
  ∃ calls c',
    start_each (start_recv_server o) tid entries c = (calls, Normal c')
    ∧ number_of_nodes_ c' = number_of_nodes_ c
    ∧ (∀ j, slot_ports tid c j → slot_ports tid c' j)
    ∧ bound_ports calls
      = (λ j, htons_arg (network_port_offset + j)) <$> filter (λ j, j ≠ tid) entries
    ∧ connected_ports calls = [].
Proof.
  induction entries as [|j entries IH]; intros c Hos Hslots.
  - exists [], c. by repeat split.
  - simpl. rewrite filter_cons. destruct (decide (j ≠ tid)) as [Hj|Hj].
    + destruct (start_recv_server_trace o tid j c) as (Hkeep & Hconn & Hres).
      { apply Hslots. by left. }
      destruct Hos as (Hrecv & Hsend & Hbind & Hconnect).
      destruct (start_recv_server o j c) as [calls1 r1] eqn:Hstart. simpl in *.
      destruct Hres as [->|[->|(_ & _ & (c1 & -> & Hn1) & Hb1)]].
      { pose proof (Hrecv j) as Hr. unfold start_recv_server in Hstart.
        destruct (Hslots j) as (w & fr & fs & Hw); [by left|]. rewrite Hw in Hstart.
        rewrite (proj2 (Z.ltb_ge _ _) Hr), (proj2 (Z.ltb_ge _ _) (Hbind _)) in Hstart.
        done. }
      { pose proof (Hrecv j) as Hr. unfold start_recv_server in Hstart.
        destruct (Hslots j) as (w & fr & fs & Hw); [by left|]. rewrite Hw in Hstart.
        rewrite (proj2 (Z.ltb_ge _ _) Hr), (proj2 (Z.ltb_ge _ _) (Hbind _)) in Hstart.
        done. }
      destruct (IH c1) as (calls2 & c' & -> & Hn' & Hkeep' & Hb2 & Hc2).
      { done. }
      { intros j' Hj'. apply (Hkeep j' (Hslots j' (list_elem_of_further _ _ _ Hj')) calls1 c1).
        done. }
      eexists _, _. split; [reflexivity|]. split; [congruence|].
      split; [intros j' Hj'; eapply Hkeep', Hkeep; done|].
      rewrite bound_ports_app, connected_ports_app, Hb1, Hb2, Hconn, Hc2. done.
    + apply IH; [done|]. intros j' Hj'. apply Hslots. by right.
Qed.

Lemma send_phase_ok o tid entries : ∀ c,
  os_succeeds o →
  (∀ j, j ∈ entries → slot_ports tid c j) →
  ∃ calls c',
    start_each (start_send_client o) tid entries c = (calls, Normal c')
    ∧ number_of_nodes_ c' = number_of_nodes_ c
    ∧ connected_ports calls
      = (λ _, htons_arg (network_port_offset + tid)) <$> filter (λ j, j ≠ tid) entries
    ∧ bound_ports calls = [].
Proof.
  induction entries as [|j entries IH]; intros c Hos Hslots.
  - exists [], c. by repeat split.
  - simpl. rewrite filter_cons. destruct (decide (j ≠ tid)) as [Hj|Hj].
    + destruct (start_send_client_trace o tid j c) as (Hkeep & Hbound & Hres).
      { apply Hslots. by left. }
      pose proof Hos as (Hrecv & Hsend & Hbind & Hconnect).
      destruct (Hres (Hsend j) (Hconnect _)) as ((c1 & Hr1 & Hn1) & Hc1).
      destruct (start_send_client o j c) as [calls1 r1] eqn:Hstart. simpl in *.
      subst r1.
      destruct (IH c1) as (calls2 & c' & -> & Hn' & Hc2 & Hb2).
      { done. }
      { intros j' Hj'. apply (Hkeep j' (Hslots j' (list_elem_of_further _ _ _ Hj')) calls1 c1).
        done. }
      eexists _, _. split; [reflexivity|]. split; [congruence|].
      rewrite bound_ports_app, connected_ports_app, Hc1, Hc2, Hbound, Hb2. done.
    + apply IH; [done|]. intros j' Hj'. apply Hslots. by right.
Qed.

Lemma filled_slot_ports tid c j :
  filled tid c → 0 ≤ j < number_of_nodes_ c → slot_ports tid c j.
Proof. intros [_ Hslots] Hj. destruct (Hslots j Hj) as [w Hw]. by eexists _, _, _. Qed.

(** X15: on node [tid] of the [N] nodes that the constructor read from
    the file, when every system call succeeds, [create_connections] first
    binds one receive socket per peer, to the ports [2000 + j] for the
    peers [j] in increasing order, and only then connects one send socket
    per peer, each to port [2000 + tid]; no socket is opened for [tid]
    itself and the number of nodes is unchanged. *)
Theorem create_connections_binds_then_connects o tid config c evs :
  CommunicationHandler_ctor tid (Some config) = Normal (c, evs) →
  os_succeeds o →
  0 ≤ tid < number_of_nodes_ c →
  let others := filter (λ j, j ≠ tid) (range (number_of_nodes_ c)) in
  ∃ recv_calls send_calls c',
    create_connections o tid c = (recv_calls ++ send_calls, Normal c')
    ∧ number_of_nodes_ c' = number_of_nodes_ c
    ∧ Z.of_nat (length others) = number_of_nodes_ c - 1
    ∧ bound_ports recv_calls = (λ j, network_port_offset + j) <$> others
    ∧ connected_ports recv_calls = []
    ∧ connected_ports send_calls = (λ _, network_port_offset + tid) <$> others
    ∧ bound_ports send_calls = [].
Proof.
  intros Hctor Hos Htid others.
  pose proof (constructor_filled _ _ _ _ Hctor) as Hfilled.
  pose proof Hfilled as [[_ HN] _]. unfold MAX_NUMBER_OF_NODES in HN.
  destruct (recv_phase_ok o tid (range (number_of_nodes_ c)) c Hos)
    as (calls1 & c1 & Hrun1 & Hn1 & Hkeep1 & Hb1 & Hc1).
  { intros j Hj. apply elem_of_seqZ in Hj. apply filled_slot_ports; [done|lia]. }
  destruct (send_phase_ok o tid (range (number_of_nodes_ c1)) c1 Hos)
    as (calls2 & c2 & Hrun2 & Hn2 & Hc2 & Hb2).
  { intros j Hj. apply elem_of_seqZ in Hj. apply Hkeep1.
    apply filled_slot_ports; [done|lia]. }
  exists calls1, calls2, c2. unfold create_connections. rewrite Hrun1, Hrun2.
  split; [done|]. split; [congruence|].
  split; [apply (peers_length (Runtime tid c (λ _, true))); done|].
  assert (Hsmall : ∀ j, j ∈ others →
            htons_arg (network_port_offset + j) = network_port_offset + j).
  { intros j Hj. apply list_elem_of_filter in Hj as [_ Hj]. apply elem_of_seqZ in Hj.
    unfold htons_arg, network_port_offset. apply Z.mod_small. lia. }
  split; [|split; [done|split; [|done]]].
  - rewrite Hb1. apply list_fmap_ext. intros k j Hk. apply Hsmall.
    by eapply list_elem_of_lookup_2.
  - rewrite Hc2, Hn1. apply list_fmap_ext. intros k j Hk.
    unfold htons_arg, network_port_offset. apply Z.mod_small. lia.
Qed.

Lemma create_connections_binds_then_connects_witness :
  ∃ recv_calls send_calls c c',
    create_connections (OS (λ _, 3) (λ _, 4) (λ _, 0) (λ _, 0)) 0 c
    = (recv_calls ++ send_calls, Normal c')
    ∧ bound_ports recv_calls = [2001]
    ∧ connected_ports send_calls = [2000].
Proof.
  destruct (CommunicationHandler_ctor 0 (Some two_hosts)) as [[c evs]| | |] eqn:Hctor;
    try (vm_compute in Hctor; discriminate Hctor).
  assert (Hn : number_of_nodes_ c = 2).
  { vm_compute in Hctor. injection Hctor as <- _. reflexivity. }
  destruct (create_connections_binds_then_connects
              (OS (λ _, 3) (λ _, 4) (λ _, 0) (λ _, 0)) 0 two_hosts c evs Hctor)
    as (recv_calls & send_calls & c' & Hrun & _ & _ & Hb & _ & Hc & _).
  - repeat split; intros; vm_compute; discriminate.
  - rewrite Hn. lia.
  - exists recv_calls, send_calls, c, c'. split; [exact Hrun|].
    rewrite Hn in Hb, Hc. split; [exact Hb|exact Hc].
Defined.

(** The receive phase when a peer's socket cannot be created or bound. *)
Lemma recv_phase_fails o tid k entries : ∀ c,
  (∀ j, j ∈ entries → slot_ports tid c j) →
  k ∈ entries → k ≠ tid →
  recv_socket o k < 0 ∨ bind_result o (recv_socket o k) < 0 →
  ∃ calls what,
    start_each (start_recv_server o) tid entries c = (calls, Thrown what)
    ∧ (what = "Receive socket error"%string ∨ what = "Bind error"%string)
    ∧ connected_ports calls = [].
Proof.
  induction entries as [|j entries IH]; intros c Hslots Hk Hne Hfail.
  - by apply elem_of_nil in Hk.
  - simpl. destruct (decide (j ≠ tid)) as [Hj|Hj].
    + destruct (start_recv_server_trace o tid j c) as (Hkeep & Hconn & Hres).
      { apply Hslots. by left. }
      destruct (start_recv_server o j c) as [calls1 r1] eqn:Hstart. simpl in *.
      destruct Hres as [->|[->|(Hs & Hb & (c1 & -> & Hn1) & Hb1)]].
      { eexists _, _. split; [reflexivity|]. split; [by left|done]. }
      { eexists _, _. split; [reflexivity|]. split; [by right|done]. }
      apply elem_of_cons in Hk as [->|Hk]; [lia|].
      destruct (IH c1) as (calls2 & what & -> & Hwhat & Hc2); try done.
      { intros j' Hj'. apply (Hkeep j' (Hslots j' (list_elem_of_further _ _ _ Hj')) calls1 c1).
        done. }
      eexists _, _. split; [reflexivity|]. split; [done|].
      by rewrite connected_ports_app, Hconn, Hc2.
    + apply elem_of_cons in Hk as [->|Hk]; [by destruct Hj|].
      apply IH; try done. intros j' Hj'. apply Hslots. by right.
Qed.

(** X16: when, for some peer, the receive socket cannot be created or
    cannot be bound, [create_connections] ends with the exception
    "Receive socket error" or "Bind error" and has not called [connect]
    at all: no send socket is opened. *)
Theorem create_connections_stops_at_receive_failure o tid config c evs k :
  CommunicationHandler_ctor tid (Some config) = Normal (c, evs) →
  0 ≤ k < number_of_nodes_ c →
  k ≠ tid →
  recv_socket o k < 0 ∨ bind_result o (recv_socket o k) < 0 →
  ∃ calls what,
    create_connections o tid c = (calls, Thrown what)
    ∧ (what = "Receive socket error"%string ∨ what = "Bind error"%string)
    ∧ connected_ports calls = [].
Proof.
  intros Hctor Hk Hne Hfail.
  pose proof (constructor_filled _ _ _ _ Hctor) as Hfilled.
  destruct (recv_phase_fails o tid k (range (number_of_nodes_ c)) c)
    as (calls & what & Hrun & Hwhat & Hconn); try done.
  - intros j Hj. apply elem_of_seqZ in Hj. apply filled_slot_ports; [done|lia].
  - apply elem_of_seqZ. lia.
  - exists calls, what. unfold create_connections. by rewrite Hrun.
Qed.

Lemma create_connections_stops_at_receive_failure_witness :
  ∃ c calls what,
    create_connections (OS (λ _, -1) (λ _, 5) (λ _, 0) (λ _, 0)) 0 c
    = (calls, Thrown what)
    ∧ connected_ports calls = [].
Proof.
  destruct (CommunicationHandler_ctor 0 (Some two_hosts)) as [[c evs]| | |] eqn:Hctor;
    try (vm_compute in Hctor; discriminate Hctor).
  assert (Hn : number_of_nodes_ c = 2).
  { vm_compute in Hctor. injection Hctor as <- _. reflexivity. }
  destruct (create_connections_stops_at_receive_failure
              (OS (λ _, -1) (λ _, 5) (λ _, 0) (λ _, 0)) 0 two_hosts c evs 1 Hctor)
    as (calls & what & Hrun & _ & Hconn).
  - rewrite Hn. lia.
  - discriminate.
  - left. reflexivity.
  - exists c, calls, what. split; [exact Hrun|exact Hconn].
Defined.

(** ** Files with fewer lines than the limit *)

Lemma read_word_to_eof w :
  no_space w = true → read_word w = (w, EmptyString, true).
Proof.
  induction w as [|ch w IH]; intros Hw; [done|].
  simpl in Hw. apply andb_true_iff in Hw as [Hch Hw].
  apply negb_true_iff in Hch. simpl. by rewrite Hch, (IH Hw).
Qed.

Lemma skipws_no_space w : no_space w = true → skipws w = w.
Proof.
  destruct w as [|ch w]; [done|]. simpl. intros Hw.
  apply andb_true_iff in Hw as [Hch _]. apply negb_true_iff in Hch. by rewrite Hch.
Qed.

(** The text after the last newline, an address or nothing, ends the loop
    at the end of the file without being counted. *)
Lemma extract_unterminated last :
  no_space last = true → (extract last).2 = true.
Proof.
  intros Hw. unfold extract. rewrite (skipws_no_space _ Hw).
  destruct last as [|ch w]; [done|]. by rewrite (read_word_to_eof _ Hw).
Qed.

Lemma constructor_loop_short tid last lines : ∀ fuel i c s,
  Forall (λ w, is_address w = true) lines →
  no_space last = true →
  number_of_nodes_ c + Z.of_nat (length lines) < MAX_NUMBER_OF_NODES →
  (length lines < fuel)%nat →
  skipws s = skipws (file_of_lines lines last) →
  ∃ c',
    constructor_loop fuel tid i s c = Some (c', [])
    ∧ number_of_nodes_ c' = number_of_nodes_ c + Z.of_nat (length lines)
    ∧ (∀ (k : nat) w, lines !! k = Some w →
         connections_ c' !! (i + Z.of_nat k)
         = Some (Connection w (network_port_offset + (i + Z.of_nat k)) None
                   (network_port_offset + tid) None))
    ∧ (∀ j, j < i ∨ i + Z.of_nat (length lines) ≤ j →
         connections_ c' !! j = connections_ c !! j).
Proof.
  induction lines as [|w lines IH]; intros fuel i c s Hall Hlast Hcount Hfuel Hs.
  - destruct fuel as [|fuel]; [simpl in Hfuel; lia|].
    simpl constructor_loop. rewrite (extract_skipws _ _ Hs). simpl file_of_lines.
    pose proof (extract_unterminated last Hlast) as Heof.
    destruct (extract last) as [[w rest] eof]. simpl in Heof. subst eof.
    exists c. split; [done|]. split; [simpl; lia|]. by split.
  - apply Forall_cons in Hall as [Hw Hall].
    destruct fuel as [|fuel]; [simpl in Hfuel; lia|].
    simpl constructor_loop.
    rewrite (extract_skipws _ _ Hs). simpl file_of_lines. rewrite (extract_line _ _ Hw).
    simpl default.
    set (entry := Connection w (network_port_offset + i) None
                    (network_port_offset + tid) None).
    set (c1 := Comm (<[i := entry]> (connections_ c)) (number_of_nodes_ c + 1)).
    cbn [number_of_nodes_]. simpl length in Hcount, Hfuel.
    rewrite (proj2 (Z.eqb_neq _ _)) by lia.
    destruct (IH fuel (i + 1) c1 (String newline (file_of_lines lines last)))
      as (c' & Hrun & Hn & Hlines & Hold); [done|done|simpl; lia|lia|done|].
    exists c'. split; [done|]. split; [simpl in Hn; simpl length; lia|]. split.
    + intros [|k] w0 Hk.
      * injection Hk as <-. rewrite Z.add_0_r, Hold by lia.
        simpl. by rewrite lookup_insert_eq.
      * replace (i + Z.of_nat (S k)) with (i + 1 + Z.of_nat k) by lia.
        by apply Hlines.
    + intros j Hj. simpl length in Hj.
      rewrite Hold by lia. simpl. by rewrite lookup_insert_ne by lia.
Qed.

(** X17: for a file with fewer than 100 lines that each hold an address
    and end with a newline, followed by [last], which is empty or an
    address that no newline follows, the constructor makes exactly the
    lines the nodes, in order, without a warning: an address on the last
    line that is not ended by a newline is not counted as a node, and an
    empty file gives no node. *)
Theorem loader_drops_unterminated_last_line tid lines last :
  Forall (λ w, is_address w = true) lines →
  no_space last = true →
  (length lines < Z.to_nat MAX_NUMBER_OF_NODES)%nat →
  ∃ c,
    CommunicationHandler_ctor tid (Some (file_of_lines lines last)) = Normal (c, [])
    ∧ number_of_nodes_ c = Z.of_nat (length lines)
    ∧ (∀ (k : nat) w, lines !! k = Some w →
         connections_ c !! Z.of_nat k
         = Some (Connection w (network_port_offset + Z.of_nat k) None
                   (network_port_offset + tid) None))
    ∧ (∀ j, Z.of_nat (length lines) ≤ j → connections_ c !! j = None).
Proof.
  intros Hall Hlast Hlen. unfold CommunicationHandler_ctor.
  destruct (constructor_loop_short tid last lines (Z.to_nat MAX_NUMBER_OF_NODES) 0
              (Comm ∅ 0) (file_of_lines lines last))
    as (c & Hrun & Hn & Hlines & Hold).
  - exact Hall.
  - exact Hlast.
  - cbn [number_of_nodes_]. unfold MAX_NUMBER_OF_NODES in *. lia.
  - exact Hlen.
  - reflexivity.
  - rewrite Hrun. exists c. split; [reflexivity|].
    split; [cbn [number_of_nodes_] in Hn; lia|]. split.
    + intros k w Hk. specialize (Hlines k w Hk). by rewrite Z.add_0_l in Hlines.
    + intros j Hj. rewrite Hold; [apply lookup_empty|]. right. lia.
Qed.

Lemma loader_drops_unterminated_last_line_witness :
  ∃ c,
    CommunicationHandler_ctor 0
      (Some (file_of_lines ["10.0.0.1"; "10.0.0.2"]%string "10.0.0.3"))
    = Normal (c, [])
    ∧ number_of_nodes_ c = 2.
Proof.
  destruct (loader_drops_unterminated_last_line 0 ["10.0.0.1"; "10.0.0.2"]%string
              "10.0.0.3")
    as (c & Hrun & Hn & _).
  - repeat constructor.
  - reflexivity.
  - vm_compute. lia.
  - exists c. split; [exact Hrun|exact Hn].
Defined.

(** ** The identifier hash *)

Lemma string_get_append pre s k :
  String.get (String.length pre + k) (pre +:+ s) = String.get k s.
Proof. induction pre as [|ch pre IH]; [done|]. simpl. exact IH. Qed.

Lemma string_length_append pre s :
  String.length (pre +:+ s) = (String.length pre + String.length s)%nat.
Proof. induction pre as [|ch pre IH]; [done|]. simpl. by rewrite IH. Qed.

(** The characters that [H1] reads at the positions up to the length of
    [s] are the same with any text in front of [s]. *)
Lemma H1_suffix pre s i x :
  0 ≤ i ≤ Z.of_nat (String.length s) →
  H1 (pre +:+ s) i x = H1 s i x.
Proof.
  intros Hi. unfold H1, sizeof_literal. rewrite string_length_append.
  rewrite !(proj2 (Z.ltb_lt _ _)) by lia.
  f_equal. f_equal. unfold literal_at.
  replace (Z.to_nat (Z.of_nat (String.length pre + String.length s) + 1 - 1 - i))
    with (String.length pre + Z.to_nat (Z.of_nat (String.length s) + 1 - 1 - i))%nat
    by lia.
  by rewrite string_get_append.
Qed.

Lemma H4_suffix pre s i x :
  0 ≤ i → i + 3 ≤ Z.of_nat (String.length s) →
  H4 (pre +:+ s) i x = H4 s i x.
Proof. intros Hi Hlen. unfold H4. by rewrite !H1_suffix by lia. Qed.

Lemma H16_suffix pre s i x :
  0 ≤ i → i + 15 ≤ Z.of_nat (String.length s) →
  H16 (pre +:+ s) i x = H16 s i x.
Proof. intros Hi Hlen. unfold H16. by rewrite !H4_suffix by lia. Qed.

Lemma H64_suffix pre s i x :
  0 ≤ i → i + 63 ≤ Z.of_nat (String.length s) →
  H64 (pre +:+ s) i x = H64 s i x.
Proof. intros Hi Hlen. unfold H64. by rewrite !H16_suffix by lia. Qed.

(** X18: [HASH] reads only the last 63 characters of its argument (and the
    terminating NUL): two tokens that end with the same 63 characters,
    whatever precedes them, get the same identifier. *)
Theorem HASH_reads_last_63_characters pre1 pre2 s :
  (63 ≤ String.length s)%nat →
  HASH (pre1 +:+ s) = HASH (pre2 +:+ s).
Proof.
  intros Hlen. unfold HASH.
  rewrite (H64_suffix pre1 s 0 0), (H64_suffix pre2 s 0 0) by lia.
  reflexivity.
Qed.

Lemma HASH_reads_last_63_characters_witness :
  HASH ("/home/alice/" +:+ "projects/distributed/pbsm/examples/counter/src/main_test.cpp:21")
  = HASH ("/srv/bob/" +:+ "projects/distributed/pbsm/examples/counter/src/main_test.cpp:21").
Proof.
  apply (HASH_reads_last_63_characters "/home/alice/" "/srv/bob/"
           "projects/distributed/pbsm/examples/counter/src/main_test.cpp:21").
  vm_compute. lia.
Defined.

(** ** A write on a shared variable, end to end *)

(** As many acknowledgements as the counter asks for wake the writer. *)
Lemma acks_complete rt var_id acks nd v ret :
  Forall (is_ack var_id) acks →
  registered (policy nd) var_id = Some v →
  app nd = Blocked (waiting_invalidate_copies_wait_condition_ var_id)
             (after_wait_invalidate_copies var_id ret) →
  pending v < ULONG_MODULUS →
  0 < pending v →
  Z.of_nat (length acks) = pending v →
  ∃ nd' evs,
    deliver_all rt acks nd = (nd', evs)
    ∧ transmissions evs = []
    ∧ app nd' = Returned (RBool ret)
    ∧ registered (policy nd') var_id
      = Some (set_state OWNER_NO_SHARED (set_counter 0 v)).
Proof.
  intros Hacks Hreg Happ Hmax Hpos Hlen.
  destruct acks as [|x acks _] using rev_ind; [simpl in Hlen; lia|].
  rewrite length_app in Hlen. simpl in Hlen.
  apply Forall_app in Hacks as [Hfront Hlast].
  rewrite Forall_singleton in Hlast. destruct x as [[rem_node msg] d].
  destruct (acks_pending rt var_id acks nd v _ Hfront Hreg Happ Hmax)
    as (nd1 & Hrun1 & Happ1 & Hreg1); [lia|].
  destruct (last_ack_wakes rt var_id rem_node msg d nd1 _ ret Hlast Hreg1 Happ1)
    as (nd2 & Hd2 & Happ2 & Hreg2).
  { unfold pending in *. simpl. lia. }
  exists nd2, [EvNotify (waiting_invalidate_copies_wait_condition_ var_id)].
  rewrite deliver_all_app, Hrun1. simpl. rewrite Hd2.
  split; [done|]. split; [done|]. split; [done|].
  by rewrite Hreg2, set_counter_set_counter.
Qed.

(** X19: a node with a valid id, one of at least two nodes, writes a
    variable it holds in state OWNER_SHARED, and every peer [i] (running
    as node [i]) has the variable registered.  The writer sends each peer
    one MSG_INVALIDATE_COPY; each peer's handler puts its copy in state
    REMOTE_OWNER_NO_CACHED and answers the writer with one
    MSG_INVALIDATE_COPY_ACK; once these answers, in any order, have been
    handled at the writer, the write hook has returned and the writer
    holds the variable in state OWNER_NO_SHARED. *)
Theorem shared_write_invalidates_every_peer rt var_id p v
    (rts : Z → runtime) (pol : Z → Policy) (vs : Z → var_data) :
  0 ≤ pbsm_tid rt < get_number_of_nodes rt →
  2 ≤ get_number_of_nodes rt ≤ 100 →
  registered p var_id = Some v →
  state_ (policy_data_ v) = OWNER_SHARED →
  (∀ i, i ∈ peers rt →
        pbsm_tid (rts i) = i ∧ registered (pol i) var_id = Some (vs i)) →
  let inv := Msg 8 var_id (pbsm_tid rt) in
  let answers := (λ i, (i, Msg 9 var_id i, @nil byte)) <$> peers rt in
  ∃ nd evs ret,
    call (before_local_write rt var_id) (Node p (Returned RVoid)) = (nd, evs)
    ∧ sent evs = (λ i, (i, inv)) <$> peers rt
    ∧ (∀ i, i ∈ peers rt →
         ∃ evs_i,
           receive_messages_body (rts i) (pbsm_tid rt) inv [] (pol i)
           = (MkPolicy
                (<[var_id :=
                     Some (VarData (variable_ (vs i))
                             (PolicyData REMOTE_OWNER_NO_CACHED
                                (remote_owner_ (policy_data_ (vs i)))
                                (waiting_invalidate_copies_ (policy_data_ (vs i)))))]>
                   (dictionary_ (pol i)))
                (master_waiting_barrier_grants_ (pol i)),
              evs_i, Completed)
           ∧ sent evs_i = [(pbsm_tid rt, Msg 9 var_id i)])
    ∧ (∀ acks, acks ≡ₚ answers →
         ∃ nd' evs',
           deliver_all rt acks nd = (nd', evs')
           ∧ transmissions evs' = []
           ∧ app nd' = Returned (RBool ret)
           ∧ registered (policy nd') var_id
             = Some (VarData (variable_ v)
                       (PolicyData OWNER_NO_SHARED (remote_owner_ (policy_data_ v))
                          (Semaphore 0)))).
Proof.
  intros Htid [HN Hmax] Hreg Hst Hpeers inv answers.
  set (N := get_number_of_nodes rt) in *.
  assert (Hconv : to_ulong (N - 1) = N - 1).
  { unfold to_ulong, ULONG_MODULUS. apply Z.mod_small. lia. }
  assert (Hsmall : ∀ i, 0 ≤ i < N → to_ulong i = i).
  { intros i Hi. unfold to_ulong, ULONG_MODULUS. apply Z.mod_small. lia. }
  assert (Hself : to_ulong (pbsm_tid rt) = pbsm_tid rt) by (apply Hsmall; lia).
  pose proof (send_to_all_sent rt inv) as Hsent.
  destruct (send_to_all rt inv) as [evs ok] eqn:Hsend. simpl in Hsent.
  set (ret := if ok then true else false).
  set (nd := Node (store_var var_id (set_counter (N - 1) v) p)
               (Blocked (waiting_invalidate_copies_wait_condition_ var_id)
                        (after_wait_invalidate_copies var_id ret))).
  exists nd, (if ok then evs else evs ++ [EvError "ERROR in sending MSG_INVALIDATE_COPY"]),
         ret.
  split; [|split; [by rewrite sent_with_error|split]].
  - unfold call, before_local_write. cbn [policy].
    rewrite (map_index_registered _ _ _ Hreg), set_dictionary_same, Hst, Hself.
    change (mk_msg MSG_INVALIDATE_COPY var_id (pbsm_tid rt)) with inv.
    rewrite Hsend. fold N. by rewrite Hconv.
  - intros i Hi. destruct (Hpeers i Hi) as [Hrt Hri].
    apply list_elem_of_filter in Hi as [Hne Hi]. apply elem_of_seqZ in Hi. fold N in Hi.
    pose proof (invalidate_copy_body (rts i) (pbsm_tid rt) inv [] (pol i) (vs i)
                  eq_refl Hri) as Hbody.
    cbn [msg_id msg_data inv] in Hbody. rewrite Hrt, (Hsmall i) in Hbody by lia.
    rewrite Hbody. eexists. split; [reflexivity|].
    rewrite sent_with_error. apply send_to_sent.
    rewrite Hrt, (Hsmall i) by lia. congruence.
  - intros acks Hperm.
    assert (Hall : Forall (is_ack var_id) acks).
    { rewrite Hperm. unfold answers. apply Forall_fmap, Forall_true. by intros i. }
    assert (Hlen : Z.of_nat (length acks) = N - 1).
    { rewrite Hperm. unfold answers. rewrite length_fmap. by apply peers_length. }
    apply (acks_complete rt var_id acks nd (set_counter (N - 1) v) ret Hall).
    + apply registered_store_var_eq.
    + done.
    + unfold pending, ULONG_MODULUS. simpl. lia.
    + unfold pending. simpl. lia.
    + done.
Qed.

Lemma shared_write_invalidates_every_peer_witness :
  ∃ nd evs,
    call (before_local_write (example_runtime 0 3) 7)
      (Node (example_policy OWNER_SHARED 0) (Returned RVoid)) = (nd, evs)
    ∧ sent evs = [(1, Msg 8 7 0); (2, Msg 8 7 0)].
Proof.
  destruct (shared_write_invalidates_every_peer (example_runtime 0 3) 7
              (example_policy OWNER_SHARED 0) (example_var OWNER_SHARED 0)
              (λ i, example_runtime i 3) (λ _, example_policy REMOTE_OWNER_CACHED 0)
              (λ _, example_var REMOTE_OWNER_CACHED 0))
    as (nd & evs & ret & Hcall & Hsent & _).
  - vm_compute. split; [discriminate|reflexivity].
  - vm_compute. split; discriminate.
  - reflexivity.
  - reflexivity.
  - intros i _. split; reflexivity.
  - exists nd, evs. split; [exact Hcall|exact Hsent].
Defined.

(** ** Instances of the statements without a premise of their own *)

Lemma send_to_all_reaches_each_peer_once_witness :
  transmissions (send_to_all (example_runtime 1 3) (Msg 8 7 1)).1
  = (λ i, (i, Header (Msg 8 7 1))) <$> peers (example_runtime 1 3).
Proof.
  exact (proj1 (send_to_all_reaches_each_peer_once (example_runtime 1 3)
                  (mk_msg MSG_INVALIDATE_COPY 7 1))).
Defined.

Lemma variable_creation_registers_witness :
  registered
    (at_variable_creation (example_runtime (-1) 0) (Shared 7 [x00; x00; x00; x00])
       (PolicyData OWNER_NO_SHARED 9 (Semaphore 3)) (MkPolicy ∅ ∅)) 7
  = Some (initial_role (-1)
            (VarData (Shared 7 [x00; x00; x00; x00])
               (PolicyData OWNER_NO_SHARED 9 (Semaphore 3)))).
Proof.
  exact (proj1 (variable_creation_registers (example_runtime (-1) 0)
                  (Shared 7 [x00; x00; x00; x00])
                  (PolicyData OWNER_NO_SHARED 9 (Semaphore 3)) (MkPolicy ∅ ∅))).
Defined.

Lemma handlers_keep_registry_shape_witness :
  shape <$> registered
    (receive_messages_body (example_runtime 1 3) 0 (Msg 5 7 4)
       [x2a; x00; x00; x00] (example_policy REMOTE_OWNER_NO_CACHED 0)).1.1 7
  = shape <$> registered (example_policy REMOTE_OWNER_NO_CACHED 0) 7.
Proof.
  apply (handlers_keep_registry_shape (example_runtime 1 3) 0
           (mk_msg MSG_SET_NEW_VALUE 7 4) [x2a; x00; x00; x00]
           (example_policy REMOTE_OWNER_NO_CACHED 0) 7).
  vm_compute. discriminate.
Defined.

Lemma handlers_never_send_to_self_witness :
  Forall (λ x, x.1 ≠ 1)
    (transmissions
       (receive_messages_body (example_runtime 1 3) 0 (Msg 8 7 1) []
          (example_policy REMOTE_OWNER_CACHED 0)).1.2).
Proof.
  apply (handlers_never_send_to_self (example_runtime 1 3) 0
           (mk_msg MSG_INVALIDATE_COPY 7 1) [] (example_policy REMOTE_OWNER_CACHED 0)).
  vm_compute. discriminate.
Defined.
